(** * Crash-capture subsystem of Warzone 2100 (lib/exceptionhandler/exceptionhandler.c)

    A shallow embedding of the POSIX half of the exception handler: the signal
    classifier [wz_strsignal], the registrar [setFatalSignalHandler], the
    debugger orchestrator [execGdb] / [gdbExtendedBacktrace], the fault
    responder [posixExceptionHandler] and the tool locator [fetchProgramPath].

    System calls are modelled as events appended to a trace; what the operating
    system answers (descriptors, process ids, wait statuses) is an explicit
    input, the [oracle].  The constants of <signal.h>, <sys/wait.h> and
    <unistd.h> are not part of the source file: they are the fields of the
    class [Platform], with the Linux/glibc values as one instance. *)

From Stdlib Require Import ZArith List String Ascii Bool Lia.
From Stdlib Require Strings.Byte.
Import ListNotations.
Open Scope string_scope.
Open Scope list_scope.
Open Scope Z_scope.

(** String concatenation, kept apart from list concatenation. *)
Infix "+++" := String.append (at level 60, right associativity).

(** ** Platform headers *)

(** What the C preprocessor and the system headers supply.  [XOPEN_UNIX] and
    [GLIBC] stand for the conditional-compilation tests [#if _XOPEN_UNIX] and
    [#if defined(__GLIBC__)]; [POLL_ERR] and [POLL_HUP] are optional because
    the source tests [defined(POLL_ERR) && defined(POLL_HUP)]. *)
Class Platform : Type := {
  SIGABRT : Z; SIGALRM : Z; SIGBUS : Z; SIGCHLD : Z; SIGCONT : Z; SIGFPE : Z;
  SIGHUP : Z; SIGILL : Z; SIGINT : Z; SIGKILL : Z; SIGPIPE : Z; SIGQUIT : Z;
  SIGSEGV : Z; SIGSTOP : Z; SIGTERM : Z; SIGTSTP : Z; SIGTTIN : Z; SIGTTOU : Z;
  SIGUSR1 : Z; SIGUSR2 : Z; SIGPOLL : Z; SIGPROF : Z; SIGSYS : Z; SIGTRAP : Z;
  SIGURG : Z; SIGVTALRM : Z; SIGXCPU : Z; SIGXFSZ : Z;
  BUS_ADRALN : Z; BUS_ADRERR : Z; BUS_OBJERR : Z;
  CLD_EXITED : Z; CLD_KILLED : Z; CLD_DUMPED : Z; CLD_TRAPPED : Z;
  CLD_STOPPED : Z; CLD_CONTINUED : Z;
  FPE_INTDIV : Z; FPE_INTOVF : Z; FPE_FLTDIV : Z; FPE_FLTOVF : Z;
  FPE_FLTUND : Z; FPE_FLTRES : Z; FPE_FLTINV : Z; FPE_FLTSUB : Z;
  ILL_ILLOPC : Z; ILL_ILLOPN : Z; ILL_ILLADR : Z; ILL_ILLTRP : Z;
  ILL_PRVOPC : Z; ILL_PRVREG : Z; ILL_COPROC : Z; ILL_BADSTK : Z;
  SEGV_MAPERR : Z; SEGV_ACCERR : Z;
  POLL_IN : Z; POLL_OUT : Z; POLL_MSG : Z; POLL_PRI : Z;
  POLL_ERR : option Z; POLL_HUP : option Z;
  TRAP_BRKPT : Z; TRAP_TRACE : Z;
  SI_TKILL : Z;
  SA_SIGINFO : Z; SA_NODEFER : Z;
  STDIN_FILENO : Z; STDOUT_FILENO : Z; STDERR_FILENO : Z;
  PATH_MAX : nat;
  WIFEXITED : Z -> bool;
  WEXITSTATUS : Z -> Z;
  XOPEN_UNIX : bool;
  GLIBC : bool
}.

(** The values of Linux with glibc on x86-64 (bits/signum-generic.h,
    bits/siginfo-consts.h, bits/sigaction.h, bits/waitstatus.h). *)
#[export] Instance linux : Platform := {|
  SIGABRT := 6; SIGALRM := 14; SIGBUS := 7; SIGCHLD := 17; SIGCONT := 18;
  SIGFPE := 8; SIGHUP := 1; SIGILL := 4; SIGINT := 2; SIGKILL := 9;
  SIGPIPE := 13; SIGQUIT := 3; SIGSEGV := 11; SIGSTOP := 19; SIGTERM := 15;
  SIGTSTP := 20; SIGTTIN := 21; SIGTTOU := 22; SIGUSR1 := 10; SIGUSR2 := 12;
  SIGPOLL := 29; SIGPROF := 27; SIGSYS := 31; SIGTRAP := 5; SIGURG := 23;
  SIGVTALRM := 26; SIGXCPU := 24; SIGXFSZ := 25;
  BUS_ADRALN := 1; BUS_ADRERR := 2; BUS_OBJERR := 3;
  CLD_EXITED := 1; CLD_KILLED := 2; CLD_DUMPED := 3; CLD_TRAPPED := 4;
  CLD_STOPPED := 5; CLD_CONTINUED := 6;
  FPE_INTDIV := 1; FPE_INTOVF := 2; FPE_FLTDIV := 3; FPE_FLTOVF := 4;
  FPE_FLTUND := 5; FPE_FLTRES := 6; FPE_FLTINV := 7; FPE_FLTSUB := 8;
  ILL_ILLOPC := 1; ILL_ILLOPN := 2; ILL_ILLADR := 3; ILL_ILLTRP := 4;
  ILL_PRVOPC := 5; ILL_PRVREG := 6; ILL_COPROC := 7; ILL_BADSTK := 8;
  SEGV_MAPERR := 1; SEGV_ACCERR := 2;
  POLL_IN := 1; POLL_OUT := 2; POLL_MSG := 3; POLL_PRI := 5;
  POLL_ERR := Some 4; POLL_HUP := Some 6;
  TRAP_BRKPT := 1; TRAP_TRACE := 2;
  SI_TKILL := -6;
  SA_SIGINFO := 4; SA_NODEFER := 1073741824;
  STDIN_FILENO := 0; STDOUT_FILENO := 1; STDERR_FILENO := 2;
  PATH_MAX := 4096;
  WIFEXITED := fun status => Z.land status 127 =? 0;
  WEXITSTATUS := fun status => Z.shiftr (Z.land status 65280) 8;
  XOPEN_UNIX := true;
  GLIBC := true
|}.

(** ** Text helpers *)

(** The escape sequences of the C string literals of the source. *)
Definition nl : string := String "010"%char EmptyString.
Definition dq : string := String "034"%char EmptyString.
Definition nul : string := String "000"%char EmptyString.

(** ** The switch statement *)

(** [switch cases default x]: control jumps to the body of the case whose
    label equals [x], to [default] when no label does.  A C compiler refuses
    duplicated labels, so the order in which the labels are tried plays no
    role on a platform where the translation unit compiles. *)
Fixpoint switch {A : Type} (cases : list (Z * A)) (default : A) (x : Z) : A :=
  match cases with
  | [] => default
  | (label, body) :: rest => if x =? label then body else switch rest default x
  end.

Definition labels {A : Type} (cases : list (Z * A)) : list Z := map fst cases.

(** ** Signal Classifier *)

Section Classifier.
Context {P : Platform}.

(** Cases that exist only under [#if _XOPEN_UNIX]. *)
Definition if_xopen {A : Type} (cases : list A) : list A :=
  if XOPEN_UNIX then cases else [].

(** [#if defined(POLL_ERR) && defined(POLL_HUP) && (POLL_ERR != POLL_HUP)]
    and its counterpart with [==]. *)
Definition poll_err_hup_differ : option (Z * Z) :=
  match POLL_ERR, POLL_HUP with
  | Some e, Some h => if e =? h then None else Some (e, h)
  | _, _ => None
  end.

Definition poll_err_hup_same : option Z :=
  match POLL_ERR, POLL_HUP with
  | Some e, Some h => if e =? h then Some e else None
  | _, _ => None
  end.

Definition bus_cases : list (Z * string) :=
  [ (BUS_ADRALN, "SIGBUS: Access to an undefined portion of a memory object: Invalid address alignment");
    (BUS_ADRERR, "SIGBUS: Access to an undefined portion of a memory object: Nonexistent physical address");
    (BUS_OBJERR, "SIGBUS: Access to an undefined portion of a memory object: Object-specific hardware error") ].

Definition cld_cases : list (Z * string) :=
  [ (CLD_EXITED, "SIGCHLD: Child process terminated, stopped, or continued: Child has exited");
    (CLD_KILLED, "SIGCHLD: Child process terminated, stopped, or continued: Child has terminated abnormally and did not create a core file");
    (CLD_DUMPED, "SIGCHLD: Child process terminated, stopped, or continued: Child has terminated abnormally and created a core file");
    (CLD_TRAPPED, "SIGCHLD: Child process terminated, stopped, or continued: Traced child has trapped");
    (CLD_STOPPED, "SIGCHLD: Child process terminated, stopped, or continued: Child has stopped");
    (CLD_CONTINUED, "SIGCHLD: Child process terminated, stopped, or continued: Stopped child has continued") ].

Definition fpe_cases : list (Z * string) :=
  [ (FPE_INTDIV, "SIGFPE: Erroneous arithmetic operation: Integer divide by zero");
    (FPE_INTOVF, "SIGFPE: Erroneous arithmetic operation: Integer overflow");
    (FPE_FLTDIV, "SIGFPE: Erroneous arithmetic operation: Floating-point divide by zero");
    (FPE_FLTOVF, "SIGFPE: Erroneous arithmetic operation: Floating-point overflow");
    (FPE_FLTUND, "SIGFPE: Erroneous arithmetic operation: Floating-point underflow");
    (FPE_FLTRES, "SIGFPE: Erroneous arithmetic operation: Floating-point inexact result");
    (FPE_FLTINV, "SIGFPE: Erroneous arithmetic operation: Invalid floating-point operation");
    (FPE_FLTSUB, "SIGFPE: Erroneous arithmetic operation: Subscript out of range") ].

Definition ill_cases : list (Z * string) :=
  [ (ILL_ILLOPC, "SIGILL: Illegal instruction: Illegal opcode");
    (ILL_ILLOPN, "SIGILL: Illegal instruction: Illegal operand");
    (ILL_ILLADR, "SIGILL: Illegal instruction: Illegal addressing mode");
    (ILL_ILLTRP, "SIGILL: Illegal instruction: Illegal trap");
    (ILL_PRVOPC, "SIGILL: Illegal instruction: Privileged opcode");
    (ILL_PRVREG, "SIGILL: Illegal instruction: Privileged register");
    (ILL_COPROC, "SIGILL: Illegal instruction: Coprocessor error");
    (ILL_BADSTK, "SIGILL: Illegal instruction: Internal stack error") ].

Definition segv_cases : list (Z * string) :=
  [ (SEGV_MAPERR, "SIGSEGV: Invalid memory reference: Address not mapped to object");
    (SEGV_ACCERR, "SIGSEGV: Invalid memory reference: Invalid permissions for mapped object") ].

Definition poll_cases : list (Z * string) :=
  [ (POLL_IN, "SIGPOLL: Pollable event: Data input available");
    (POLL_OUT, "SIGPOLL: Pollable event: Output buffers available");
    (POLL_MSG, "SIGPOLL: Pollable event: Input message available") ]
  ++ match poll_err_hup_differ with
     | Some (e, _) => [ (e, "SIGPOLL: Pollable event: I/O error") ]
     | None => []
     end
  ++ [ (POLL_PRI, "SIGPOLL: Pollable event: High priority input available") ]
  ++ match poll_err_hup_differ with
     | Some (_, h) => [ (h, "SIGPOLL: Pollable event: Device disconnected.") ]
     | None => []
     end
  ++ match poll_err_hup_same with
     | Some e => [ (e, "SIGPOLL: Pollable event: " +++ dq +++ "I/O error" +++ dq
                        +++ " or " +++ dq +++ "Device disconnected" +++ dq +++ ".") ]
     | None => []
     end.

Definition trap_cases : list (Z * string) :=
  [ (TRAP_BRKPT, "SIGTRAP: Trace/breakpoint trap: Process breakpoint");
    (TRAP_TRACE, "SIGTRAP: Trace/breakpoint trap: Process trace trap") ].

(** The statement under [case SIGCONT:]. *)
Definition sigcont_return : string := "SIGCONT: Continue executing, if stopped".

(** The cases of the outer switch, in source order.  The inner switch of
    [case SIGCHLD:] has no [default:] label and nothing follows it before
    [case SIGCONT:], so when no [CLD_*] label matches, control leaves the inner
    switch and runs into the statement of [case SIGCONT:]. *)
Definition signal_cases (sigcode : Z) : list (Z * string) :=
  [ (SIGABRT, "SIGABRT: Process abort signal");
    (SIGALRM, "SIGALRM: Alarm clock");
    (SIGBUS, switch bus_cases
               "SIGBUS: Access to an undefined portion of a memory object" sigcode);
    (SIGCHLD, switch cld_cases sigcont_return sigcode);
    (SIGCONT, sigcont_return);
    (SIGFPE, switch fpe_cases "SIGFPE: Erroneous arithmetic operation" sigcode);
    (SIGHUP, "SIGHUP: Hangup");
    (SIGILL, switch ill_cases "SIGILL: Illegal instruction" sigcode);
    (SIGINT, "SIGINT: Terminal interrupt signal");
    (SIGKILL, "SIGKILL: Kill");
    (SIGPIPE, "SIGPIPE: Write on a pipe with no one to read it");
    (SIGQUIT, "SIGQUIT: Terminal quit signal");
    (SIGSEGV, switch segv_cases "SIGSEGV: Invalid memory reference" sigcode);
    (SIGSTOP, "SIGSTOP: Stop executing");
    (SIGTERM, "SIGTERM: Termination signal");
    (SIGTSTP, "SIGTSTP: Terminal stop signal");
    (SIGTTIN, "SIGTTIN: Background process attempting read");
    (SIGTTOU, "SIGTTOU: Background process attempting write");
    (SIGUSR1, "SIGUSR1: User-defined signal 1");
    (SIGUSR2, "SIGUSR2: User-defined signal 2") ]
  ++ if_xopen
  [ (SIGPOLL, switch poll_cases "SIGPOLL: Pollable event" sigcode);
    (SIGPROF, "SIGPROF: Profiling timer expired");
    (SIGSYS, "SIGSYS: Bad system call");
    (SIGTRAP, switch trap_cases "SIGTRAP: Trace/breakpoint trap" sigcode) ]
  ++ [ (SIGURG, "SIGURG: High bandwidth data is available at a socket") ]
  ++ if_xopen
  [ (SIGVTALRM, "SIGVTALRM: Virtual timer expired");
    (SIGXCPU, "SIGXCPU: CPU time limit exceeded");
    (SIGXFSZ, "SIGXFSZ: File size limit exceeded") ].

Definition wz_strsignal (signum sigcode : Z) : string :=
  switch (signal_cases sigcode) "Unknown signal" signum.

(** The case labels of the outer switch do not depend on the signal code. *)
Definition signal_labels : list Z := labels (signal_cases 0).

End Classifier.

(** ** Process state, system calls and the trace *)

(** A [SigActionHandler] function pointer: the address of
    [posixExceptionHandler], or of a handler that is not part of this file. *)
Inductive SigActionHandler : Type :=
| ptr_posixExceptionHandler
| ptr_foreign (id : nat).

(** The value of [sa_handler] / [sa_sigaction] (one union in C). *)
Inductive sighandler : Type :=
| SIG_DFL
| SIG_IGN
| SigFn (f : SigActionHandler).

Record sigaction_t : Type := {
  sa_handler : sighandler;
  sa_mask : list Z;
  sa_flags : Z
}.

Record siginfo_t : Type := { si_signo : Z; si_code : Z }.

(** What [waitpid(pid, &status, 0)] gives back.  With a positive [pid] and no
    option it returns either -1 or that [pid], so the assertion
    [assert(pid == wpid)] of the source holds whenever it is reached. *)
Inductive waitpid_result : Type :=
| waitpid_error
| waitpid_child (status : Z).

Inductive event : Type :=
| EvWrite (fd : Z) (buf : string)
| EvPrintf (text : string)
| EvMkstemp (template : string) (ret : Z)
| EvPipe (ret : option (Z * Z))
| EvFork (ret : Z)
| EvClose (fd : Z)
| EvDup2 (oldfd newfd : Z)
| EvExecve (path : string) (argv envp : list string)
| EvExit (status : Z)
| EvFsync (fd : Z)
| EvWaitpid (pid : Z) (ret : waitpid_result)
| EvBacktrace (size : Z) (ret : Z)
| EvBacktraceSymbolsFd (size : Z) (fd : Z)
| EvDbgDumpHeader (fd : Z)
| EvDbgDumpLog (fd : Z)
| EvSigaction (sig : Z) (act : option sigaction_t)
| EvRaise (sig : Z)
| EvForeignHandler (id : nat) (sig : Z)
| EvDefaultAction (sig : Z).

(** The answers of the operating system during one run of the responder.
    Each of these calls happens at most once per run. *)
Record oracle : Type := {
  o_backtrace : Z;          (* number of frames stored by backtrace() *)
  o_mkstemp : Z;            (* the new descriptor, or -1 *)
  o_dumpFilename : string;  (* what mkstemp() left in dumpFilename *)
  o_pipe : option (Z * Z);  (* read end and write end; None when pipe() = -1 *)
  o_fork : Z;               (* -1, 0 in the child, the child's pid in the parent *)
  o_execve_fails : bool;
  o_waitpid : waitpid_result;
  o_gdbPipe : Z             (* indeterminate initial value of the local gdbPipe *)
}.

(** The file-scope and function-scope static variables. *)
Record globals : Type := {
  gdbIsAvailable : bool;
  programIsAvailable : bool;
  programPID : string;
  programPath : string;
  gdbPath : string;
  oldAction : Z -> sigaction_t;
  allreadyRunning : Z
}.

(** The kernel's view of the thread: signal dispositions, blocked and pending
    signals, and how many times the responder has been entered. *)
Record kernel : Type := {
  disposition : Z -> sigaction_t;
  sigmask : list Z;
  pending : list Z;
  entries : nat
}.

Record state : Type := {
  vars : globals;
  sigs : kernel;
  trace : list event
}.

Definition upd {A : Type} (f : Z -> A) (k : Z) (v : A) : Z -> A :=
  fun x => if x =? k then v else f x.

Definition log (e : event) (st : state) : state :=
  {| vars := vars st; sigs := sigs st; trace := trace st ++ [e] |}.

Definition with_vars (g : globals) (st : state) : state :=
  {| vars := g; sigs := sigs st; trace := trace st |}.

Definition with_sigs (k : kernel) (st : state) : state :=
  {| vars := vars st; sigs := k; trace := trace st |}.

Definition set_allreadyRunning (v : Z) (g : globals) : globals :=
  {| gdbIsAvailable := gdbIsAvailable g;
     programIsAvailable := programIsAvailable g;
     programPID := programPID g;
     programPath := programPath g;
     gdbPath := gdbPath g;
     oldAction := oldAction g;
     allreadyRunning := v |}.

Definition set_oldAction (sig : Z) (a : sigaction_t) (g : globals) : globals :=
  {| gdbIsAvailable := gdbIsAvailable g;
     programIsAvailable := programIsAvailable g;
     programPID := programPID g;
     programPath := programPath g;
     gdbPath := gdbPath g;
     oldAction := upd (oldAction g) sig a;
     allreadyRunning := allreadyRunning g |}.

Definition set_disposition (sig : Z) (a : sigaction_t) (k : kernel) : kernel :=
  {| disposition := upd (disposition k) sig a;
     sigmask := sigmask k; pending := pending k; entries := entries k |}.

Definition set_sigmask (m : list Z) (k : kernel) : kernel :=
  {| disposition := disposition k;
     sigmask := m; pending := pending k; entries := entries k |}.

Definition set_pending (p : list Z) (k : kernel) : kernel :=
  {| disposition := disposition k;
     sigmask := sigmask k; pending := p; entries := entries k |}.

Definition enter (k : kernel) : kernel :=
  {| disposition := disposition k;
     sigmask := sigmask k; pending := pending k; entries := S (entries k) |}.

(** How a computation ends: the C function returns a value, or the process
    does not come back from a call. *)
Inductive outcome (A : Type) : Type :=
| Returned (a : A)
| Replaced            (* execve() succeeded: the program image is gone *)
| Exited (status : Z) (* exit() *)
| Killed (sig : Z)    (* terminated by the default action of a signal *)
| OutOfFuel.

Arguments Returned {A} a.
Arguments Replaced {A}.
Arguments Exited {A} status.
Arguments Killed {A} sig.
Arguments OutOfFuel {A}.

Definition M (A : Type) : Type := state -> outcome A * state.

Definition ret {A : Type} (a : A) : M A := fun st => (Returned a, st).

Definition bind {A B : Type} (c : M A) (k : A -> M B) : M B :=
  fun st =>
    match c st with
    | (Returned a, st') => k a st'
    | (Replaced, st') => (Replaced, st')
    | (Exited n, st') => (Exited n, st')
    | (Killed s, st') => (Killed s, st')
    | (OutOfFuel, st') => (OutOfFuel, st')
    end.

Declare Scope proc_scope.
Delimit Scope proc_scope with proc.
Notation "x <- c ;; k" := (bind c (fun x => k))
  (at level 100, c at next level, right associativity) : proc_scope.
Notation "c ;; k" := (bind c (fun _ => k))
  (at level 100, right associativity) : proc_scope.
Open Scope proc_scope.

Definition emit (e : event) : M unit := fun st => (Returned tt, log e st).
Definition gets {A : Type} (f : state -> A) : M A := fun st => (Returned (f st), st).
Definition modify (f : state -> state) : M unit := fun st => (Returned tt, f st).
Definition when (b : bool) (c : M unit) : M unit := if b then c else ret tt.

(** The outcome of a computation, and the state that it leaves. *)
Definition run {A : Type} (c : M A) (st : state) : outcome A := fst (c st).
Definition exec {A : Type} (c : M A) (st : state) : state := snd (c st).

Section Process.
Context {P : Platform}.

(** *** System and library calls *)

(** The return values of write, close, dup2, fsync and printf are ignored by
    every caller in the source; the model records the call. *)
Definition write (fd : Z) (buf : string) : M unit := emit (EvWrite fd buf).
Definition printf (text : string) : M unit := emit (EvPrintf text).
Definition close (fd : Z) : M unit := emit (EvClose fd).
Definition dup2 (oldfd newfd : Z) : M unit := emit (EvDup2 oldfd newfd).
Definition fsync (fd : Z) : M unit := emit (EvFsync fd).

Definition pipe (o : oracle) : M (option (Z * Z)) :=
  emit (EvPipe (o_pipe o)) ;; ret (o_pipe o).

Definition fork (o : oracle) : M Z :=
  emit (EvFork (o_fork o)) ;; ret (o_fork o).

Definition execve (o : oracle) (path : string) (argv envp : list string) : M Z :=
  emit (EvExecve path argv envp) ;;
  if o_execve_fails o then ret (-1) else (fun st => (Replaced, st)).

Definition exit {A : Type} (status : Z) : M A :=
  fun st => (Exited status, log (EvExit status) st).

Definition waitpid (o : oracle) (pid : Z) : M waitpid_result :=
  emit (EvWaitpid pid (o_waitpid o)) ;; ret (o_waitpid o).

Definition mkstemp (o : oracle) (template : string) : M Z :=
  emit (EvMkstemp template (o_mkstemp o)) ;; ret (o_mkstemp o).

Definition backtrace (o : oracle) (size : Z) : M Z :=
  emit (EvBacktrace size (o_backtrace o)) ;; ret (o_backtrace o).

Definition backtrace_symbols_fd (size fd : Z) : M unit :=
  emit (EvBacktraceSymbolsFd size fd).

(** The collaborators of dumpinfo.h, opaque here. *)
Definition dbgDumpHeader (fd : Z) : M unit := emit (EvDbgDumpHeader fd).
Definition dbgDumpLog (fd : Z) : M unit := emit (EvDbgDumpLog fd).

(** [sigaction(sig, act, &old)]: returns the current disposition and installs
    [act] when it is not NULL. *)
Definition sigaction (sig : Z) (act : option sigaction_t) : M sigaction_t :=
  old <- gets (fun st => disposition (sigs st) sig) ;;
  emit (EvSigaction sig act) ;;
  match act with
  | Some a => modify (fun st => with_sigs (set_disposition sig a (sigs st)) st)
  | None => ret tt
  end ;;
  ret old.

Definition blocked (sig : Z) (st : state) : bool :=
  existsb (Z.eqb sig) (sigmask (sigs st)).

(** Standard signals do not queue: a signal is pending or it is not. *)
Definition add_pending (sig : Z) (p : list Z) : list Z :=
  if existsb (Z.eqb sig) p then p else p ++ [sig].

(** [raise(sig)]: a blocked signal stays pending and the call returns; an
    unblocked one is delivered before the call returns, which is the
    business of the kernel ([deliver_now]). *)
Definition raise (deliver_now : Z -> M unit) (sig : Z) : M unit :=
  emit (EvRaise sig) ;;
  b <- gets (blocked sig) ;;
  if b
  then modify (fun st => with_sigs (set_pending (add_pending sig (pending (sigs st))) (sigs st)) st)
  else deliver_now sig.

End Process.

(** ** The program *)

Section Program.
Context {P : Platform}.

Definition MAX_BACKTRACE : Z := 20.

(** *** Fault Handler Registrar *)

Definition is_SIG_IGN (h : sighandler) : bool :=
  match h with SIG_IGN => true | _ => false end.

(** The two statements that the registrar repeats for each signal:
    [sigaction(SIG, NULL, &oldAction[SIG]);]
    [if (oldAction[SIG].sa_handler != SIG_IGN) sigaction(SIG, &new_handler, NULL);] *)
Definition install_unless_ignored (new_handler : sigaction_t) (sig : Z) : M unit :=
  cur <- sigaction sig None ;;
  modify (fun st => with_vars (set_oldAction sig cur (vars st)) st) ;;
  old <- gets (fun st => oldAction (vars st) sig) ;;
  if is_SIG_IGN (sa_handler old) then ret tt
  else (_ <- sigaction sig (Some new_handler) ;; ret tt).

Definition new_handler_for (signalHandler : SigActionHandler) : sigaction_t :=
  {| sa_handler := SigFn signalHandler; sa_mask := []; sa_flags := SA_SIGINFO |}.

Definition setFatalSignalHandler (signalHandler : SigActionHandler) : M unit :=
  let new_handler := new_handler_for signalHandler in
  install_unless_ignored new_handler SIGABRT ;;
  install_unless_ignored new_handler SIGBUS ;;
  install_unless_ignored new_handler SIGFPE ;;
  install_unless_ignored new_handler SIGILL ;;
  install_unless_ignored new_handler SIGQUIT ;;
  install_unless_ignored new_handler SIGSEGV ;;
  if XOPEN_UNIX then
    install_unless_ignored new_handler SIGSYS ;;
    install_unless_ignored new_handler SIGTRAP ;;
    install_unless_ignored new_handler SIGXCPU ;;
    install_unless_ignored new_handler SIGXFSZ
  else ret tt.

(** The fatal set, in the order of registration. *)
Definition fatal_signals : list Z :=
  [SIGABRT; SIGBUS; SIGFPE; SIGILL; SIGQUIT; SIGSEGV]
  ++ if_xopen [SIGSYS; SIGTRAP; SIGXCPU; SIGXFSZ].

(** *** Debugger Orchestrator *)

(** [execGdb(dumpFile, gdbWritePipe)].  The second argument is the value that
    [*gdbWritePipe] holds at the call; the result pairs the returned process id
    with the value that [*gdbWritePipe] holds at the return. *)
Definition execGdb (o : oracle) (dumpFile : Z) (gdbWritePipe : Z) : M (Z * Z) :=
  programOk <- gets (fun st => programIsAvailable (vars st)) ;;
  gdbOk <- gets (fun st => gdbIsAvailable (vars st)) ;;
  if negb programOk || negb gdbOk then
    write dumpFile ("No extended backtrace dumped:" +++ nl) ;;
    when (negb programOk) (write dumpFile ("- Program path not available" +++ nl)) ;;
    when (negb gdbOk) (write dumpFile ("- GDB not available" +++ nl)) ;;
    ret (0, gdbWritePipe)
  else
    gdbPipe <- pipe o ;;
    match gdbPipe with
    | None =>
        write dumpFile ("Pipe failed" +++ nl) ;;
        printf ("Pipe failed" +++ nl) ;;
        ret (0, gdbWritePipe)
    | Some (gdbPipe0, gdbPipe1) =>
        pid <- fork o ;;
        if pid =? -1 then
          write dumpFile ("Fork failed" +++ nl) ;;
          printf ("Fork failed" +++ nl) ;;
          close gdbPipe0 ;;
          close gdbPipe1 ;;
          ret (0, gdbWritePipe)
        else if negb (pid =? 0) then
          ret (pid, gdbPipe1)
        else
          path <- gets (fun st => gdbPath (vars st)) ;;
          prog <- gets (fun st => programPath (vars st)) ;;
          mypid <- gets (fun st => programPID (vars st)) ;;
          close gdbPipe1 ;;
          dup2 gdbPipe0 STDIN_FILENO ;;
          dup2 dumpFile STDOUT_FILENO ;;
          write dumpFile ("GDB extended backtrace:" +++ nl) ;;
          _ <- execve o path [path; prog; mypid] [] ;;
          write dumpFile ("execcv(" +++ dq +++ "gdb" +++ dq +++ ") failed" +++ nl) ;;
          exit 1
    end.

Definition gdbCommands : string :=
  "backtrace full" +++ nl +++
  "frame 4" +++ nl +++
  "disassemble" +++ nl +++
  "info registers" +++ nl +++
  "quit" +++ nl.

(** [write(gdbPipe, gdbCommands, sizeof(gdbCommands))] sends the terminating
    NUL of the array as well. *)
Definition gdbExtendedBacktrace (o : oracle) (dumpFile : Z) : M bool :=
  r <- execGdb o dumpFile (o_gdbPipe o) ;;
  let pid := fst r in
  let gdbPipe := snd r in
  if pid =? 0 then ret false
  else
    write gdbPipe (gdbCommands +++ nul) ;;
    fsync gdbPipe ;;
    w <- waitpid o pid ;;
    close gdbPipe ;;
    match w with
    | waitpid_error =>
        write dumpFile ("GDB failed" +++ nl) ;;
        printf ("GDB failed" +++ nl) ;;
        ret false
    | waitpid_child status =>
        if negb (WIFEXITED status) || negb (WEXITSTATUS status =? 0) then
          write dumpFile ("GDB failed" +++ nl) ;;
          printf ("GDB failed" +++ nl) ;;
          ret false
        else ret true
    end.

(** *** Fault Responder *)

Definition gdmpPath : string := "/tmp/warzone2100.gdmp-XXXXXX".

(** [#if defined(__GLIBC__)] ... [#else] ... [#endif] around the raw backtrace. *)
Definition raw_backtrace (btSize dumpFile : Z) : M unit :=
  if GLIBC then
    write dumpFile ("GLIBC raw backtrace:" +++ nl) ;;
    backtrace_symbols_fd btSize dumpFile ;;
    write dumpFile nl
  else
    write dumpFile ("GLIBC not available, no raw backtrace dumped" +++ nl +++ nl).

(** [posixExceptionHandler(signum, siginfo, sigcontext)].  The statement
    [if (allreadyRunning) raise(signum);] is followed by the rest of the body
    whenever [raise] returns; the [return] after a failed [mkstemp] leaves the
    function at once. *)
Definition posixExceptionHandler (deliver_now : Z -> M unit) (o : oracle)
    (signum : Z) (siginfo : siginfo_t) : M unit :=
  running <- gets (fun st => allreadyRunning (vars st)) ;;
  when (negb (running =? 0)) (raise deliver_now signum) ;;
  modify (fun st => with_vars (set_allreadyRunning 1 (vars st)) st) ;;
  btSize <- (if GLIBC then backtrace o MAX_BACKTRACE else ret 0) ;;
  dumpFile <- mkstemp o gdmpPath ;;
  if dumpFile =? -1 then
    printf ("Failed to create dump file '" +++ o_dumpFilename o +++ "'")
  else
    dbgDumpHeader dumpFile ;;
    write dumpFile "Dump caused by signal: " ;;
    let signal := wz_strsignal (si_signo siginfo) (si_code siginfo) in
    write dumpFile signal ;;
    write dumpFile (nl +++ nl) ;;
    dbgDumpLog dumpFile ;;
    raw_backtrace btSize dumpFile ;;
    fsync dumpFile ;;
    _ <- gdbExtendedBacktrace o dumpFile ;;
    printf ("Saved dump file to '" +++ o_dumpFilename o +++ "'" +++ nl +++
            "If you create a bugreport regardings this crash, please include this file." +++ nl) ;;
    close dumpFile ;;
    old <- gets (fun st => oldAction (vars st) signum) ;;
    _ <- sigaction signum (Some old) ;;
    raise deliver_now signum.

(** *** Signal delivery by the kernel *)

(** Signals whose default action ends the process. *)
Definition default_terminates (sig : Z) : bool :=
  existsb (Z.eqb sig)
    [SIGABRT; SIGALRM; SIGBUS; SIGFPE; SIGHUP; SIGILL; SIGINT; SIGKILL; SIGPIPE;
     SIGQUIT; SIGSEGV; SIGTERM; SIGUSR1; SIGUSR2; SIGPOLL; SIGPROF; SIGSYS;
     SIGTRAP; SIGVTALRM; SIGXCPU; SIGXFSZ].

(** While a handler runs, the kernel blocks the signals of its [sa_mask] and,
    unless [SA_NODEFER] is set, the signal being handled. *)
Definition handler_mask (act : sigaction_t) (sig : Z) : list Z :=
  (if Z.land (sa_flags act) SA_NODEFER =? 0 then [sig] else []) ++ sa_mask act.

Definition raised (sig : Z) : siginfo_t := {| si_signo := sig; si_code := SI_TKILL |}.

Definition deliver_each (f : siginfo_t -> M unit) (l : list Z) : M unit :=
  fold_left (fun acc s => acc ;; f (raised s)) l (ret tt).

(** [deliver fuel world info]: the kernel hands the signal [si_signo info] to
    the thread.  [world n] holds the answers of the operating system for the
    [n]-th entry into the responder.  A foreign handler is a no-op that
    returns.  When a handler returns, the mask is restored and the pending
    signals that are no longer blocked are delivered.  Stopping and
    continuing a process are outside the model: a default action that does not
    terminate leaves the state as it is. *)
Fixpoint deliver (fuel : nat) (world : nat -> oracle) (info : siginfo_t) : M unit :=
  match fuel with
  | O => fun st => (OutOfFuel, st)
  | S fuel' => fun st =>
      let sig := si_signo info in
      let act := disposition (sigs st) sig in
      match sa_handler act with
      | SIG_IGN => (Returned tt, st)
      | SIG_DFL =>
          if default_terminates sig
          then (Killed sig, log (EvDefaultAction sig) st)
          else (Returned tt, st)
      | SigFn f =>
          let saved := sigmask (sigs st) in
          let st1 := with_sigs (set_sigmask (handler_mask act sig ++ saved) (sigs st)) st in
          let body : M unit :=
            match f with
            | ptr_posixExceptionHandler =>
                fun s => posixExceptionHandler
                           (fun s' => deliver fuel' world (raised s'))
                           (world (entries (sigs s))) sig info
                           (with_sigs (enter (sigs s)) s)
            | ptr_foreign id => emit (EvForeignHandler id sig)
            end in
          match body st1 with
          | (Returned _, st2) =>
              let ready := filter (fun s => negb (existsb (Z.eqb s) saved)) (pending (sigs st2)) in
              let later := filter (fun s => existsb (Z.eqb s) saved) (pending (sigs st2)) in
              deliver_each (deliver fuel' world) ready
                (with_sigs (set_pending later (set_sigmask saved (sigs st2))) st2)
          | r => r
          end
      end
  end.

End Program.


(** ** External Tool Locator *)

Section Locator.
Context {P : Platform}.
Import Stdlib.Init.Byte.
Local Open Scope nat_scope.

Definition NUL : byte := x00.
Definition LF : byte := x0a.

(** [strlen(s)]: the number of bytes before the first NUL.  The scan of the
    model ends with the buffer; the source only applies it to a buffer that
    holds a NUL. *)
Fixpoint strlen (s : list byte) : nat :=
  match s with
  | [] => 0
  | b :: rest => if Byte.eqb b NUL then 0 else S (strlen rest)
  end.

(** [strchr(s, c)]: the offset of the first [c] of the C string [s], [None]
    for the null pointer. *)
Fixpoint strchr (s : list byte) (c : byte) : option nat :=
  match s with
  | [] => None
  | b :: rest =>
      if Byte.eqb b c then Some 0
      else if Byte.eqb b NUL then None
      else option_map S (strchr rest c)
  end.

(** [s[i] = b]. *)
Fixpoint poke (s : list byte) (i : nat) (b : byte) : list byte :=
  match s, i with
  | [], _ => []
  | _ :: rest, 0 => b :: rest
  | x :: rest, S i' => x :: poke rest i' b
  end.

(** [memset(buf, c, n)] on a buffer of [n] bytes. *)
Definition memset (c : byte) (n : nat) : list byte := repeat c n.

(** [fread(buf, 1, n, stream)] on a stream that holds [content]: the bytes
    read replace the head of the buffer; the count is returned with it. *)
Definition fread (buf : list byte) (n : nat) (content : list byte) : nat * list byte :=
  let bytesRead := Nat.min (List.length content) n in
  (bytesRead, firstn bytesRead content ++ skipn bytesRead buf).

(** [snprintf(whichProgramCommand, PATH_MAX, "which %s", programCommand)]. *)
Definition which_command (programCommand : string) : string :=
  substring 0 (PATH_MAX - 1) ("which " +++ programCommand).

(** [fetchProgramPath(programPath, bufSize, programCommand)]: the result and
    the content of the [bufSize] bytes at [programPath] afterwards.  [popen]
    gives what the command prints on its standard output.  The [debug]
    messages are left out. *)
Definition fetchProgramPath (popen : string -> list byte) (bufSize : nat)
    (programCommand : string) : bool * list byte :=
  let whichProgramCommand := which_command programCommand in
  let programPath := memset NUL bufSize in
  let whichProgramStream := popen whichProgramCommand in
  let '(bytesRead, programPath) := fread programPath bufSize whichProgramStream in
  if bytesRead =? bufSize then (false, programPath)
  else
    let linefeed := strchr programPath LF in
    let programPath :=
      match linefeed with
      | Some i => poke programPath i NUL
      | None => programPath
      end in
    if strlen programPath =? 0 then (false, programPath)
    else (true, programPath).

End Locator.

(** ** Initialization entry point *)

From Stdlib Require Import DecimalString.

Section Startup.
Context {P : Platform}.

Definition MAX_PID_STRING : nat := 16.
Definition MAX_DATE_STRING : nat := 256.

(** What the system answers at startup: the output of the commands run by
    [popen], the return value of [uname], the text of [ctime(time(NULL))] and
    the process id. *)
Record startup_env : Type := {
  env_popen : string -> list Byte.byte;
  env_uname : Z;
  env_ctime : string;
  env_getpid : Z
}.

(** The two static variables that [setupExceptionHandler] assigns and that no
    function of this file reads. *)
Record dump_statics : Type := {
  sysInfoValid : bool;
  executionDate : string
}.

(** [sstrcpy(dest, src)] of lib/framework/string_ext.h: a copy cut to the size
    of the destination array, the terminator included. *)
Definition sstrcpy (size : nat) (src : string) : string :=
  substring 0 (size - 1) src.

(** [snprintf(buf, size, "%i", n)]. *)
Definition snprintf_int (size : nat) (n : Z) : string :=
  substring 0 (size - 1) (NilZero.string_of_int (Z.to_int n)).

(** The C string that a character array holds, as a [string]. *)
Definition array_string (buf : list Byte.byte) : string :=
  string_of_list_byte (firstn (strlen buf) buf).

Definition set_program (ok : bool) (path : string) (g : globals) : globals :=
  {| gdbIsAvailable := gdbIsAvailable g;
     programIsAvailable := ok;
     programPID := programPID g;
     programPath := path;
     gdbPath := gdbPath g;
     oldAction := oldAction g;
     allreadyRunning := allreadyRunning g |}.

Definition set_gdb (ok : bool) (path : string) (g : globals) : globals :=
  {| gdbIsAvailable := ok;
     programIsAvailable := programIsAvailable g;
     programPID := programPID g;
     programPath := programPath g;
     gdbPath := path;
     oldAction := oldAction g;
     allreadyRunning := allreadyRunning g |}.

Definition set_programPID (pid : string) (g : globals) : globals :=
  {| gdbIsAvailable := gdbIsAvailable g;
     programIsAvailable := programIsAvailable g;
     programPID := pid;
     programPath := programPath g;
     gdbPath := gdbPath g;
     oldAction := oldAction g;
     allreadyRunning := allreadyRunning g |}.

(** [setupExceptionHandler(argc, argv)] on a Unix that is not Mac OS, with
    [argv0] for [argv[0]].  The result holds the statics that only this
    function writes.  The call [dbgDumpInit(argc, argv)] that comes first
    belongs to the collaborator dumpinfo and acts on its state alone; it is
    not recorded. *)
Definition setupExceptionHandler (env : startup_env) (argv0 : string) : M dump_statics :=
  let programCommand := argv0 in
  let program := fetchProgramPath (env_popen env) PATH_MAX programCommand in
  modify (fun st => with_vars (set_program (fst program) (array_string (snd program)) (vars st)) st) ;;
  let gdb := fetchProgramPath (env_popen env) PATH_MAX "gdb" in
  modify (fun st => with_vars (set_gdb (fst gdb) (array_string (snd gdb)) (vars st)) st) ;;
  let valid := env_uname env =? 0 in
  let date := sstrcpy MAX_DATE_STRING (env_ctime env) in
  modify (fun st => with_vars (set_programPID (snprintf_int MAX_PID_STRING (env_getpid env)) (vars st)) st) ;;
  setFatalSignalHandler ptr_posixExceptionHandler ;;
  ret {| sysInfoValid := valid; executionDate := date |}.

End Startup.

(** ** The Windows handler *)

(** The constants of <windows.h> and <dbghelp.h> and of the build. *)
Class Win32 : Type := {
  WIN_PATH_MAX : nat;
  IDYES : Z;
  MB_YESNO : Z;
  MB_OK : Z;
  INVALID_HANDLE_VALUE : Z;
  GENERIC_WRITE : Z;
  FILE_SHARE_WRITE : Z;
  CREATE_ALWAYS : Z;
  FILE_ATTRIBUTE_NORMAL : Z;
  MiniDumpNormal : Z;
  LastReservedStream : Z;
  EXCEPTION_CONTINUE_SEARCH : Z;
  PACKAGE_VERSION : string
}.

(** The calls of [windowsExceptionHandler] that act on the system. *)
Inductive win_event : Type :=
| WGetTempPathA (size : nat) (ret : Z)
| WMessageBoxA (text caption : string) (type : Z)
| WCreateFileA (path : string) (access share creation attributes : Z) (ret : Z)
| WMiniDumpWriteDump (file : Z) (dumpType : Z) (exception : option Z)
    (streamType : Z) (streamSize : nat) (stream : string) (ret : bool)
| WGetLastError (ret : Z)
| WCloseHandle (handle : Z)
| WPrevExceptionHandler (filter : nat) (exception : option Z) (ret : Z).

(** The answers of the system during one run of the handler. *)
Record win_oracle : Type := {
  w_GetTempPathA : Z;             (* 0 on failure *)
  w_temp_path : string;           (* what GetTempPathA left in the buffer *)
  w_answer : Z;                   (* the button chosen in the first message box *)
  w_CreateFileA : Z;
  w_MiniDumpWriteDump : bool;
  w_GetLastError : Z;             (* as converted to int *)
  w_prev_result : Z               (* what the previous filter returns *)
}.

Section WindowsHandler.
Context {W : Win32}.

(** [sstrcat(dest, src)] of lib/framework/string_ext.h: concatenation cut to
    the size of the destination array, the terminator included. *)
Definition sstrcat (size : nat) (dest src : string) : string :=
  substring 0 (size - 1) (dest +++ src).

(** [snprintf(buf, size, fmt, ...)] with the formatted text given. *)
Definition snprintf (size : nat) (text : string) : string :=
  substring 0 (size - 1) text.

Definition decimal (n : Z) : string := NilZero.string_of_int (Z.to_int n).

Definition applicationName : string := "Warzone 2100".

Definition crash_question : string :=
  "Warzone crashed unexpectedly, would you like to save a diagnostic file?".

(** [windowsExceptionHandler(pExceptionInfo)], with the value of the static
    [prevExceptionHandler] as an argument: the calls it makes, in order, and
    the value it returns. *)
Definition windowsExceptionHandler (prevExceptionHandler : option nat) (o : win_oracle)
    (pExceptionInfo : option Z) : list win_event * Z :=
  let miniDumpPath :=
    if w_GetTempPathA o =? 0 then sstrcpy WIN_PATH_MAX "c:\temp\"
    else w_temp_path o in
  let miniDumpPath := sstrcat WIN_PATH_MAX miniDumpPath "warzone2100.mdmp" in
  let asked :=
    [WGetTempPathA WIN_PATH_MAX (w_GetTempPathA o);
     WMessageBoxA crash_question applicationName MB_YESNO] in
  let saved :=
    if w_answer o =? IDYES then
      let miniDumpFile := w_CreateFileA o in
      let created :=
        WCreateFileA miniDumpPath GENERIC_WRITE FILE_SHARE_WRITE CREATE_ALWAYS
          FILE_ATTRIBUTE_NORMAL miniDumpFile in
      if negb (miniDumpFile =? INVALID_HANDLE_VALUE) then
        let written :=
          WMiniDumpWriteDump miniDumpFile MiniDumpNormal pExceptionInfo
            (LastReservedStream + 1) (String.length PACKAGE_VERSION) PACKAGE_VERSION
            (w_MiniDumpWriteDump o) in
        if w_MiniDumpWriteDump o then
          [created; written; WCloseHandle miniDumpFile;
           WMessageBoxA (snprintf WIN_PATH_MAX ("Saved dump file to '" +++ miniDumpPath +++ "'"))
             applicationName MB_OK]
        else
          [created; written; WGetLastError (w_GetLastError o); WCloseHandle miniDumpFile;
           WMessageBoxA
             (snprintf WIN_PATH_MAX
                ("Failed to save dump file to '" +++ miniDumpPath +++ "' (error "
                 +++ decimal (w_GetLastError o) +++ ")"))
             applicationName MB_OK]
      else
        [created; WGetLastError (w_GetLastError o);
         WMessageBoxA
           (snprintf WIN_PATH_MAX
              ("Failed to create dump file '" +++ miniDumpPath +++ "' (error "
               +++ decimal (w_GetLastError o) +++ ")"))
           applicationName MB_OK]
    else [] in
  match prevExceptionHandler with
  | Some filter =>
      (asked ++ saved ++ [WPrevExceptionHandler filter pExceptionInfo (w_prev_result o)],
       w_prev_result o)
  | None => (asked ++ saved, EXCEPTION_CONTINUE_SEARCH)
  end.

End WindowsHandler.

(** ** Vocabulary of the statements *)

(** [emits evs st]: the state [st] after the events [evs] were recorded. *)
Definition emits (evs : list event) (st : state) : state :=
  {| vars := vars st; sigs := sigs st; trace := trace st ++ evs |}.

(** Events that create a pipe or a process or run a program. *)
Definition is_spawn_event (e : event) : bool :=
  match e with
  | EvPipe _ | EvFork _ | EvExecve _ _ _ => true
  | _ => false
  end.

(** Where an event sends text: [write] to its descriptor, [printf] to the
    standard output stream. *)
Definition event_output {P : Platform} (e : event) : option (Z * string) :=
  match e with
  | EvWrite fd buf => Some (fd, buf)
  | EvPrintf text => Some (STDOUT_FILENO, text)
  | _ => None
  end.

Definition closes (fd : Z) (e : event) : bool :=
  match e with
  | EvClose fd' => fd' =? fd
  | _ => false
  end.

(** The descriptors that the events open with [pipe] and do not [close]
    afterwards. *)
Fixpoint leaked_pipe_fds (evs : list event) : list Z :=
  match evs with
  | [] => []
  | EvPipe (Some (r, w)) :: rest =>
      (if existsb (closes r) rest then [] else [r])
      ++ (if existsb (closes w) rest then [] else [w])
      ++ leaked_pipe_fds rest
  | _ :: rest => leaked_pipe_fds rest
  end.

(** The notes written when a path was not resolved at startup. *)
Definition unavailable_notes (dumpFile : Z) (g : globals) : list event :=
  [EvWrite dumpFile ("No extended backtrace dumped:" +++ nl)]
  ++ (if programIsAvailable g then [] else [EvWrite dumpFile ("- Program path not available" +++ nl)])
  ++ (if gdbIsAvailable g then [] else [EvWrite dumpFile ("- GDB not available" +++ nl)]).

(** The bytes of a C string: what comes before the first NUL. *)
Definition c_string (s : list Byte.byte) : list Byte.byte := firstn (strlen s) s.

(** A text cut at its first linefeed. *)
Fixpoint first_line (s : list Byte.byte) : list Byte.byte :=
  match s with
  | [] => []
  | b :: rest => if Byte.eqb b LF then [] else b :: first_line rest
  end.

(** The debugger did its work: [waitpid] succeeded and the child exited
    normally with status zero. *)
Definition child_succeeded {P : Platform} (w : waitpid_result) : Prop :=
  exists status, w = waitpid_child status /\ WIFEXITED status = true /\ WEXITSTATUS status = 0.

(** Text sent to the standard error stream. *)
Definition to_stderr {P : Platform} (e : event) : bool :=
  match event_output e with
  | Some (fd, _) => fd =? STDERR_FILENO
  | None => false
  end.

(** ** Concrete inputs on Linux *)

Definition default_action : sigaction_t :=
  {| sa_handler := SIG_DFL; sa_mask := []; sa_flags := 0 |}.

Definition ignore_action : sigaction_t :=
  {| sa_handler := SIG_IGN; sa_mask := []; sa_flags := 0 |}.

Definition foreign_action (id : nat) : sigaction_t :=
  {| sa_handler := SigFn (ptr_foreign id); sa_mask := []; sa_flags := 0 |}.

(** A process at startup: both paths resolved, SIGQUIT (3) ignored, a handler
    of the embedding application on SIGSEGV (11), the default elsewhere. *)
Definition startup_state : state :=
  {| vars := {| gdbIsAvailable := true;
                programIsAvailable := true;
                programPID := "1234";
                programPath := "/usr/games/warzone2100";
                gdbPath := "/usr/bin/gdb";
                oldAction := fun _ => default_action;
                allreadyRunning := 0 |};
     sigs := {| disposition := fun s => if s =? 3 then ignore_action
                                        else if s =? 11 then foreign_action 7
                                        else default_action;
                sigmask := []; pending := []; entries := 0 |};
     trace := [] |}.

(** The same process when [which gdb] printed nothing. *)
Definition startup_state_without_gdb : state :=
  with_vars {| gdbIsAvailable := false;
               programIsAvailable := true;
               programPID := "1234";
               programPath := "/usr/games/warzone2100";
               gdbPath := "";
               oldAction := fun _ => default_action;
               allreadyRunning := 0 |} startup_state.

(** Everything works: descriptor 3 for the artifact, the pipe on 4 and 5, the
    debugger is process 4321 and exits with status 0. *)
Definition good_run : oracle :=
  {| o_backtrace := 5; o_mkstemp := 3;
     o_dumpFilename := "/tmp/warzone2100.gdmp-aB3xYz";
     o_pipe := Some (4, 5); o_fork := 4321; o_execve_fails := false;
     o_waitpid := waitpid_child 0; o_gdbPipe := 77 |}.

(** The debugger is killed by a signal (status 9: SIGKILL, no exit). *)
Definition debugger_killed : oracle :=
  {| o_backtrace := 5; o_mkstemp := 3;
     o_dumpFilename := "/tmp/warzone2100.gdmp-aB3xYz";
     o_pipe := Some (4, 5); o_fork := 4321; o_execve_fails := false;
     o_waitpid := waitpid_child 9; o_gdbPipe := 77 |}.

(** /tmp is not writable: [mkstemp] fails. *)
Definition tmp_unwritable : oracle :=
  {| o_backtrace := 5; o_mkstemp := -1;
     o_dumpFilename := "/tmp/warzone2100.gdmp-XXXXXX";
     o_pipe := Some (4, 5); o_fork := 4321; o_execve_fails := false;
     o_waitpid := waitpid_child 0; o_gdbPipe := 77 |}.

(** A second run of the responder: the artifact gets descriptor 6, the pipe 7
    and 8, the debugger is process 4322. *)
Definition second_run : oracle :=
  {| o_backtrace := 9; o_mkstemp := 6;
     o_dumpFilename := "/tmp/warzone2100.gdmp-Qr7TuV";
     o_pipe := Some (7, 8); o_fork := 4322; o_execve_fails := false;
     o_waitpid := waitpid_child 0; o_gdbPipe := 77 |}.

(** ** The registrar, one signal at a time *)

(** What the two statements of the registrar record for a signal whose
    current disposition is [cur]. *)
Definition registration_events (nh : sigaction_t) (cur : sigaction_t) (sig : Z) : list event :=
  EvSigaction sig None
  :: (if is_SIG_IGN (sa_handler cur) then [] else [EvSigaction sig (Some nh)]).

(** The state after the two statements of the registrar ran for [sig]. *)
Definition registered (nh : sigaction_t) (st : state) (sig : Z) : state :=
  let cur := disposition (sigs st) sig in
  {| vars := set_oldAction sig cur (vars st);
     sigs := if is_SIG_IGN (sa_handler cur) then sigs st
             else set_disposition sig nh (sigs st);
     trace := trace st ++ registration_events nh cur sig |}.

(** ** The episodes of the responder *)

Section Episodes.
Context {P : Platform}.

(** Events of the kernel's signal machinery and of handlers. *)
Definition is_signal_event (e : event) : bool :=
  match e with
  | EvSigaction _ _ | EvRaise _ | EvForeignHandler _ _ | EvDefaultAction _ => true
  | _ => false
  end.

Definition is_foreign_call (e : event) : bool :=
  match e with
  | EvForeignHandler _ _ => true
  | _ => false
  end.

(** The re-raise of the reentrancy guard. *)
Definition guard_events (g : globals) (signum : Z) : list event :=
  if allreadyRunning g =? 0 then [] else [EvRaise signum].

(** From the guard to the creation of the artifact. *)
Definition entry_events (o : oracle) : list event :=
  (if GLIBC then [EvBacktrace MAX_BACKTRACE (o_backtrace o)] else [])
  ++ [EvMkstemp gdmpPath (o_mkstemp o)].

(** The sections of the artifact, up to the flush. *)
Definition capture_events (o : oracle) (siginfo : siginfo_t) (fd : Z) : list event :=
  [EvDbgDumpHeader fd;
   EvWrite fd "Dump caused by signal: ";
   EvWrite fd (wz_strsignal (si_signo siginfo) (si_code siginfo));
   EvWrite fd (nl +++ nl);
   EvDbgDumpLog fd]
  ++ (if GLIBC
      then [EvWrite fd ("GLIBC raw backtrace:" +++ nl);
            EvBacktraceSymbolsFd (o_backtrace o) fd;
            EvWrite fd nl]
      else [EvWrite fd ("GLIBC not available, no raw backtrace dumped" +++ nl +++ nl)])
  ++ [EvFsync fd].

Definition saved_message (o : oracle) : string :=
  "Saved dump file to '" +++ o_dumpFilename o +++ "'" +++ nl +++
  "If you create a bugreport regardings this crash, please include this file." +++ nl.

Definition failed_message (o : oracle) : string :=
  "Failed to create dump file '" +++ o_dumpFilename o +++ "'".

(** After the orchestrator: the message, the close, the restore, the re-raise. *)
Definition closing_events (o : oracle) (signum fd : Z) (old : sigaction_t) : list event :=
  [EvPrintf (saved_message o); EvClose fd; EvSigaction signum (Some old); EvRaise signum].

(** The state after the guard and the assignment of the flag, when [signum]
    is blocked. *)
Definition entered (signum : Z) (st : state) : state :=
  {| vars := set_allreadyRunning 1 (vars st);
     sigs := if allreadyRunning (vars st) =? 0 then sigs st
             else set_pending (add_pending signum (pending (sigs st))) (sigs st);
     trace := trace st ++ guard_events (vars st) signum |}.

(** The state after the last four statements of the responder, when
    [signum] is blocked. *)
Definition finished (o : oracle) (signum fd : Z) (st : state) : state :=
  let old := oldAction (vars st) signum in
  {| vars := vars st;
     sigs := set_pending (add_pending signum (pending (sigs st)))
               (set_disposition signum old (sigs st));
     trace := trace st ++ closing_events o signum fd old |}.

(** The responder as the registrar installs it. *)
Definition responder_action : sigaction_t := new_handler_for ptr_posixExceptionHandler.

(** The state in which the kernel starts a handler for [sig]: the signal is
    added to the mask and the entry is counted. *)
Definition handler_entry (sig : Z) (st : state) : state :=
  with_sigs (enter (set_sigmask (sig :: sigmask (sigs st)) (sigs st))) st.

(** The state to which the kernel returns after a handler: the mask is
    restored and the signals that stay blocked stay pending. *)
Definition handler_exit (saved : list Z) (st : state) : state :=
  with_sigs (set_pending (filter (fun s => existsb (Z.eqb s) saved) (pending (sigs st)))
               (set_sigmask saved (sigs st))) st.

End Episodes.

(** The buffer after the linefeed, when there is one, was overwritten. *)
Definition cut_linefeed (buf : list Byte.byte) : list Byte.byte :=
  match strchr buf LF with
  | Some i => poke buf i NUL
  | None => buf
  end.

(** ** Concrete scenarios on Linux *)

(** The process after [setFatalSignalHandler(posixExceptionHandler)]. *)
Definition registered_state : state :=
  exec (setFatalSignalHandler ptr_posixExceptionHandler) startup_state.

(** The process in the middle of a first capture, for SIGABRT (6): the flag is
    set, the artifact is open on descriptor 3 and its header is written. *)
Definition during_first_capture : state :=
  emits [EvBacktrace MAX_BACKTRACE 5; EvMkstemp gdmpPath 3; EvDbgDumpHeader 3]
    (with_vars (set_allreadyRunning 1 (vars registered_state))
       (handler_entry 6 registered_state)).

(** A segmentation fault, address not mapped (SIGSEGV 11, SEGV_MAPERR 1). *)
Definition segv_maperr : siginfo_t := {| si_signo := 11; si_code := 1 |}.

(** An abort (SIGABRT 6) raised by the process itself (SI_TKILL). *)
Definition abort_raised : siginfo_t := {| si_signo := 6; si_code := -6 |}.

(** [raise] is never called on an unblocked signal in these scenarios. *)
Definition no_delivery : Z -> M unit := fun _ => ret tt.

(** The first entry into the responder goes well, so does the second. *)
Definition two_good_runs (n : nat) : oracle :=
  match n with
  | O => good_run
  | _ => second_run
  end.

(** What [which gdb] prints when gdb is installed: "/usr/bin/gdb" and a
    linefeed. *)
Definition which_gdb_output : list Byte.byte :=
  [Byte.x2f; Byte.x75; Byte.x73; Byte.x72;
   Byte.x2f; Byte.x62; Byte.x69; Byte.x6e;
   Byte.x2f; Byte.x67; Byte.x64; Byte.x62; Byte.x0a].

(** A computation that only ever adds events to the trace. *)
Definition extends_trace {A : Type} (c : M A) : Prop :=
  forall st, exists evs, trace (snd (c st)) = trace st ++ evs.

(** ** Further vocabulary *)

Section MoreVocabulary.
Context {P : Platform}.

(** The description that each [case] of the fatal set returns when no
    sub-cause applies: the only statement of the case, or the [default:] of
    its inner switch. *)
Definition fatal_descriptions : list (Z * string) :=
  [ (SIGABRT, "SIGABRT: Process abort signal");
    (SIGBUS, "SIGBUS: Access to an undefined portion of a memory object");
    (SIGFPE, "SIGFPE: Erroneous arithmetic operation");
    (SIGILL, "SIGILL: Illegal instruction");
    (SIGQUIT, "SIGQUIT: Terminal quit signal");
    (SIGSEGV, "SIGSEGV: Invalid memory reference") ]
  ++ if_xopen
  [ (SIGSYS, "SIGSYS: Bad system call");
    (SIGTRAP, "SIGTRAP: Trace/breakpoint trap");
    (SIGXCPU, "SIGXCPU: CPU time limit exceeded");
    (SIGXFSZ, "SIGXFSZ: File size limit exceeded") ].

(** The notes with which the orchestrator explains a failure. *)
Definition failure_notes : list string :=
  [ "No extended backtrace dumped:" +++ nl;
    "Pipe failed" +++ nl;
    "Fork failed" +++ nl;
    "GDB failed" +++ nl ].

(** What the parent does between [fork] and the verdict. *)
Definition parent_events (o : oracle) (p0 p1 : Z) : list event :=
  [EvPipe (Some (p0, p1)); EvFork (o_fork o);
   EvWrite p1 (gdbCommands +++ nul); EvFsync p1;
   EvWaitpid (o_fork o) (o_waitpid o); EvClose p1].

(** What the forked child does up to [execve]. *)
Definition child_events (g : globals) (dumpFile p0 p1 : Z) : list event :=
  [EvPipe (Some (p0, p1)); EvFork 0; EvClose p1;
   EvDup2 p0 STDIN_FILENO; EvDup2 dumpFile STDOUT_FILENO;
   EvWrite dumpFile ("GDB extended backtrace:" +++ nl);
   EvExecve (gdbPath g) [gdbPath g; programPath g; programPID g] []].

(** The verdict of the parent on the child's status. *)
Definition verdict (w : waitpid_result) : bool :=
  match w with
  | waitpid_error => false
  | waitpid_child status => WIFEXITED status && (WEXITSTATUS status =? 0)
  end.

Definition not_fallback (s : string) : Prop := s <> "Unknown signal".

(** The orchestrator is not in the forked child: [fork] did not return 0, or
    it was never reached. *)
Definition orchestrator_returns (o : oracle) (g : globals) : Prop :=
  o_fork o <> 0 \/ programIsAvailable g = false \/ gdbIsAvailable g = false
  \/ o_pipe o = None.

(** The state in which a responder that the kernel started for a first or a
    later fault calls the orchestrator. *)
Definition capture_done (o : oracle) (siginfo : siginfo_t) (st : state) : state :=
  emits (capture_events o siginfo (o_mkstemp o))
    (emits (entry_events o)
       (entered (si_signo siginfo) (handler_entry (si_signo siginfo) st))).

(** The state that the initialization hands to the registrar. *)
Definition located (env : startup_env) (argv0 : string) (st : state) : state :=
  let program := fetchProgramPath (env_popen env) PATH_MAX argv0 in
  let gdb := fetchProgramPath (env_popen env) PATH_MAX "gdb" in
  with_vars
    (set_programPID (snprintf_int MAX_PID_STRING (env_getpid env))
       (set_gdb (fst gdb) (array_string (snd gdb))
          (set_program (fst program) (array_string (snd program)) (vars st)))) st.

End MoreVocabulary.

(** Calls of the Windows handler that create or write the dump file. *)
Definition is_dump_call (e : win_event) : bool :=
  match e with
  | WCreateFileA _ _ _ _ _ _ | WMiniDumpWriteDump _ _ _ _ _ _ _ => true
  | _ => false
  end.

Definition is_message_box (e : win_event) : bool :=
  match e with
  | WMessageBoxA _ _ _ => true
  | _ => false
  end.

Definition closed_handles (evs : list win_event) : list Z :=
  flat_map (fun e => match e with WCloseHandle h => [h] | _ => [] end) evs.

Definition previous_filter_calls (evs : list win_event) : list win_event :=
  filter (fun e => match e with WPrevExceptionHandler _ _ _ => true | _ => false end) evs.

(** ** Further concrete inputs *)

(** A platform on which POLL_ERR and POLL_HUP are one value, as on FreeBSD;
    the other constants are those of Linux. *)
Definition same_poll_codes : Platform :=
  {| SIGABRT := 6; SIGALRM := 14; SIGBUS := 7; SIGCHLD := 17; SIGCONT := 18;
     SIGFPE := 8; SIGHUP := 1; SIGILL := 4; SIGINT := 2; SIGKILL := 9;
     SIGPIPE := 13; SIGQUIT := 3; SIGSEGV := 11; SIGSTOP := 19; SIGTERM := 15;
     SIGTSTP := 20; SIGTTIN := 21; SIGTTOU := 22; SIGUSR1 := 10; SIGUSR2 := 12;
     SIGPOLL := 29; SIGPROF := 27; SIGSYS := 31; SIGTRAP := 5; SIGURG := 23;
     SIGVTALRM := 26; SIGXCPU := 24; SIGXFSZ := 25;
     BUS_ADRALN := 1; BUS_ADRERR := 2; BUS_OBJERR := 3;
     CLD_EXITED := 1; CLD_KILLED := 2; CLD_DUMPED := 3; CLD_TRAPPED := 4;
     CLD_STOPPED := 5; CLD_CONTINUED := 6;
     FPE_INTDIV := 1; FPE_INTOVF := 2; FPE_FLTDIV := 3; FPE_FLTOVF := 4;
     FPE_FLTUND := 5; FPE_FLTRES := 6; FPE_FLTINV := 7; FPE_FLTSUB := 8;
     ILL_ILLOPC := 1; ILL_ILLOPN := 2; ILL_ILLADR := 3; ILL_ILLTRP := 4;
     ILL_PRVOPC := 5; ILL_PRVREG := 6; ILL_COPROC := 7; ILL_BADSTK := 8;
     SEGV_MAPERR := 1; SEGV_ACCERR := 2;
     POLL_IN := 1; POLL_OUT := 2; POLL_MSG := 3; POLL_PRI := 5;
     POLL_ERR := Some 4; POLL_HUP := Some 4;
     TRAP_BRKPT := 1; TRAP_TRACE := 2;
     SI_TKILL := -6;
     SA_SIGINFO := 4; SA_NODEFER := 1073741824;
     STDIN_FILENO := 0; STDOUT_FILENO := 1; STDERR_FILENO := 2;
     PATH_MAX := 4096;
     WIFEXITED := fun status => Z.land status 127 =? 0;
     WEXITSTATUS := fun status => Z.shiftr (Z.land status 65280) 8;
     XOPEN_UNIX := true;
     GLIBC := true |}.

(** The debugger process itself: [fork] returned 0 and [execve] works. *)
Definition in_child : oracle :=
  {| o_backtrace := 5; o_mkstemp := 3;
     o_dumpFilename := "/tmp/warzone2100.gdmp-aB3xYz";
     o_pipe := Some (4, 5); o_fork := 0; o_execve_fails := false;
     o_waitpid := waitpid_error; o_gdbPipe := 77 |}.

(** A system on which [which] finds the debugger and nothing else. *)
Definition env_with_gdb : startup_env :=
  {| env_popen := fun command => if String.eqb command "which gdb" then which_gdb_output else [];
     env_uname := 0;
     env_ctime := "Fri Oct 30 18:00:00 2009";
     env_getpid := 1234 |}.

(** A system on which [which] finds nothing. *)
Definition env_without_gdb : startup_env :=
  {| env_popen := fun _ => [];
     env_uname := 0;
     env_ctime := "Fri Oct 30 18:00:00 2009";
     env_getpid := 1234 |}.

(** The values of the Windows SDK. *)
#[export] Instance windows_sdk : Win32 :=
  {| WIN_PATH_MAX := 260;
     IDYES := 6;
     MB_YESNO := 4;
     MB_OK := 0;
     INVALID_HANDLE_VALUE := -1;
     GENERIC_WRITE := 1073741824;
     FILE_SHARE_WRITE := 2;
     CREATE_ALWAYS := 2;
     FILE_ATTRIBUTE_NORMAL := 128;
     MiniDumpNormal := 0;
     LastReservedStream := 65535;
     EXCEPTION_CONTINUE_SEARCH := 0;
     PACKAGE_VERSION := "2.2.4" |}.

(** The user declines (IDNO is 7); the temporary directory is unknown. *)
Definition user_declines : win_oracle :=
  {| w_GetTempPathA := 0; w_temp_path := ""; w_answer := 7;
     w_CreateFileA := 100; w_MiniDumpWriteDump := true;
     w_GetLastError := 0; w_prev_result := 1 |}.

(** The user accepts, the file cannot be created (error 5: access denied). *)
Definition dump_not_created : win_oracle :=
  {| w_GetTempPathA := 0; w_temp_path := ""; w_answer := 6;
     w_CreateFileA := -1; w_MiniDumpWriteDump := false;
     w_GetLastError := 5; w_prev_result := 1 |}.

(** The user accepts and the dump is written to handle 100. *)
Definition dump_written : win_oracle :=
  {| w_GetTempPathA := 0; w_temp_path := ""; w_answer := 6;
     w_CreateFileA := 100; w_MiniDumpWriteDump := true;
     w_GetLastError := 0; w_prev_result := 1 |}.

(** ** The switch statement: generic facts *)

Section SwitchFacts.
Context {A : Type}.
Implicit Types (cases : list (Z * A)) (d : A).

Lemma switch_miss cases d x :
  ~ In x (labels cases) -> switch cases d x = d.
Proof.
  induction cases as [|[l b] rest IH]; simpl; intros Hx; [reflexivity|].
  destruct (Z.eqb_spec x l) as [->|_].
  - exfalso; apply Hx; now left.
  - apply IH; intros Hin; apply Hx; now right.
Qed.

Lemma switch_hit cases d l b :
  NoDup (labels cases) -> In (l, b) cases -> switch cases d l = b.
Proof.
  induction cases as [|[l' b'] rest IH]; simpl; intros Hnd Hin; [contradiction|].
  inversion Hnd as [|? ? Hfresh Hrest]; subst.
  destruct Hin as [Heq|Hin].
  - inversion Heq; subst. now rewrite Z.eqb_refl.
  - destruct (Z.eqb_spec l l') as [->|_].
    + exfalso; apply Hfresh. change l' with (fst (l', b)). now apply in_map.
    + now apply IH.
Qed.

Lemma switch_first l b rest d : switch ((l, b) :: rest) d l = b.
Proof. simpl. now rewrite Z.eqb_refl. Qed.

(** Whatever the operand, a switch yields one of its bodies or its default. *)
Lemma switch_ind (Q : A -> Prop) cases d x :
  Q d -> Forall Q (map snd cases) -> Q (switch cases d x).
Proof.
  intros Hd. induction cases as [|[l b] rest IH]; simpl; intros HF; [exact Hd|].
  inversion HF; subst. destruct (x =? l); auto.
Qed.

End SwitchFacts.

(** Distinctness of a concrete list of integers, by comparison. *)
Ltac nodup_Z :=
  cbv; repeat (constructor;
               [ let H := fresh in
                 intros H; repeat (destruct H as [H|H]; [discriminate H|]); exact H
               | ]);
  constructor.

(** ** Signal Classifier: facts *)

Section ClassifierFacts.
Context {P : Platform}.

Lemma signal_labels_any sigcode : labels (signal_cases sigcode) = signal_labels.
Proof.
  unfold signal_labels, labels, signal_cases, if_xopen.
  destruct XOPEN_UNIX; reflexivity.
Qed.

Lemma SIGCHLD_case sigcode :
  In (SIGCHLD, switch cld_cases sigcont_return sigcode) (signal_cases sigcode).
Proof. unfold signal_cases. apply in_or_app. left. simpl. tauto. Qed.

Lemma SIGSEGV_case sigcode :
  In (SIGSEGV, switch segv_cases "SIGSEGV: Invalid memory reference" sigcode)
     (signal_cases sigcode).
Proof. unfold signal_cases. apply in_or_app. left. simpl. tauto. Qed.

Lemma SIGBUS_case sigcode :
  In (SIGBUS, switch bus_cases "SIGBUS: Access to an undefined portion of a memory object" sigcode)
     (signal_cases sigcode).
Proof. unfold signal_cases. apply in_or_app. left. simpl. tauto. Qed.

(** The classifier is total and never returns the empty string. *)
Lemma wz_strsignal_nonempty signum sigcode :
  String.length (wz_strsignal signum sigcode) <> 0%nat.
Proof.
  unfold wz_strsignal, signal_cases, if_xopen, poll_cases.
  destruct XOPEN_UNIX;
    [ destruct poll_err_hup_differ as [[e h]|]; destruct poll_err_hup_same as [e'|] | ];
    simpl;
    repeat match goal with |- context [if ?c then _ else _] => destruct c end;
    discriminate.
Qed.

(** A signal number that is no case label gets the fallback string. *)
Lemma wz_strsignal_unknown signum sigcode :
  ~ In signum signal_labels -> wz_strsignal signum sigcode = "Unknown signal".
Proof.
  intros H. unfold wz_strsignal. apply switch_miss. now rewrite signal_labels_any.
Qed.

Lemma wz_strsignal_SEGV_MAPERR :
  NoDup signal_labels ->
  wz_strsignal SIGSEGV SEGV_MAPERR
  = "SIGSEGV: Invalid memory reference: Address not mapped to object".
Proof.
  intros Hnd. unfold wz_strsignal.
  rewrite (switch_hit _ _ _ _ ltac:(now rewrite signal_labels_any) (SIGSEGV_case _)).
  apply switch_first.
Qed.

(** Where the inner switch has a [default:] label, a code that matches no case
    gets the description of the signal itself. *)
Lemma wz_strsignal_SIGSEGV_default sigcode :
  NoDup signal_labels -> ~ In sigcode (labels segv_cases) ->
  wz_strsignal SIGSEGV sigcode = "SIGSEGV: Invalid memory reference".
Proof.
  intros Hnd Hc. unfold wz_strsignal.
  rewrite (switch_hit _ _ _ _ ltac:(now rewrite signal_labels_any) (SIGSEGV_case _)).
  now apply switch_miss.
Qed.

Lemma wz_strsignal_SIGBUS_default sigcode :
  NoDup signal_labels -> ~ In sigcode (labels bus_cases) ->
  wz_strsignal SIGBUS sigcode = "SIGBUS: Access to an undefined portion of a memory object".
Proof.
  intros Hnd Hc. unfold wz_strsignal.
  rewrite (switch_hit _ _ _ _ ltac:(now rewrite signal_labels_any) (SIGBUS_case _)).
  now apply switch_miss.
Qed.

(** C3 (the code departs from the claim).  The claim has every pair without a
    mapping of its own answered by "Unknown signal", and never by the
    description of another signal.  For SIGCHLD with a code that is none of the
    six CLD_* values the classifier returns the description of SIGCONT: the
    inner switch has no default, and control falls into the next case. *)
Theorem wz_strsignal_SIGCHLD_falls_into_SIGCONT (sigcode : Z) :
  NoDup signal_labels ->
  ~ In sigcode (labels cld_cases) ->
  wz_strsignal SIGCHLD sigcode = "SIGCONT: Continue executing, if stopped"
  /\ wz_strsignal SIGCHLD sigcode = wz_strsignal SIGCONT sigcode
  /\ wz_strsignal SIGCHLD sigcode <> "Unknown signal".
Proof.
  intros Hnd Hc.
  assert (E : wz_strsignal SIGCHLD sigcode = sigcont_return).
  { unfold wz_strsignal.
    rewrite (switch_hit _ _ _ _ ltac:(now rewrite signal_labels_any) (SIGCHLD_case _)).
    now apply switch_miss. }
  assert (E' : wz_strsignal SIGCONT sigcode = sigcont_return).
  { unfold wz_strsignal. apply switch_hit; [now rewrite signal_labels_any|].
    unfold signal_cases. apply in_or_app. left. simpl. tauto. }
  rewrite E, E'. repeat split. discriminate.
Qed.

End ClassifierFacts.

Lemma linux_signal_labels_distinct : NoDup (@signal_labels linux).
Proof. nodup_Z. Qed.

(** On Linux, SIGCHLD (17) sent by kill(2) carries the code SI_USER (0). *)
Lemma wz_strsignal_SIGCHLD_linux :
  @wz_strsignal linux 17 0 = "SIGCONT: Continue executing, if stopped"
  /\ @wz_strsignal linux 17 0 = @wz_strsignal linux 18 0
  /\ @wz_strsignal linux 17 0 <> "Unknown signal".
Proof.
  apply (@wz_strsignal_SIGCHLD_falls_into_SIGCONT linux 0).
  - exact linux_signal_labels_distinct.
  - cbv. intros H. repeat (destruct H as [H|H]; [discriminate H|]). exact H.
Defined.

(** ** Reasoning about traces *)

Lemma log_emits e evs st : log e (emits evs st) = emits (evs ++ [e]) st.
Proof. unfold log, emits; simpl. now rewrite app_assoc. Qed.

Lemma log_as_emits e st : log e st = emits [e] st.
Proof. reflexivity. Qed.

Lemma emits_emits evs1 evs2 st : emits evs2 (emits evs1 st) = emits (evs1 ++ evs2) st.
Proof. unfold emits; simpl. now rewrite app_assoc. Qed.

Lemma emits_nil st : emits [] st = st.
Proof. destruct st; unfold emits; simpl. now rewrite app_nil_r. Qed.

Lemma vars_emits evs st : vars (emits evs st) = vars st.
Proof. reflexivity. Qed.

Lemma sigs_emits evs st : sigs (emits evs st) = sigs st.
Proof. reflexivity. Qed.

Lemma trace_emits evs st : trace (emits evs st) = trace st ++ evs.
Proof. reflexivity. Qed.

(** Collects the recorded events of a run into one [emits]. *)
Ltac collect :=
  repeat (rewrite log_as_emits || rewrite emits_emits); simpl app.

(** ** The Debugger Orchestrator, path by path *)

Section OrchestratorFacts.
Context {P : Platform}.

Lemma execGdb_unavailable o dumpFile w st :
  programIsAvailable (vars st) = false \/ gdbIsAvailable (vars st) = false ->
  execGdb o dumpFile w st = (Returned (0, w), emits (unavailable_notes dumpFile (vars st)) st).
Proof.
  intros H. unfold execGdb, unavailable_notes, bind, gets, when, write, emit, ret.
  destruct (programIsAvailable (vars st)) eqn:Hp, (gdbIsAvailable (vars st)) eqn:Hg;
    simpl; collect; try reflexivity.
  destruct H; discriminate.
Qed.

Lemma execGdb_pipe_failed o dumpFile w st :
  programIsAvailable (vars st) = true -> gdbIsAvailable (vars st) = true ->
  o_pipe o = None ->
  execGdb o dumpFile w st =
    (Returned (0, w),
     emits [EvPipe None; EvWrite dumpFile ("Pipe failed" +++ nl); EvPrintf ("Pipe failed" +++ nl)] st).
Proof.
  intros Hp Hg Ho. unfold execGdb, bind, gets, pipe, write, printf, emit, ret.
  rewrite Hp, Hg, Ho. simpl. collect. reflexivity.
Qed.

Lemma execGdb_fork_failed o dumpFile w st p0 p1 :
  programIsAvailable (vars st) = true -> gdbIsAvailable (vars st) = true ->
  o_pipe o = Some (p0, p1) -> o_fork o = -1 ->
  execGdb o dumpFile w st =
    (Returned (0, w),
     emits [EvPipe (Some (p0, p1)); EvFork (-1);
            EvWrite dumpFile ("Fork failed" +++ nl); EvPrintf ("Fork failed" +++ nl);
            EvClose p0; EvClose p1] st).
Proof.
  intros Hp Hg Ho Hf. unfold execGdb, bind, gets, pipe, fork, write, printf, close, emit, ret.
  rewrite Hp, Hg, Ho, Hf. simpl. collect. reflexivity.
Qed.

Lemma execGdb_parent o dumpFile w st p0 p1 :
  programIsAvailable (vars st) = true -> gdbIsAvailable (vars st) = true ->
  o_pipe o = Some (p0, p1) -> o_fork o <> -1 -> o_fork o <> 0 ->
  execGdb o dumpFile w st =
    (Returned (o_fork o, p1), emits [EvPipe (Some (p0, p1)); EvFork (o_fork o)] st).
Proof.
  intros Hp Hg Ho Hf1 Hf0. unfold execGdb, bind, gets, pipe, fork, emit, ret.
  rewrite Hp, Hg, Ho. simpl.
  destruct (Z.eqb_spec (o_fork o) (-1)); [contradiction|].
  destruct (Z.eqb_spec (o_fork o) 0); [contradiction|].
  simpl. collect. reflexivity.
Qed.

(** In the child nothing returns: the program image is replaced, or the child
    exits with status 1. *)
Lemma execGdb_child o dumpFile w st p0 p1 :
  programIsAvailable (vars st) = true -> gdbIsAvailable (vars st) = true ->
  o_pipe o = Some (p0, p1) -> o_fork o = 0 ->
  let g := vars st in
  let common :=
    [EvPipe (Some (p0, p1)); EvFork 0; EvClose p1;
     EvDup2 p0 STDIN_FILENO; EvDup2 dumpFile STDOUT_FILENO;
     EvWrite dumpFile ("GDB extended backtrace:" +++ nl);
     EvExecve (gdbPath g) [gdbPath g; programPath g; programPID g] []] in
  execGdb o dumpFile w st =
    if o_execve_fails o
    then (Exited 1,
          emits (common ++ [EvWrite dumpFile ("execcv(" +++ dq +++ "gdb" +++ dq +++ ") failed" +++ nl);
                            EvExit 1]) st)
    else (Replaced, emits common st).
Proof.
  intros Hp Hg Ho Hf. unfold execGdb, bind, gets, pipe, fork, execve, exit,
    write, close, dup2, emit, ret.
  rewrite Hp, Hg, Ho, Hf. simpl.
  destruct (o_execve_fails o); simpl; collect; reflexivity.
Qed.

End OrchestratorFacts.

(** ** The Debugger Orchestrator: the claims *)

Section OrchestratorClaims.
Context {P : Platform}.

Lemma gdbExtendedBacktrace_no_child o dumpFile st st' :
  execGdb o dumpFile (o_gdbPipe o) st = (Returned (0, o_gdbPipe o), st') ->
  gdbExtendedBacktrace o dumpFile st = (Returned false, st').
Proof. intros E. unfold gdbExtendedBacktrace, bind. now rewrite E. Qed.

(** C4.  When the program path or the debugger path was not resolved at
    startup, [gdbExtendedBacktrace] returns false, and all it does is write
    the notes into the artifact: "No extended backtrace dumped:", then
    "- Program path not available" and "- GDB not available" as they apply.
    No pipe is created and no process is forked or executed. *)
Theorem gdbExtendedBacktrace_unavailable o dumpFile st :
  programIsAvailable (vars st) = false \/ gdbIsAvailable (vars st) = false ->
  gdbExtendedBacktrace o dumpFile st
  = (Returned false, emits (unavailable_notes dumpFile (vars st)) st)
  /\ existsb is_spawn_event (unavailable_notes dumpFile (vars st)) = false
  /\ In (EvWrite dumpFile ("No extended backtrace dumped:" +++ nl))
        (unavailable_notes dumpFile (vars st))
  /\ (programIsAvailable (vars st) = false ->
      In (EvWrite dumpFile ("- Program path not available" +++ nl))
         (unavailable_notes dumpFile (vars st)))
  /\ (gdbIsAvailable (vars st) = false ->
      In (EvWrite dumpFile ("- GDB not available" +++ nl))
         (unavailable_notes dumpFile (vars st))).
Proof.
  intros H. split; [|split; [|split; [|split]]].
  - apply gdbExtendedBacktrace_no_child. now apply execGdb_unavailable.
  - unfold unavailable_notes.
    destruct (programIsAvailable (vars st)), (gdbIsAvailable (vars st)); reflexivity.
  - unfold unavailable_notes. now left.
  - intros Hp. unfold unavailable_notes. rewrite Hp. simpl. tauto.
  - intros Hg. unfold unavailable_notes. rewrite Hg.
    destruct (programIsAvailable (vars st)); simpl; tauto.
Qed.

(** What the parent does once the child runs, and what it concludes. *)
Lemma gdbExtendedBacktrace_parent o dumpFile st p0 p1 :
  programIsAvailable (vars st) = true -> gdbIsAvailable (vars st) = true ->
  o_pipe o = Some (p0, p1) -> o_fork o <> -1 -> o_fork o <> 0 ->
  let ok :=
    match o_waitpid o with
    | waitpid_error => false
    | waitpid_child status => WIFEXITED status && (WEXITSTATUS status =? 0)
    end in
  gdbExtendedBacktrace o dumpFile st
  = (Returned ok,
     emits ([EvPipe (Some (p0, p1)); EvFork (o_fork o);
             EvWrite p1 (gdbCommands +++ nul); EvFsync p1;
             EvWaitpid (o_fork o) (o_waitpid o); EvClose p1]
            ++ if ok then []
               else [EvWrite dumpFile ("GDB failed" +++ nl); EvPrintf ("GDB failed" +++ nl)]) st).
Proof.
  intros Hp Hg Ho Hf1 Hf0 ok. subst ok.
  unfold gdbExtendedBacktrace, bind.
  rewrite (execGdb_parent o dumpFile _ st p0 p1 Hp Hg Ho Hf1 Hf0). cbn [fst snd].
  destruct (Z.eqb_spec (o_fork o) 0); [contradiction|].
  unfold write, fsync, waitpid, close, printf, bind, emit, ret.
  destruct (o_waitpid o) as [|status]; simpl.
  - collect. reflexivity.
  - destruct (WIFEXITED status), (WEXITSTATUS status =? 0); simpl; collect; reflexivity.
Qed.

(** C6, as the code has it.  With the child spawned, [gdbExtendedBacktrace]
    returns true exactly when [waitpid] succeeded and the child exited
    normally with status zero.  In every other case it returns false after
    writing "GDB failed" into the artifact and printing it with [printf],
    that is on the standard output stream. *)
Theorem gdbExtendedBacktrace_child_status o dumpFile st p0 p1 :
  programIsAvailable (vars st) = true -> gdbIsAvailable (vars st) = true ->
  o_pipe o = Some (p0, p1) -> o_fork o <> -1 -> o_fork o <> 0 ->
  exists (b : bool) (notes : list event),
    gdbExtendedBacktrace o dumpFile st
    = (Returned b,
       emits ([EvPipe (Some (p0, p1)); EvFork (o_fork o);
               EvWrite p1 (gdbCommands +++ nul); EvFsync p1;
               EvWaitpid (o_fork o) (o_waitpid o); EvClose p1] ++ notes) st)
    /\ (b = true <-> child_succeeded (o_waitpid o))
    /\ (b = true -> notes = [])
    /\ (b = false ->
        map event_output notes
        = [Some (dumpFile, "GDB failed" +++ nl); Some (STDOUT_FILENO, "GDB failed" +++ nl)]).
Proof.
  intros Hp Hg Ho Hf1 Hf0.
  pose proof (gdbExtendedBacktrace_parent o dumpFile st p0 p1 Hp Hg Ho Hf1 Hf0) as E.
  cbv zeta in E.
  eexists; eexists; split; [exact E|].
  unfold child_succeeded.
  destruct (o_waitpid o) as [|status].
  - repeat split; try discriminate; try reflexivity.
    intros [s [Hs _]]; discriminate.
  - destruct (WIFEXITED status) eqn:Hx; simpl.
    + destruct (Z.eqb_spec (WEXITSTATUS status) 0) as [Hz|Hz].
      * repeat split; try discriminate; try reflexivity.
        exists status; auto.
      * repeat split; try discriminate; try reflexivity.
        intros [s [Hs [_ Hs0]]]. inversion Hs; subst. contradiction.
    + repeat split; try discriminate; try reflexivity.
      intros [s [Hs [Hs1 _]]]. inversion Hs; subst. congruence.
Qed.

(** C10.  When [execGdb] returns 0, [*gdbWritePipe] holds what it held at the
    call and every descriptor that came from [pipe] has been closed; when it
    returns another process id, [*gdbWritePipe] holds the write end of the
    pipe.  It returns 0 whenever a precondition is unmet, [pipe] fails or
    [fork] fails; only the forked child does not return. *)
Theorem execGdb_gdbWritePipe o dumpFile w st :
  match execGdb o dumpFile w st with
  | (Returned (pid, w'), st') =>
      exists evs, st' = emits evs st
      /\ if pid =? 0
         then w' = w /\ leaked_pipe_fds evs = []
         else pid = o_fork o /\ exists p0, o_pipe o = Some (p0, w')
  | (_, _) => o_fork o = 0
  end
  /\ (if negb (programIsAvailable (vars st)) || negb (gdbIsAvailable (vars st))
         || match o_pipe o with None => true | Some _ => o_fork o =? -1 end
      then run (execGdb o dumpFile w) st = Returned (0, w)
      else True).
Proof.
  unfold run.
  destruct (programIsAvailable (vars st)) eqn:Hp; [destruct (gdbIsAvailable (vars st)) eqn:Hg|].
  - destruct (o_pipe o) as [[p0 p1]|] eqn:Ho.
    + destruct (Z.eq_dec (o_fork o) (-1)) as [Hf|Hf].
      * rewrite (execGdb_fork_failed o dumpFile w st p0 p1 Hp Hg Ho Hf).
        rewrite Hf. simpl. split; [|reflexivity].
        eexists; split; [reflexivity|]. split; [reflexivity|].
        simpl. rewrite !Z.eqb_refl. simpl. rewrite orb_true_r. reflexivity.
      * destruct (Z.eq_dec (o_fork o) 0) as [Hz|Hz].
        -- pose proof (execGdb_child o dumpFile w st p0 p1 Hp Hg Ho Hz) as E.
           cbv zeta in E. rewrite E, Hz. simpl.
           destruct (o_execve_fails o); split; auto.
        -- rewrite (execGdb_parent o dumpFile w st p0 p1 Hp Hg Ho Hf Hz).
           destruct (Z.eqb_spec (o_fork o) 0); [contradiction|].
           destruct (Z.eqb_spec (o_fork o) (-1)); [contradiction|].
           simpl. split; [|exact I].
           eexists; split; [reflexivity|]. split; [reflexivity|]. now exists p0.
    + rewrite (execGdb_pipe_failed o dumpFile w st Hp Hg Ho). simpl.
      split; [|reflexivity]. eexists; split; [reflexivity|]. now split.
  - rewrite (execGdb_unavailable o dumpFile w st (or_intror Hg)). simpl.
    split; [|reflexivity]. eexists; split; [reflexivity|]. split; [reflexivity|].
    unfold unavailable_notes. rewrite Hp, Hg. reflexivity.
  - rewrite (execGdb_unavailable o dumpFile w st (or_introl Hp)). simpl.
    split; [|reflexivity]. eexists; split; [reflexivity|]. split; [reflexivity|].
    unfold unavailable_notes. rewrite Hp. destruct (gdbIsAvailable (vars st)); reflexivity.
Qed.

End OrchestratorClaims.

(** ** Fault Handler Registrar: facts *)

Section RegistrarFacts.
Context {P : Platform}.

Lemma upd_same {A : Type} (f : Z -> A) k v : upd f k v k = v.
Proof. unfold upd. now rewrite Z.eqb_refl. Qed.

Lemma upd_other {A : Type} (f : Z -> A) k v x : x <> k -> upd f k v x = f x.
Proof. unfold upd. intros H. destruct (Z.eqb_spec x k); [contradiction|reflexivity]. Qed.

Lemma install_unless_ignored_run nh sig st :
  install_unless_ignored nh sig st = (Returned tt, registered nh st sig).
Proof.
  unfold install_unless_ignored, registered, registration_events,
    sigaction, bind, gets, modify, emit, ret, log, with_vars, with_sigs.
  cbn [vars sigs trace oldAction set_oldAction]. rewrite upd_same.
  destruct (is_SIG_IGN (sa_handler (disposition (sigs st) sig))); cbn.
  - reflexivity.
  - now rewrite <- app_assoc.
Qed.

Lemma setFatalSignalHandler_run h st :
  setFatalSignalHandler h st
  = (Returned tt, fold_left (registered (new_handler_for h)) fatal_signals st).
Proof.
  unfold setFatalSignalHandler, fatal_signals, if_xopen, bind.
  rewrite !install_unless_ignored_run.
  destruct XOPEN_UNIX; cbn [app fold_left].
  - now rewrite !install_unless_ignored_run.
  - reflexivity.
Qed.

(** Registering other signals leaves a signal's entries alone. *)
Lemma registered_other nh st s sig :
  sig <> s ->
  oldAction (vars (registered nh st s)) sig = oldAction (vars st) sig
  /\ disposition (sigs (registered nh st s)) sig = disposition (sigs st) sig.
Proof.
  intros H. unfold registered. cbn. split.
  - now apply upd_other.
  - destruct (is_SIG_IGN _); [reflexivity|]. cbn. now apply upd_other.
Qed.

Lemma registered_frame nh l : forall st sig,
  ~ In sig l ->
  oldAction (vars (fold_left (registered nh) l st)) sig = oldAction (vars st) sig
  /\ disposition (sigs (fold_left (registered nh) l st)) sig = disposition (sigs st) sig.
Proof.
  induction l as [|s l IH]; intros st sig Hn; cbn [fold_left]; [now split|].
  assert (Hs : sig <> s) by (intros ->; apply Hn; now left).
  assert (Hl : ~ In sig l) by (intros Hin; apply Hn; now right).
  destruct (IH (registered nh st s) sig Hl) as [E1 E2].
  destruct (registered_other nh st s sig Hs) as [F1 F2].
  split; congruence.
Qed.

Lemma registered_same nh st sig :
  oldAction (vars (registered nh st sig)) sig = disposition (sigs st) sig
  /\ disposition (sigs (registered nh st sig)) sig
     = if is_SIG_IGN (sa_handler (disposition (sigs st) sig))
       then disposition (sigs st) sig else nh.
Proof.
  unfold registered. cbn. rewrite upd_same. split; [reflexivity|].
  destruct (is_SIG_IGN _); [reflexivity|]. cbn. now rewrite upd_same.
Qed.

Lemma registered_all nh l : forall st sig,
  NoDup l -> In sig l ->
  oldAction (vars (fold_left (registered nh) l st)) sig = disposition (sigs st) sig
  /\ disposition (sigs (fold_left (registered nh) l st)) sig
     = if is_SIG_IGN (sa_handler (disposition (sigs st) sig))
       then disposition (sigs st) sig else nh.
Proof.
  induction l as [|s l IH]; intros st sig Hnd Hin; [contradiction|].
  inversion Hnd as [|? ? Hfresh Hrest]; subst. cbn [fold_left].
  destruct Hin as [->|Hin].
  - destruct (registered_frame nh l (registered nh st sig) sig Hfresh) as [E1 E2].
    destruct (registered_same nh st sig) as [F1 F2]. split; congruence.
  - assert (Hs : sig <> s) by (intros ->; contradiction).
    destruct (IH (registered nh st s) sig Hrest Hin) as [E1 E2].
    destruct (registered_other nh st s sig Hs) as [_ F2].
    rewrite F2 in E1, E2. now split.
Qed.

Lemma registered_trace nh l : forall st,
  NoDup l ->
  trace (fold_left (registered nh) l st)
  = trace st ++ flat_map (fun s => registration_events nh (disposition (sigs st) s) s) l.
Proof.
  induction l as [|s l IH]; intros st Hnd; cbn [fold_left flat_map].
  - now rewrite app_nil_r.
  - inversion Hnd as [|? ? Hfresh Hrest]; subst.
    rewrite (IH _ Hrest).
    change (trace (registered nh st s))
      with (trace st ++ registration_events nh (disposition (sigs st) s) s).
    rewrite <- app_assoc.
    do 2 f_equal. rewrite !flat_map_concat_map. f_equal.
    apply map_ext_in. intros x Hx.
    assert (Hxs : x <> s) by (intros ->; contradiction).
    now destruct (registered_other nh st s x Hxs) as [_ ->].
Qed.

(** C8.  For every signal of the fatal set the registrar asks for the current
    disposition.  When the handler found is SIG_IGN, no handler is installed
    and the disposition stays as it was.  Otherwise the disposition found is
    kept in oldAction and the responder is installed, with sa_flags equal to
    SA_SIGINFO. *)
Theorem setFatalSignalHandler_registers h st sig :
  NoDup fatal_signals ->
  In sig fatal_signals ->
  let st' := exec (setFatalSignalHandler h) st in
  let cur := disposition (sigs st) sig in
  run (setFatalSignalHandler h) st = Returned tt
  /\ exists evs, trace st' = trace st ++ evs
     /\ In (EvSigaction sig None) evs
     /\ (sa_handler cur = SIG_IGN ->
         disposition (sigs st') sig = cur
         /\ forall a, ~ In (EvSigaction sig (Some a)) evs)
     /\ (sa_handler cur <> SIG_IGN ->
         oldAction (vars st') sig = cur
         /\ disposition (sigs st') sig = new_handler_for h
         /\ In (EvSigaction sig (Some (new_handler_for h))) evs
         /\ sa_handler (new_handler_for h) = SigFn h
         /\ sa_flags (new_handler_for h) = SA_SIGINFO).
Proof.
  intros Hnd Hin st' cur. subst st' cur. unfold run, exec.
  rewrite setFatalSignalHandler_run. cbn [fst snd]. split; [reflexivity|].
  set (nh := new_handler_for h).
  destruct (registered_all nh fatal_signals st sig Hnd Hin) as [Eold Edisp].
  eexists. split; [apply registered_trace; exact Hnd|].
  split; [|split].
  - apply in_flat_map. exists sig. split; [exact Hin|now left].
  - intros Hign. rewrite Hign in Edisp. cbn in Edisp. split; [exact Edisp|].
    intros a Ha. apply in_flat_map in Ha. destruct Ha as [s [_ Hs]].
    unfold registration_events in Hs. destruct Hs as [Hs|Hs]; [discriminate|].
    destruct (is_SIG_IGN (sa_handler (disposition (sigs st) s))) eqn:Hi; [contradiction|].
    destruct Hs as [Hs|[]]. inversion Hs; subst. rewrite Hign in Hi. discriminate.
  - intros Hign.
    assert (Hi : is_SIG_IGN (sa_handler (disposition (sigs st) sig)) = false).
    { destruct (sa_handler (disposition (sigs st) sig)); try reflexivity. now elim Hign. }
    rewrite Hi in Edisp. repeat split; try assumption.
    apply in_flat_map. exists sig. split; [exact Hin|].
    unfold registration_events. rewrite Hi. right. now left.
Qed.

(** Signals outside the fatal set keep their disposition. *)
Lemma setFatalSignalHandler_frame h st sig :
  ~ In sig fatal_signals ->
  disposition (sigs (exec (setFatalSignalHandler h) st)) sig = disposition (sigs st) sig.
Proof.
  intros Hn. unfold exec. rewrite setFatalSignalHandler_run. cbn [snd].
  now destruct (registered_frame (new_handler_for h) fatal_signals st sig Hn).
Qed.

End RegistrarFacts.

(** ** The Fault Responder: facts *)

Section ResponderFacts.
Context {P : Platform}.

(** The orchestrator only adds events, none of them about signals, and in the
    faulting process it returns. *)
Lemma gdbExtendedBacktrace_effect o dumpFile st :
  exists out evs,
    gdbExtendedBacktrace o dumpFile st = (out, emits evs st)
    /\ existsb is_signal_event evs = false
    /\ (o_fork o <> 0 -> exists b, out = Returned b).
Proof.
  destruct (programIsAvailable (vars st)) eqn:Hp; [destruct (gdbIsAvailable (vars st)) eqn:Hg|].
  - destruct (o_pipe o) as [[p0 p1]|] eqn:Ho.
    + destruct (Z.eq_dec (o_fork o) (-1)) as [Hf|Hf].
      * do 2 eexists. split; [|split].
        -- apply gdbExtendedBacktrace_no_child. now apply (execGdb_fork_failed o dumpFile _ st p0 p1).
        -- reflexivity.
        -- intros _. now exists false.
      * destruct (Z.eq_dec (o_fork o) 0) as [Hz|Hz].
        -- pose proof (execGdb_child o dumpFile (o_gdbPipe o) st p0 p1 Hp Hg Ho Hz) as E.
           cbv zeta in E. unfold gdbExtendedBacktrace, bind. rewrite E.
           destruct (o_execve_fails o); do 2 eexists;
             (split; [reflexivity|split; [reflexivity|intros; contradiction]]).
        -- pose proof (gdbExtendedBacktrace_parent o dumpFile st p0 p1 Hp Hg Ho Hf Hz) as E.
           cbv zeta in E. do 2 eexists. split; [exact E|]. split.
           ++ match goal with |- context [if ?c then _ else _] => destruct c end; reflexivity.
           ++ intros _. eexists; reflexivity.
    + do 2 eexists. split; [|split].
      * apply gdbExtendedBacktrace_no_child. now apply execGdb_pipe_failed.
      * reflexivity.
      * intros _. now exists false.
  - do 2 eexists. split; [|split].
    + apply gdbExtendedBacktrace_no_child. apply execGdb_unavailable. now right.
    + unfold unavailable_notes. rewrite Hp, Hg. reflexivity.
    + intros _. now exists false.
  - do 2 eexists. split; [|split].
    + apply gdbExtendedBacktrace_no_child. apply execGdb_unavailable. now left.
    + unfold unavailable_notes. rewrite Hp. destruct (gdbIsAvailable (vars st)); reflexivity.
    + intros _. now exists false.
Qed.

Lemma blocked_emits sig evs st : blocked sig (emits evs st) = blocked sig st.
Proof. reflexivity. Qed.

Lemma blocked_entered sig signum st : blocked sig (entered signum st) = blocked sig st.
Proof. unfold blocked, entered. cbn. now destruct (allreadyRunning (vars st) =? 0). Qed.

(** The last four statements of the responder, with the signal blocked. *)
Lemma responder_closing_run dn o signum fd st :
  blocked signum st = true ->
  bind (printf (saved_message o))
    (fun _ => bind (close fd)
       (fun _ => bind (gets (fun s => oldAction (vars s) signum))
          (fun old => bind (sigaction signum (Some old))
             (fun _ => raise dn signum)))) st
  = (Returned tt, finished o signum fd st).
Proof.
  intros Hb. unfold sigaction, raise, printf, close, finished, closing_events.
  unfold bind, gets, modify, emit, ret.
  cbn [fst snd]. unfold blocked in *. cbn [sigs sigmask log with_sigs set_disposition].
  rewrite Hb. f_equal. unfold log, with_sigs. cbn. rewrite <- !app_assoc. reflexivity.
Qed.

(** From the guard to [mkstemp], with the signal blocked. *)
Lemma responder_entry_run dn o signum st (k : Z -> Z -> M unit) :
  blocked signum st = true ->
  bind (gets (fun s => allreadyRunning (vars s)))
    (fun running =>
       bind (when (negb (running =? 0)) (raise dn signum))
         (fun _ =>
            bind (modify (fun s => with_vars (set_allreadyRunning 1 (vars s)) s))
              (fun _ =>
                 bind (if GLIBC then backtrace o MAX_BACKTRACE else ret 0)
                   (fun btSize => bind (mkstemp o gdmpPath) (fun dumpFile => k btSize dumpFile))))) st
  = k (if GLIBC then o_backtrace o else 0) (o_mkstemp o)
      (emits (entry_events o) (entered signum st)).
Proof.
  intros Hb. unfold when, raise, backtrace, mkstemp, entered, entry_events, guard_events.
  unfold bind, gets, modify, emit, ret.
  cbn [fst snd]. destruct (allreadyRunning (vars st) =? 0) eqn:Hr; cbn [negb].
  - destruct GLIBC; cbn; f_equal; unfold emits, log, with_vars; cbn;
      rewrite ?app_nil_r, <- ?app_assoc; reflexivity.
  - cbn. unfold blocked in Hb. unfold blocked. cbn. rewrite Hb.
    destruct GLIBC; cbn; f_equal; unfold emits, log, with_vars, with_sigs; cbn;
      rewrite <- ?app_assoc; reflexivity.
Qed.

(** The sections of the artifact. *)
Lemma responder_capture_run o siginfo fd st (k : M unit) :
  bind (dbgDumpHeader fd)
    (fun _ => bind (write fd "Dump caused by signal: ")
       (fun _ => bind (write fd (wz_strsignal (si_signo siginfo) (si_code siginfo)))
          (fun _ => bind (write fd (nl +++ nl))
             (fun _ => bind (dbgDumpLog fd)
                (fun _ => bind (raw_backtrace (if GLIBC then o_backtrace o else 0) fd)
                   (fun _ => bind (fsync fd) (fun _ => k))))))) st
  = k (emits (capture_events o siginfo fd) st).
Proof.
  unfold raw_backtrace, capture_events.
  destruct GLIBC;
    unfold bind, dbgDumpHeader, write, dbgDumpLog, backtrace_symbols_fd, fsync, emit;
    cbn [fst snd app]; collect; reflexivity.
Qed.

(** The body of the responder when its signal is blocked, as it is in a
    handler installed without SA_NODEFER: no call of [raise] leaves it. *)
Lemma posixExceptionHandler_blocked dn o signum siginfo st :
  blocked signum st = true ->
  posixExceptionHandler dn o signum siginfo st
  = let st1 := emits (entry_events o) (entered signum st) in
    let fd := o_mkstemp o in
    if fd =? -1 then (Returned tt, emits [EvPrintf (failed_message o)] st1)
    else bind (gdbExtendedBacktrace o fd)
              (fun _ st2 => (Returned tt, finished o signum fd st2))
              (emits (capture_events o siginfo fd) st1).
Proof.
  intros Hb. cbv zeta.
  unfold posixExceptionHandler. rewrite (responder_entry_run dn o signum st _ Hb).
  destruct (o_mkstemp o =? -1) eqn:Hm; [reflexivity|].
  rewrite responder_capture_run.
  set (stc := emits (capture_events o siginfo (o_mkstemp o))
                (emits (entry_events o) (entered signum st))).
  assert (Hb' : blocked signum stc = true).
  { subst stc. now rewrite !blocked_emits, blocked_entered. }
  destruct (gdbExtendedBacktrace_effect o (o_mkstemp o) stc) as [out [evs [E _]]].
  unfold bind at 1. unfold bind at 5. rewrite E.
  destruct out as [b| | | |]; try reflexivity.
  apply responder_closing_run. now rewrite blocked_emits.
Qed.

End ResponderFacts.

(** ** Delivery by the kernel: facts *)

Section KernelFacts.
Context {P : Platform}.

Lemma blocked_handler_entry sig st : blocked sig (handler_entry sig st) = true.
Proof. unfold blocked, handler_entry. cbn. now rewrite Z.eqb_refl. Qed.

Lemma deliver_to_responder n world siginfo st :
  Z.land SA_SIGINFO SA_NODEFER = 0 ->
  disposition (sigs st) (si_signo siginfo) = responder_action ->
  deliver (S n) world siginfo st
  = let sig := si_signo siginfo in
    let saved := sigmask (sigs st) in
    match posixExceptionHandler (fun s' => deliver n world (raised s'))
            (world (entries (sigs st))) sig siginfo (handler_entry sig st) with
    | (Returned _, st2) =>
        deliver_each (deliver n world)
          (filter (fun s => negb (existsb (Z.eqb s) saved)) (pending (sigs st2)))
          (handler_exit saved st2)
    | r => r
    end.
Proof.
  intros Hflags Hd. cbn [deliver]. rewrite Hd.
  unfold responder_action, new_handler_for, handler_mask. cbn [sa_handler sa_flags sa_mask].
  rewrite Hflags. cbn [Z.eqb app]. reflexivity.
Qed.

Lemma deliver_to_foreign n world siginfo st id :
  sa_handler (disposition (sigs st) (si_signo siginfo)) = SigFn (ptr_foreign id) ->
  pending (sigs st) = [] ->
  deliver (S n) world siginfo st
  = (Returned tt, emits [EvForeignHandler id (si_signo siginfo)] st).
Proof.
  intros Hd Hp. cbn [deliver]. rewrite Hd. unfold emit.
  cbn [sigs pending log with_sigs set_sigmask]. rewrite Hp. cbn [filter].
  unfold deliver_each, ret. cbn [fold_left]. f_equal.
  unfold emits, log, with_sigs, set_pending, set_sigmask. cbn.
  destruct st as [g k t]. destruct k as [d m p e]. cbn in *. now subst p.
Qed.

Lemma deliver_each_nil f st : deliver_each f [] st = (Returned tt, st).
Proof. reflexivity. Qed.

Lemma deliver_each_one f sig st : deliver_each f [sig] st = f (raised sig) st.
Proof. unfold deliver_each, bind, ret. cbn. reflexivity. Qed.

End KernelFacts.

(** ** The trace only grows *)

Section TraceGrows.
Context {P : Platform}.

Lemma extends_ret {A : Type} (a : A) : extends_trace (ret a).
Proof. intros st. exists []. cbn. now rewrite app_nil_r. Qed.

Lemma extends_emit e : extends_trace (emit e).
Proof. intros st. now exists [e]. Qed.

Lemma extends_gets {A : Type} (f : state -> A) : extends_trace (gets f).
Proof. intros st. exists []. cbn. now rewrite app_nil_r. Qed.

Lemma extends_modify f :
  (forall st, trace (f st) = trace st) -> extends_trace (modify f).
Proof. intros Hf st. exists []. cbn. now rewrite Hf, app_nil_r. Qed.

Lemma extends_bind {A B : Type} (c : M A) (k : A -> M B) :
  extends_trace c -> (forall a, extends_trace (k a)) -> extends_trace (bind c k).
Proof.
  intros Hc Hk st. unfold bind. destruct (Hc st) as [evs1 E1].
  destruct (c st) as [[a| | | |] st1]; cbn [snd] in *; try (now exists evs1).
  destruct (Hk a st1) as [evs2 E2]. exists (evs1 ++ evs2).
  now rewrite E2, E1, app_assoc.
Qed.

Lemma extends_exit {A : Type} status : extends_trace (@exit A status).
Proof. intros st. now exists [EvExit status]. Qed.

Lemma extends_stop {A : Type} (o : outcome A) : extends_trace (fun st => (o, st)).
Proof. intros st. exists []. cbn. now rewrite app_nil_r. Qed.

(** Discharges [extends_trace] over the control structure of a body. *)
Ltac grows :=
  repeat first
    [ apply extends_ret | apply extends_emit | apply extends_gets
    | apply extends_exit | apply extends_stop
    | apply extends_modify; reflexivity
    | apply extends_bind; [|intros]
    | match goal with
      | |- extends_trace (if ?c then _ else _) => destruct c
      | |- extends_trace (match ?x with _ => _ end) => destruct x
      | |- extends_trace (when ?c _) => unfold when
      end
    | assumption ].

Lemma extends_raise dn sig :
  (forall s, extends_trace (dn s)) -> extends_trace (raise dn sig).
Proof. intros Hdn. unfold raise. grows. apply Hdn. Qed.

Lemma extends_sigaction sig act : extends_trace (sigaction sig act).
Proof. unfold sigaction. grows. Qed.

Lemma extends_gdbExtendedBacktrace o dumpFile : extends_trace (gdbExtendedBacktrace o dumpFile).
Proof.
  intros st. destruct (gdbExtendedBacktrace_effect o dumpFile st) as [out [evs [E _]]].
  exists evs. now rewrite E.
Qed.

Lemma extends_posixExceptionHandler dn o signum siginfo :
  (forall s, extends_trace (dn s)) ->
  extends_trace (posixExceptionHandler dn o signum siginfo).
Proof.
  intros Hdn. unfold posixExceptionHandler.
  apply extends_bind; [grows|intros running].
  apply extends_bind; [unfold when; destruct (negb _); [now apply extends_raise|grows]|intros _].
  apply extends_bind; [grows|intros _].
  apply extends_bind; [unfold backtrace; grows|intros btSize].
  apply extends_bind; [unfold mkstemp; grows|intros dumpFile].
  destruct (dumpFile =? -1); [unfold printf; grows|].
  unfold dbgDumpHeader, write, dbgDumpLog, raw_backtrace, backtrace_symbols_fd,
    fsync, printf, close, write.
  do 7 (apply extends_bind; [grows|intros]).
  apply extends_bind; [apply extends_gdbExtendedBacktrace|intros].
  do 3 (apply extends_bind; [grows|intros]).
  apply extends_bind; [apply extends_sigaction|intros].
  now apply extends_raise.
Qed.

Lemma extends_deliver_each f l :
  (forall i, extends_trace (f i)) -> extends_trace (deliver_each f l).
Proof.
  intros Hf. unfold deliver_each.
  assert (H : forall acc, extends_trace acc ->
                extends_trace (fold_left (fun acc s => acc ;; f (raised s)) l acc)).
  { induction l as [|s l IH]; intros acc Hacc; cbn [fold_left]; [exact Hacc|].
    apply IH. apply extends_bind; [exact Hacc|intros; apply Hf]. }
  apply H. apply extends_ret.
Qed.

Lemma extends_deliver fuel world : forall siginfo, extends_trace (deliver fuel world siginfo).
Proof.
  induction fuel as [|fuel IH]; intros siginfo st; cbn [deliver].
  - exists []. cbn. now rewrite app_nil_r.
  - destruct (sa_handler (disposition (sigs st) (si_signo siginfo))) as [| |f].
    + destruct (default_terminates (si_signo siginfo)); cbn [snd].
      * now exists [EvDefaultAction (si_signo siginfo)].
      * exists []. now rewrite app_nil_r.
    + exists []. cbn. now rewrite app_nil_r.
    + destruct f as [|id].
      * match goal with |- context [posixExceptionHandler ?dn ?o ?s ?i ?st0] =>
          destruct (extends_posixExceptionHandler dn o s i (fun s' => IH (raised s')) st0)
            as [evs1 E1];
          destruct (posixExceptionHandler dn o s i st0) as [[[]| | | |] st2]
        end; cbn [snd trace with_sigs] in *; try (now exists evs1).
        match goal with |- context [deliver_each ?f ?l ?s] =>
          destruct (extends_deliver_each f l IH s) as [evs2 E2] end.
        exists (evs1 ++ evs2). rewrite E2. cbn [trace with_sigs]. now rewrite E1, app_assoc.
      * unfold emit.
        match goal with |- context [deliver_each ?f ?l ?s] =>
          destruct (extends_deliver_each f l IH s) as [evs2 E2] end.
        exists (EvForeignHandler id (si_signo siginfo) :: evs2).
        rewrite E2. cbn [trace with_sigs log]. now rewrite <- app_assoc.
Qed.

End TraceGrows.

(** ** The Fault Responder: the claims *)

Section ResponderClaims.
Context {P : Platform}.

(** C7.  Once the artifact exists, the responder writes into it, in this
    order: the header of the header collaborator, the description given by
    the classifier (between "Dump caused by signal: " and an empty line), the
    recent log lines of the log collaborator, and the raw backtrace where
    glibc provides one, a note that none was dumped elsewhere.  The flush
    comes after these, and nothing touches the artifact before them. *)
Theorem posixExceptionHandler_capture_order dn o signum siginfo st :
  blocked signum st = true ->
  o_mkstemp o <> -1 ->
  let fd := o_mkstemp o in
  exists rest,
    trace (exec (posixExceptionHandler dn o signum siginfo) st)
    = trace st
      ++ guard_events (vars st) signum
      ++ (if GLIBC then [EvBacktrace MAX_BACKTRACE (o_backtrace o)] else [])
      ++ [EvMkstemp gdmpPath fd]
      ++ [EvDbgDumpHeader fd;
          EvWrite fd "Dump caused by signal: ";
          EvWrite fd (wz_strsignal (si_signo siginfo) (si_code siginfo));
          EvWrite fd (nl +++ nl);
          EvDbgDumpLog fd]
      ++ (if GLIBC
          then [EvWrite fd ("GLIBC raw backtrace:" +++ nl);
                EvBacktraceSymbolsFd (o_backtrace o) fd;
                EvWrite fd nl]
          else [EvWrite fd ("GLIBC not available, no raw backtrace dumped" +++ nl +++ nl)])
      ++ EvFsync fd :: rest.
Proof.
  intros Hb Hm fd. subst fd. unfold exec.
  rewrite (posixExceptionHandler_blocked dn o signum siginfo st Hb). cbv zeta.
  destruct (Z.eqb_spec (o_mkstemp o) (-1)) as [|_]; [contradiction|].
  set (stc := emits (capture_events o siginfo (o_mkstemp o))
                (emits (entry_events o) (entered signum st))).
  destruct (gdbExtendedBacktrace_effect o (o_mkstemp o) stc) as [out [evs [E _]]].
  unfold bind. rewrite E.
  assert (Hstc : trace (emits evs stc)
                 = trace st ++ guard_events (vars st) signum ++ entry_events o
                   ++ capture_events o siginfo (o_mkstemp o) ++ evs).
  { subst stc. unfold emits, entered. cbn [trace]. now rewrite <- !app_assoc. }
  unfold capture_events, entry_events in Hstc. rewrite <- !app_assoc in Hstc.
  destruct out as [b| | | |]; cbn [snd].
  - exists (evs ++ closing_events o signum (o_mkstemp o)
                     (oldAction (vars (emits evs stc)) signum)).
    unfold finished. cbn [trace]. rewrite Hstc. rewrite <- !app_assoc. reflexivity.
  - exists evs. rewrite Hstc. reflexivity.
  - exists evs. rewrite Hstc. reflexivity.
  - exists evs. rewrite Hstc. reflexivity.
  - exists evs. rewrite Hstc. reflexivity.
Qed.

(** The body of the responder entered with the flag set and its signal
    blocked: after the re-raise it captures all the same. *)
Lemma reentrant_body_captures_again dn o signum siginfo st p0 p1 :
  allreadyRunning (vars st) <> 0 ->
  blocked signum st = true ->
  o_mkstemp o <> -1 ->
  programIsAvailable (vars st) = true ->
  gdbIsAvailable (vars st) = true ->
  o_pipe o = Some (p0, p1) ->
  exists rest,
    trace (exec (posixExceptionHandler dn o signum siginfo) st)
    = trace st
      ++ [EvRaise signum]
      ++ entry_events o
      ++ capture_events o siginfo (o_mkstemp o)
      ++ [EvPipe (Some (p0, p1)); EvFork (o_fork o)]
      ++ rest.
Proof.
  intros Hr Hb Hm Hp Hg Ho. unfold exec.
  rewrite (posixExceptionHandler_blocked dn o signum siginfo st Hb). cbv zeta.
  destruct (Z.eqb_spec (o_mkstemp o) (-1)) as [|_]; [contradiction|].
  set (stc := emits (capture_events o siginfo (o_mkstemp o))
                (emits (entry_events o) (entered signum st))).
  assert (Hstc : trace stc
                 = trace st ++ [EvRaise signum] ++ entry_events o
                   ++ capture_events o siginfo (o_mkstemp o)).
  { subst stc. unfold emits, entered, guard_events. cbn [trace].
    destruct (Z.eqb_spec (allreadyRunning (vars st)) 0); [contradiction|].
    now rewrite <- !app_assoc. }
  assert (Hp' : programIsAvailable (vars stc) = true) by exact Hp.
  assert (Hg' : gdbIsAvailable (vars stc) = true) by exact Hg.
  unfold bind.
  destruct (Z.eq_dec (o_fork o) (-1)) as [Hf|Hf].
  - rewrite (gdbExtendedBacktrace_no_child _ _ _ _
               (execGdb_fork_failed o _ _ stc p0 p1 Hp' Hg' Ho Hf)).
    eexists. cbn [snd finished trace emits]. rewrite Hstc, Hf, <- !app_assoc.
    cbn [app]. reflexivity.
  - destruct (Z.eq_dec (o_fork o) 0) as [Hz|Hz].
    + pose proof (execGdb_child o (o_mkstemp o) (o_gdbPipe o) stc p0 p1 Hp' Hg' Ho Hz) as E.
      cbv zeta in E. unfold gdbExtendedBacktrace, bind. rewrite E.
      destruct (o_execve_fails o); eexists; cbn [snd trace emits];
        rewrite Hstc, Hz, <- !app_assoc; cbn [app]; reflexivity.
    + pose proof (gdbExtendedBacktrace_parent o (o_mkstemp o) stc p0 p1 Hp' Hg' Ho Hf Hz) as E.
      cbv zeta in E. rewrite E.
      eexists. cbn [snd finished trace emits]. rewrite Hstc, <- !app_assoc.
      cbn [app]. reflexivity.
Qed.

(** C1 (the code departs from the claim).  A fault delivered while an
    earlier invocation is running (the flag is set) does re-raise its signal
    first.  The signal is blocked inside its own handler, so [raise] returns,
    and since no [return] follows it the responder goes on: [mkstemp] creates
    a second artifact, the sections are written to it, and the orchestrator
    creates a pipe and forks a second debugger. *)
Theorem reentrant_fault_captures_again n world siginfo st p0 p1 :
  let signum := si_signo siginfo in
  let o := world (entries (sigs st)) in
  Z.land SA_SIGINFO SA_NODEFER = 0 ->
  disposition (sigs st) signum = responder_action ->
  allreadyRunning (vars st) <> 0 ->
  o_mkstemp o <> -1 ->
  programIsAvailable (vars st) = true ->
  gdbIsAvailable (vars st) = true ->
  o_pipe o = Some (p0, p1) ->
  exists rest,
    trace (exec (deliver (S n) world siginfo) st)
    = trace st
      ++ [EvRaise signum]
      ++ (if GLIBC then [EvBacktrace MAX_BACKTRACE (o_backtrace o)] else [])
      ++ [EvMkstemp gdmpPath (o_mkstemp o)]
      ++ capture_events o siginfo (o_mkstemp o)
      ++ [EvPipe (Some (p0, p1)); EvFork (o_fork o)]
      ++ rest.
Proof.
  intros signum o Hflags Hd Hr Hm Hp Hg Ho. subst signum. unfold exec.
  rewrite (deliver_to_responder n world siginfo st Hflags Hd). cbv zeta. fold o.
  set (sig := si_signo siginfo).
  set (dn := fun s' => deliver n world (raised s')).
  destruct (reentrant_body_captures_again dn o sig siginfo (handler_entry sig st) p0 p1
              Hr (blocked_handler_entry sig st) Hm Hp Hg Ho) as [rest1 E1].
  unfold exec in E1. unfold entry_events in E1. rewrite <- !app_assoc in E1.
  change (trace (handler_entry sig st)) with (trace st) in E1.
  destruct (posixExceptionHandler dn o sig siginfo (handler_entry sig st))
    as [[[]| | | |] st2]; cbn [snd] in *; try (exists rest1; rewrite E1; reflexivity).
  match goal with |- context [deliver_each ?f ?l ?s] =>
    destruct (extends_deliver_each f l (extends_deliver n world) s) as [evs2 E2] end.
  exists (rest1 ++ evs2). rewrite E2. unfold handler_exit. cbn [trace with_sigs].
  rewrite E1. rewrite <- !app_assoc. reflexivity.
Qed.

(** C2 (the code departs from the claim).  When [mkstemp] fails on the first
    fault, the responder prints the failure message and returns to the
    faulting context: the signal is not raised again, no handler is restored,
    and the responder stays installed. *)
Theorem mkstemp_failure_returns_without_reraise n world siginfo st :
  let signum := si_signo siginfo in
  let o := world (entries (sigs st)) in
  Z.land SA_SIGINFO SA_NODEFER = 0 ->
  disposition (sigs st) signum = responder_action ->
  allreadyRunning (vars st) = 0 ->
  pending (sigs st) = [] ->
  o_mkstemp o = -1 ->
  exists st',
    deliver (S n) world siginfo st = (Returned tt, st')
    /\ trace st' = trace st ++ entry_events o ++ [EvPrintf (failed_message o)]
    /\ existsb is_signal_event (entry_events o ++ [EvPrintf (failed_message o)]) = false
    /\ disposition (sigs st') signum = responder_action
    /\ pending (sigs st') = [].
Proof.
  intros signum o Hflags Hd Hr Hp Hm. subst signum o.
  rewrite (deliver_to_responder n world siginfo st Hflags Hd). cbv zeta.
  rewrite (posixExceptionHandler_blocked _ _ _ _ _ (blocked_handler_entry _ st)). cbv zeta.
  rewrite Hm. cbn [Z.eqb Pos.eqb].
  set (o := world (entries (sigs st))).
  assert (Hpend : pending (sigs (emits [EvPrintf (failed_message o)]
                    (emits (entry_events o)
                       (entered (si_signo siginfo) (handler_entry (si_signo siginfo) st))))) = []).
  { unfold entered, handler_entry. cbn. rewrite Hr. cbn. exact Hp. }
  rewrite Hpend. cbn [filter]. rewrite deliver_each_nil.
  eexists. split; [reflexivity|]. split; [|split; [|split]].
  - unfold handler_exit, entered, handler_entry, guard_events. cbn. rewrite Hr. cbn.
    now rewrite <- !app_assoc.
  - unfold entry_events. destruct GLIBC; reflexivity.
  - unfold handler_exit, entered, handler_entry. cbn. rewrite Hr. cbn. exact Hd.
  - unfold handler_exit. cbn [sigs with_sigs pending set_pending]. rewrite Hpend. reflexivity.
Qed.

(** C5.  On a first fault with the artifact created, the responder closes
    the artifact, puts the entry of oldAction back in place with [sigaction]
    and only then raises the signal.  When that entry is a handler of the
    embedding application, the kernel calls it once the responder has
    returned: exactly once, after the artifact was written and closed. *)
Theorem fault_restores_then_reraises n world siginfo st id :
  let signum := si_signo siginfo in
  let o := world (entries (sigs st)) in
  let fd := o_mkstemp o in
  let old := oldAction (vars st) signum in
  Z.land SA_SIGINFO SA_NODEFER = 0 ->
  disposition (sigs st) signum = responder_action ->
  sa_handler old = SigFn (ptr_foreign id) ->
  allreadyRunning (vars st) = 0 ->
  blocked signum st = false ->
  pending (sigs st) = [] ->
  fd <> -1 ->
  o_fork o <> 0 ->
  exists st' gdb_events,
    deliver (S (S n)) world siginfo st = (Returned tt, st')
    /\ trace st'
       = trace st
         ++ (entry_events o ++ capture_events o siginfo fd ++ gdb_events
             ++ [EvPrintf (saved_message o)])
         ++ [EvClose fd; EvSigaction signum (Some old); EvRaise signum;
             EvForeignHandler id signum]
    /\ existsb is_signal_event
         (entry_events o ++ capture_events o siginfo fd ++ gdb_events
          ++ [EvPrintf (saved_message o)]) = false
    /\ disposition (sigs st') signum = old
    /\ pending (sigs st') = [].
Proof.
  intros signum o fd old Hflags Hd Hold Hr Hnb Hp Hm Hf. subst signum fd old.
  rewrite (deliver_to_responder (S n) world siginfo st Hflags Hd). cbv zeta.
  rewrite (posixExceptionHandler_blocked _ _ _ _ _ (blocked_handler_entry _ st)). cbv zeta.
  fold o. destruct (Z.eqb_spec (o_mkstemp o) (-1)) as [|_]; [contradiction|].
  set (sig := si_signo siginfo) in *.
  set (stc := emits (capture_events o siginfo (o_mkstemp o))
                (emits (entry_events o) (entered sig (handler_entry sig st)))).
  destruct (gdbExtendedBacktrace_effect o (o_mkstemp o) stc) as [out [evs [E [Hev Hret]]]].
  destruct (Hret Hf) as [b ->]. unfold bind. rewrite E.
  set (st2 := finished o sig (o_mkstemp o) (emits evs stc)).
  assert (Hvars : oldAction (vars (emits evs stc)) sig = oldAction (vars st) sig) by reflexivity.
  assert (Hpend2 : pending (sigs st2) = [sig]).
  { subst st2 stc. unfold finished, entered, handler_entry. cbn. rewrite Hr. cbn.
    rewrite Hp. reflexivity. }
  rewrite Hpend2. cbn [filter]. unfold blocked in Hnb. rewrite Hnb. cbn [negb].
  rewrite deliver_each_one.
  assert (Hd3 : disposition (sigs (handler_exit (sigmask (sigs st)) st2)) (si_signo (raised sig))
                = oldAction (vars st) sig).
  { subst st2. unfold handler_exit, finished. cbn. now rewrite upd_same. }
  assert (Hp3 : pending (sigs (handler_exit (sigmask (sigs st)) st2)) = []).
  { unfold handler_exit. cbn [sigs with_sigs pending set_pending]. rewrite Hpend2.
    cbn [filter]. now rewrite Hnb. }
  rewrite (deliver_to_foreign n world (raised sig) _ id); [|now rewrite Hd3|exact Hp3].
  exists (emits [EvForeignHandler id (si_signo (raised sig))]
            (handler_exit (sigmask (sigs st)) st2)), evs.
  split; [reflexivity|]. split; [|split; [|split]].
  - subst st2 stc. unfold handler_exit, finished, entered, handler_entry, guard_events,
      closing_events, emits, with_sigs.
    cbn [trace vars sigs raised si_signo]. rewrite Hr. cbn [Z.eqb].
    rewrite <- !app_assoc. cbn [app]. reflexivity.
  - rewrite !existsb_app. rewrite Hev. unfold entry_events, capture_events.
    destruct GLIBC; reflexivity.
  - exact Hd3.
  - exact Hp3.
Qed.

End ResponderClaims.

(** ** External Tool Locator: facts *)

Section LocatorFacts.
Context {P : Platform}.
Import Stdlib.Init.Byte.
Local Open Scope nat_scope.

Lemma byte_eqb_eq a b : Byte.eqb a b = true <-> a = b.
Proof. split; [apply Byte.byte_dec_bl | apply Byte.byte_dec_lb]. Qed.

Lemma byte_eqb_refl a : Byte.eqb a a = true.
Proof. now apply byte_eqb_eq. Qed.

Lemma c_string_nil : c_string [] = [].
Proof. reflexivity. Qed.

Lemma c_string_cons b s :
  c_string (b :: s) = if Byte.eqb b NUL then [] else b :: c_string s.
Proof. unfold c_string. cbn [strlen]. now destruct (Byte.eqb b NUL). Qed.

(** A text without NUL is its own C string. *)
Lemma c_string_no_NUL s : ~ In NUL s -> c_string s = s.
Proof.
  induction s as [|b s IH]; intros Hn; [reflexivity|].
  rewrite c_string_cons. destruct (Byte.eqb b NUL) eqn:Hb.
  - apply byte_eqb_eq in Hb. subst b. exfalso. apply Hn. now left.
  - rewrite IH; [reflexivity|]. intros Hin. apply Hn. now right.
Qed.

Lemma strlen_c_string s : strlen s = List.length (c_string s).
Proof.
  induction s as [|b s IH]; [reflexivity|].
  rewrite c_string_cons. cbn [strlen]. destruct (Byte.eqb b NUL); cbn; congruence.
Qed.

Lemma c_string_app_NUL s zs : c_string (s ++ NUL :: zs) = c_string s.
Proof.
  induction s as [|b s IH]; cbn [app].
  - now rewrite c_string_cons, byte_eqb_refl.
  - rewrite !c_string_cons, IH. reflexivity.
Qed.

Lemma poke_length s : forall i b, List.length (poke s i b) = List.length s.
Proof. induction s as [|x s IH]; intros [|i] b; cbn; auto. Qed.

Lemma cut_linefeed_length buf : List.length (cut_linefeed buf) = List.length buf.
Proof. unfold cut_linefeed. destruct (strchr buf LF); [apply poke_length|reflexivity]. Qed.

Lemma cut_linefeed_cons b rest :
  cut_linefeed (b :: rest)
  = if Byte.eqb b LF then NUL :: rest
    else if Byte.eqb b NUL then b :: rest
    else b :: cut_linefeed rest.
Proof.
  unfold cut_linefeed. cbn [strchr].
  destruct (Byte.eqb b LF); [reflexivity|].
  destruct (Byte.eqb b NUL); [reflexivity|].
  destruct (strchr rest LF); reflexivity.
Qed.

(** Cutting the buffer at the linefeed leaves the first line of the text. *)
Lemma c_string_cut_linefeed out zs :
  c_string (cut_linefeed (out ++ NUL :: zs)) = first_line (c_string out).
Proof.
  induction out as [|b out IH]; cbn [app].
  - rewrite cut_linefeed_cons. cbn. reflexivity.
  - rewrite cut_linefeed_cons, (c_string_cons b out).
    destruct (Byte.eqb b LF) eqn:Hlf.
    + apply byte_eqb_eq in Hlf. subst b. cbn. reflexivity.
    + destruct (Byte.eqb b NUL) eqn:Hnul.
      * rewrite c_string_cons, Hnul. reflexivity.
      * rewrite c_string_cons, Hnul, IH. cbn [first_line]. now rewrite Hlf.
Qed.

(** The buffer still holds the NUL that ends its string. *)
Lemma cut_linefeed_terminated out zs :
  nth_error (cut_linefeed (out ++ NUL :: zs)) (strlen (cut_linefeed (out ++ NUL :: zs)))
  = Some NUL.
Proof.
  induction out as [|b out IH]; cbn [app]; rewrite cut_linefeed_cons.
  - cbn. reflexivity.
  - destruct (Byte.eqb b LF) eqn:Hlf; [reflexivity|].
    destruct (Byte.eqb b NUL) eqn:Hnul; cbn [strlen]; rewrite Hnul.
    + apply byte_eqb_eq in Hnul. now subst b.
    + exact IH.
Qed.

Lemma first_line_no_LF s : ~ In LF (first_line s).
Proof.
  induction s as [|b s IH]; cbn [first_line]; [tauto|].
  destruct (Byte.eqb b LF) eqn:Hlf; [cbn; tauto|].
  intros [->|Hin]; [|contradiction].
  now rewrite byte_eqb_refl in Hlf.
Qed.

(** What [fread] leaves in a zeroed buffer that the output does not fill. *)
Lemma fread_short out bufSize :
  List.length out < bufSize ->
  fread (memset NUL bufSize) bufSize out
  = (List.length out, out ++ NUL :: repeat NUL (bufSize - List.length out - 1)).
Proof.
  intros Hlt. unfold fread, memset.
  rewrite Nat.min_l by lia. rewrite firstn_all. f_equal. f_equal.
  replace bufSize with (List.length out + S (bufSize - List.length out - 1)) at 1 by lia.
  rewrite repeat_app, skipn_app, repeat_length, Nat.sub_diag.
  rewrite skipn_all2 by (rewrite repeat_length; lia). reflexivity.
Qed.

Lemma fread_full out bufSize :
  bufSize <= List.length out ->
  fread (memset NUL bufSize) bufSize out = (bufSize, firstn bufSize out).
Proof.
  intros Hle. unfold fread, memset.
  rewrite Nat.min_r by lia. f_equal.
  rewrite skipn_all2 by (rewrite repeat_length; lia). apply app_nil_r.
Qed.

(** C9.  [fetchProgramPath] returns false exactly when the output of the
    command fills the buffer or, cut at its first linefeed, is the empty
    string.  When it returns true the buffer holds that first line: a
    string that is not empty, contains no linefeed and is ended by a NUL
    inside the buffer. *)
Theorem fetchProgramPath_spec popen bufSize programCommand :
  let out := popen (which_command programCommand) in
  let ok := fst (fetchProgramPath popen bufSize programCommand) in
  let path := snd (fetchProgramPath popen bufSize programCommand) in
  (ok = false <-> bufSize <= List.length out \/ first_line (c_string out) = [])
  /\ List.length path = bufSize
  /\ (ok = true ->
      c_string path = first_line (c_string out)
      /\ c_string path <> []
      /\ ~ In LF (c_string path)
      /\ nth_error path (strlen path) = Some NUL).
Proof.
  intros out ok path. subst ok path. unfold fetchProgramPath. fold out.
  destruct (Nat.le_gt_cases bufSize (List.length out)) as [Hfull|Hshort].
  - rewrite (fread_full out bufSize Hfull). rewrite Nat.eqb_refl. cbn [fst snd].
    split; [|split].
    + split; auto.
    + rewrite length_firstn. lia.
    + discriminate.
  - rewrite (fread_short out bufSize Hshort).
    destruct (Nat.eqb_spec (List.length out) bufSize) as [Heq|_]; [lia|].
    set (zs := repeat NUL (bufSize - List.length out - 1)).
    fold (cut_linefeed (out ++ NUL :: zs)).
    pose proof (c_string_cut_linefeed out zs) as Hc.
    pose proof (cut_linefeed_terminated out zs) as Ht.
    assert (Hlen : List.length (cut_linefeed (out ++ NUL :: zs)) = bufSize).
    { rewrite cut_linefeed_length, length_app. cbn [List.length]. subst zs.
      rewrite repeat_length. lia. }
    rewrite (strlen_c_string (cut_linefeed (out ++ NUL :: zs))), Hc.
    destruct (first_line (c_string out)) as [|c l] eqn:Hline; cbn [List.length Nat.eqb fst snd].
    + split; [|split].
      * split; auto.
      * exact Hlen.
      * discriminate.
    + split; [|split].
      * split; [discriminate|]. intros [Hle|Hnil]; [lia|discriminate].
      * exact Hlen.
      * intros _. rewrite Hc. repeat split.
        -- discriminate.
        -- rewrite <- Hline. apply first_line_no_LF.
        -- exact Ht.
Qed.

End LocatorFacts.

(** ** The claims on Linux *)

(** C4: the debugger was not found at startup. *)
Lemma gdbExtendedBacktrace_without_gdb_linux :
  gdbExtendedBacktrace good_run 3 startup_state_without_gdb
  = (Returned false,
     emits [EvWrite 3 ("No extended backtrace dumped:" +++ nl);
            EvWrite 3 ("- GDB not available" +++ nl)] startup_state_without_gdb).
Proof.
  exact (proj1 (@gdbExtendedBacktrace_unavailable linux good_run 3 startup_state_without_gdb
                  (or_intror eq_refl))).
Defined.

(** C6: a debugger killed by SIGKILL makes the orchestrator fail. *)
Lemma gdbExtendedBacktrace_debugger_killed_linux :
  run (gdbExtendedBacktrace debugger_killed 3) startup_state = Returned false.
Proof.
  destruct (@gdbExtendedBacktrace_child_status linux debugger_killed 3 startup_state 4 5
              eq_refl eq_refl eq_refl ltac:(discriminate) ltac:(discriminate))
    as [b [notes [E [Hiff _]]]].
  unfold run. rewrite E. cbn [fst]. destruct b; [|reflexivity].
  destruct (proj1 Hiff eq_refl) as [status [Hs [Hx _]]].
  inversion Hs; subst status. discriminate Hx.
Defined.

(** C6 as the claim words it: the note would go to the standard error
    stream.  It goes to the artifact (descriptor 3) and, through [printf], to
    the standard output (descriptor 1); nothing is sent to descriptor 2. *)
Lemma GDB_failed_note_not_on_stderr :
  run (gdbExtendedBacktrace debugger_killed 3) startup_state = Returned false
  /\ map event_output (trace (exec (gdbExtendedBacktrace debugger_killed 3) startup_state))
     = [None; None; Some (5, gdbCommands +++ nul); None; None; None;
        Some (3, "GDB failed" +++ nl); Some (STDOUT_FILENO, "GDB failed" +++ nl)]
  /\ existsb to_stderr (trace (exec (gdbExtendedBacktrace debugger_killed 3) startup_state))
     = false
  /\ ~ In (Some (STDERR_FILENO, "GDB failed" +++ nl))
          (map event_output
             (trace (exec (gdbExtendedBacktrace debugger_killed 3) startup_state))).
Proof.
  split; [reflexivity|]. split; [reflexivity|]. split; [reflexivity|].
  cbv. intros H. repeat (destruct H as [H|H]; [discriminate H|]). exact H.
Qed.

(** C8: SIGQUIT (3) was ignored and stays so; SIGSEGV (11) had a handler,
    which is kept in oldAction while the responder takes its place. *)
Lemma setFatalSignalHandler_registers_linux :
  disposition (sigs registered_state) 3 = ignore_action
  /\ oldAction (vars registered_state) 11 = foreign_action 7
  /\ disposition (sigs registered_state) 11 = responder_action
  /\ sa_flags (disposition (sigs registered_state) 11) = SA_SIGINFO.
Proof.
  assert (Hnd : NoDup (@fatal_signals linux)) by nodup_Z.
  destruct (@setFatalSignalHandler_registers linux ptr_posixExceptionHandler startup_state 3 Hnd
              ltac:(cbv; tauto)) as [_ [evs3 [_ [_ [Hign _]]]]].
  destruct (@setFatalSignalHandler_registers linux ptr_posixExceptionHandler startup_state 11 Hnd
              ltac:(cbv; tauto)) as [_ [evs11 [_ [_ [_ Hinst]]]]].
  destruct (Hign eq_refl) as [H3 _].
  destruct (Hinst ltac:(discriminate)) as [Hold [Hnew [_ [_ Hflags]]]].
  split; [exact H3|]. split; [exact Hold|]. split; [exact Hnew|].
  unfold registered_state. rewrite Hnew. exact Hflags.
Defined.

(** C7: the sections of the artifact for a segmentation fault. *)
Lemma posixExceptionHandler_capture_order_linux :
  exists rest,
    trace (exec (posixExceptionHandler no_delivery good_run 11 segv_maperr)
             (handler_entry 11 registered_state))
    = trace registered_state
      ++ [EvBacktrace 20 5; EvMkstemp gdmpPath 3;
          EvDbgDumpHeader 3;
          EvWrite 3 "Dump caused by signal: ";
          EvWrite 3 "SIGSEGV: Invalid memory reference: Address not mapped to object";
          EvWrite 3 (nl +++ nl);
          EvDbgDumpLog 3;
          EvWrite 3 ("GLIBC raw backtrace:" +++ nl);
          EvBacktraceSymbolsFd 5 3;
          EvWrite 3 nl;
          EvFsync 3]
      ++ rest.
Proof.
  destruct (@posixExceptionHandler_capture_order linux no_delivery good_run 11 segv_maperr
              (handler_entry 11 registered_state) eq_refl ltac:(discriminate))
    as [rest E].
  exists rest. rewrite E. vm_compute. reflexivity.
Defined.

(** C1 at its failing input: a segmentation fault while the abort is being
    captured. *)
Lemma reentrant_fault_captures_again_linux :
  exists rest,
    trace (exec (deliver 3 (fun _ => second_run) segv_maperr) during_first_capture)
    = trace during_first_capture
      ++ [EvRaise 11; EvBacktrace 20 9; EvMkstemp gdmpPath 6]
      ++ capture_events second_run segv_maperr 6
      ++ [EvPipe (Some (7, 8)); EvFork 4322]
      ++ rest.
Proof.
  destruct (@reentrant_fault_captures_again linux 2 (fun _ => second_run) segv_maperr
              during_first_capture 7 8
              eq_refl eq_refl ltac:(discriminate) ltac:(discriminate) eq_refl eq_refl eq_refl)
    as [rest E].
  exists rest. rewrite E. vm_compute. reflexivity.
Defined.

(** The same scenario in full: a second artifact (6), a
    second debugger (4322), then the handler that the application had
    installed for SIGSEGV. *)
Example reentrant_fault_linux :
  let r := deliver 3 (fun _ => second_run) segv_maperr during_first_capture in
  fst r = Returned tt
  /\ trace (snd r)
     = trace during_first_capture
       ++ [EvRaise 11; EvBacktrace 20 9; EvMkstemp gdmpPath 6;
           EvDbgDumpHeader 6;
           EvWrite 6 "Dump caused by signal: ";
           EvWrite 6 "SIGSEGV: Invalid memory reference: Address not mapped to object";
           EvWrite 6 (nl +++ nl);
           EvDbgDumpLog 6;
           EvWrite 6 ("GLIBC raw backtrace:" +++ nl);
           EvBacktraceSymbolsFd 9 6;
           EvWrite 6 nl;
           EvFsync 6;
           EvPipe (Some (7, 8)); EvFork 4322;
           EvWrite 8 (gdbCommands +++ nul); EvFsync 8;
           EvWaitpid 4322 (waitpid_child 0); EvClose 8;
           EvPrintf (saved_message second_run); EvClose 6;
           EvSigaction 11 (Some (foreign_action 7)); EvRaise 11;
           EvForeignHandler 7 11].
Proof. cbv zeta. split; vm_compute; reflexivity. Qed.

(** C2 at its failing input: /tmp is not writable when the process aborts. *)
Lemma mkstemp_failure_returns_linux :
  exists st',
    deliver 1 (fun _ => tmp_unwritable) abort_raised registered_state = (Returned tt, st')
    /\ trace st' = trace registered_state
                   ++ [EvBacktrace 20 5; EvMkstemp gdmpPath (-1);
                       EvPrintf "Failed to create dump file '/tmp/warzone2100.gdmp-XXXXXX'"]
    /\ disposition (sigs st') 6 = responder_action.
Proof.
  destruct (@mkstemp_failure_returns_without_reraise linux 0 (fun _ => tmp_unwritable) abort_raised
              registered_state eq_refl eq_refl eq_refl eq_refl eq_refl)
    as [st' [E [Ht [_ [Hd _]]]]].
  exists st'. split; [exact E|]. split; [exact Ht|exact Hd].
Defined.

(** C5: a segmentation fault in a process whose application had a handler
    for SIGSEGV. *)
Lemma fault_restores_then_reraises_linux :
  exists st' gdb_events,
    deliver 2 (fun _ => good_run) segv_maperr registered_state = (Returned tt, st')
    /\ trace st'
       = trace registered_state
         ++ (entry_events good_run ++ capture_events good_run segv_maperr 3 ++ gdb_events
             ++ [EvPrintf (saved_message good_run)])
         ++ [EvClose 3; EvSigaction 11 (Some (foreign_action 7)); EvRaise 11;
             EvForeignHandler 7 11]
    /\ disposition (sigs st') 11 = foreign_action 7.
Proof.
  destruct (@fault_restores_then_reraises linux 0 (fun _ => good_run) segv_maperr
              registered_state 7 eq_refl eq_refl eq_refl eq_refl eq_refl eq_refl
              ltac:(discriminate) ltac:(discriminate))
    as [st' [evs [E [Ht [_ [Hd _]]]]]].
  exists st', evs. split; [exact E|]. split; [exact Ht|exact Hd].
Defined.

(** The same fault in full: the handler of the application runs once, last. *)
Example fault_linux :
  let r := deliver 2 (fun _ => good_run) segv_maperr registered_state in
  fst r = Returned tt
  /\ skipn (List.length (trace registered_state)) (trace (snd r))
     = [EvBacktrace 20 5; EvMkstemp gdmpPath 3;
        EvDbgDumpHeader 3;
        EvWrite 3 "Dump caused by signal: ";
        EvWrite 3 "SIGSEGV: Invalid memory reference: Address not mapped to object";
        EvWrite 3 (nl +++ nl);
        EvDbgDumpLog 3;
        EvWrite 3 ("GLIBC raw backtrace:" +++ nl);
        EvBacktraceSymbolsFd 5 3;
        EvWrite 3 nl;
        EvFsync 3;
        EvPipe (Some (4, 5)); EvFork 4321;
        EvWrite 5 (gdbCommands +++ nul); EvFsync 5;
        EvWaitpid 4321 (waitpid_child 0); EvClose 5;
        EvPrintf (saved_message good_run); EvClose 3;
        EvSigaction 11 (Some (foreign_action 7)); EvRaise 11;
        EvForeignHandler 7 11]
  /\ List.length (filter is_foreign_call (trace (snd r))) = 1%nat.
Proof. cbv zeta. repeat split; vm_compute; reflexivity. Qed.

(** C9: the debugger is found, the linefeed is gone from the path. *)
Example fetchProgramPath_gdb_found :
  fetchProgramPath (fun _ => which_gdb_output) 16 "gdb"
  = (true, firstn 12 which_gdb_output ++ repeat NUL 4).
Proof. vm_compute. reflexivity. Qed.

(** C9: nothing printed, or more than the buffer takes. *)
Example fetchProgramPath_gdb_missing :
  fst (fetchProgramPath (fun _ => []) 16 "gdb") = false
  /\ fst (fetchProgramPath (fun _ => which_gdb_output) 13 "gdb") = false
  /\ fst (fetchProgramPath (fun _ => which_gdb_output) 14 "gdb") = true.
Proof. repeat split; vm_compute; reflexivity. Qed.

(** C10: when [fork] fails both ends of the pipe are closed and the caller's
    variable (77) is as it was. *)
Example execGdb_fork_failed_linux :
  execGdb {| o_backtrace := 5; o_mkstemp := 3; o_dumpFilename := "";
             o_pipe := Some (4, 5); o_fork := -1; o_execve_fails := false;
             o_waitpid := waitpid_error; o_gdbPipe := 77 |} 3 77 startup_state
  = (Returned (0, 77),
     emits [EvPipe (Some (4, 5)); EvFork (-1);
            EvWrite 3 ("Fork failed" +++ nl); EvPrintf ("Fork failed" +++ nl);
            EvClose 4; EvClose 5] startup_state).
Proof. vm_compute. reflexivity. Qed.

(** * Further properties *)

(** ** Signal Classifier *)

Section MoreClassifier.
Context {P : Platform}.

(** A switch whose operand is one of its labels runs one of its bodies. *)
Lemma switch_some_body {A : Type} (cases : list (Z * A)) d x :
  In x (labels cases) -> In (switch cases d x) (map snd cases).
Proof.
  induction cases as [|[l b] rest IH]; simpl; intros Hin; [contradiction|].
  destruct (Z.eqb_spec x l) as [->|Hne]; [now left|].
  right. apply IH. destruct Hin as [Heq|Hin]; [congruence|exact Hin].
Qed.

Lemma signal_bodies_not_fallback sigcode :
  Forall not_fallback (map snd (signal_cases sigcode)).
Proof.
  unfold signal_cases, if_xopen, poll_cases.
  destruct XOPEN_UNIX;
    [ destruct poll_err_hup_differ as [[e h]|]; destruct poll_err_hup_same as [e'|] | ];
    simpl; repeat constructor; unfold not_fallback;
    repeat match goal with |- context [if ?c then _ else _] => destruct c end;
    discriminate.
Qed.

(** X1.  The classifier answers "Unknown signal" exactly for the signal
    numbers that are no case label of its outer switch, whatever the code. *)
Theorem wz_strsignal_fallback_iff signum sigcode :
  wz_strsignal signum sigcode = "Unknown signal" <-> ~ In signum signal_labels.
Proof.
  split.
  - intros E Hin. rewrite <- (signal_labels_any sigcode) in Hin.
    pose proof (switch_some_body (signal_cases sigcode) "Unknown signal" signum Hin) as Hb.
    pose proof (signal_bodies_not_fallback sigcode) as HF.
    rewrite Forall_forall in HF. exact (HF _ Hb E).
  - intros Hn. unfold wz_strsignal. apply switch_miss. now rewrite signal_labels_any.
Qed.

Lemma prefix_refl s : prefix s s = true.
Proof. induction s as [|c s IH]; simpl; [reflexivity|]. now destruct (ascii_dec c c). Qed.

Lemma fatal_descriptions_signals : map fst fatal_descriptions = fatal_signals.
Proof. unfold fatal_descriptions, fatal_signals, if_xopen. now destruct XOPEN_UNIX. Qed.

(** Finds the case of a signal of the fatal set and compares the texts. *)
Ltac pick_case :=
  eexists; split;
  [ simpl; repeat first [ left; reflexivity | right ]
  | simpl; repeat match goal with |- context [if ?c then _ else _] => destruct c end;
    reflexivity ].

Lemma fatal_description_case sig d sigcode :
  In (sig, d) fatal_descriptions ->
  exists body, In (sig, body) (signal_cases sigcode) /\ prefix d body = true.
Proof.
  unfold fatal_descriptions, signal_cases, if_xopen. intros Hin.
  destruct XOPEN_UNIX; simpl in Hin;
    repeat (destruct Hin as [Hin|Hin]; [inversion Hin; subst; pick_case|]);
    contradiction.
Qed.

(** X2.  For every signal that the registrar subscribes to, and every code,
    the classifier's answer begins with the description of that very signal:
    the text of its case or of the [default:] of its inner switch.  No
    handled fault is reported under a foreign name or as unknown. *)
Theorem wz_strsignal_names_fatal_signal sig sigcode :
  NoDup signal_labels ->
  In sig fatal_signals ->
  exists d, In (sig, d) fatal_descriptions
            /\ prefix d (wz_strsignal sig sigcode) = true.
Proof.
  intros Hnd Hin. rewrite <- fatal_descriptions_signals in Hin.
  apply in_map_iff in Hin. destruct Hin as [[sig' d] [Hfst Hin]]. cbn in Hfst. subst sig'.
  exists d. split; [exact Hin|].
  destruct (fatal_description_case sig d sigcode Hin) as [body [Hcase Hpre]].
  unfold wz_strsignal.
  rewrite (switch_hit _ _ _ _ ltac:(now rewrite signal_labels_any) Hcase). exact Hpre.
Qed.

Lemma SIGPOLL_case sigcode :
  XOPEN_UNIX = true ->
  In (SIGPOLL, switch poll_cases "SIGPOLL: Pollable event" sigcode) (signal_cases sigcode).
Proof.
  intros Hx. unfold signal_cases, if_xopen. rewrite Hx.
  apply in_or_app. right. apply in_or_app. left. now left.
Qed.

(** X20.  Where POLL_ERR and POLL_HUP are one value (the FreeBSD case of the
    source), the classifier describes a SIGPOLL with that code by the
    combined text, and the inner switch has that label only once. *)
Theorem wz_strsignal_SIGPOLL_same_codes e :
  NoDup signal_labels ->
  XOPEN_UNIX = true ->
  POLL_ERR = Some e ->
  POLL_HUP = Some e ->
  ~ In e [POLL_IN; POLL_OUT; POLL_MSG; POLL_PRI] ->
  wz_strsignal SIGPOLL e
  = "SIGPOLL: Pollable event: " +++ dq +++ "I/O error" +++ dq
    +++ " or " +++ dq +++ "Device disconnected" +++ dq +++ "."
  /\ count_occ Z.eq_dec (labels poll_cases) e = 1%nat.
Proof.
  intros Hnd Hx He Hh Hn. unfold wz_strsignal.
  rewrite (switch_hit _ _ _ _ ltac:(now rewrite signal_labels_any) (SIGPOLL_case e Hx)).
  unfold poll_cases, poll_err_hup_differ, poll_err_hup_same. rewrite He, Hh, Z.eqb_refl.
  cbn [app switch labels map fst count_occ].
  assert (H1 : e <> POLL_IN) by (intros ->; apply Hn; simpl; tauto).
  assert (H2 : e <> POLL_OUT) by (intros ->; apply Hn; simpl; tauto).
  assert (H3 : e <> POLL_MSG) by (intros ->; apply Hn; simpl; tauto).
  assert (H4 : e <> POLL_PRI) by (intros ->; apply Hn; simpl; tauto).
  destruct (Z.eqb_spec e POLL_IN); [contradiction|].
  destruct (Z.eqb_spec e POLL_OUT); [contradiction|].
  destruct (Z.eqb_spec e POLL_MSG); [contradiction|].
  destruct (Z.eqb_spec e POLL_PRI); [contradiction|].
  rewrite Z.eqb_refl. split; [reflexivity|].
  destruct (Z.eq_dec POLL_IN e); [congruence|].
  destruct (Z.eq_dec POLL_OUT e); [congruence|].
  destruct (Z.eq_dec POLL_MSG e); [congruence|].
  destruct (Z.eq_dec POLL_PRI e); [congruence|].
  destruct (Z.eq_dec e e); [reflexivity|congruence].
Qed.

End MoreClassifier.

(** ** Fault Handler Registrar *)

Section MoreRegistrar.
Context {P : Platform}.

(** X3.  The registrar touches nothing but the fatal set: for every other
    signal number the disposition and the entry of oldAction are what they
    were before the call. *)
Theorem setFatalSignalHandler_leaves_other_signals h st sig :
  ~ In sig fatal_signals ->
  disposition (sigs (exec (setFatalSignalHandler h) st)) sig = disposition (sigs st) sig
  /\ oldAction (vars (exec (setFatalSignalHandler h) st)) sig = oldAction (vars st) sig.
Proof.
  intros Hn. unfold exec. rewrite setFatalSignalHandler_run. cbn [snd].
  destruct (registered_frame (new_handler_for h) fatal_signals st sig Hn) as [E1 E2].
  now split.
Qed.

(** X4.  Registering twice loses the original handler: after a second call
    the entry of oldAction for a signal that was not ignored is the handler
    installed by the first call, no longer the disposition the process
    started with. *)
Theorem setFatalSignalHandler_twice h1 h2 st sig :
  NoDup fatal_signals ->
  In sig fatal_signals ->
  sa_handler (disposition (sigs st) sig) <> SIG_IGN ->
  let st1 := exec (setFatalSignalHandler h1) st in
  let st2 := exec (setFatalSignalHandler h2) st1 in
  oldAction (vars st1) sig = disposition (sigs st) sig
  /\ oldAction (vars st2) sig = new_handler_for h1
  /\ disposition (sigs st2) sig = new_handler_for h2.
Proof.
  intros Hnd Hin Hign st1 st2. subst st1 st2. unfold exec.
  rewrite !setFatalSignalHandler_run. cbn [snd].
  set (stA := fold_left (registered (new_handler_for h1)) fatal_signals st).
  destruct (registered_all (new_handler_for h1) fatal_signals st sig Hnd Hin) as [Eold Edisp].
  destruct (registered_all (new_handler_for h2) fatal_signals stA sig Hnd Hin) as [Eold2 Edisp2].
  assert (Hi : is_SIG_IGN (sa_handler (disposition (sigs st) sig)) = false).
  { destruct (sa_handler (disposition (sigs st) sig)); try reflexivity. now elim Hign. }
  rewrite Hi in Edisp. fold stA in Edisp, Eold.
  rewrite Edisp in Eold2, Edisp2. cbn in Edisp2.
  repeat split; assumption.
Qed.

(** X5.  Wherever the registrar has installed its handler, the entry it
    keeps in oldAction is not SIG_IGN: what the responder restores before it
    raises the signal again never discards that signal. *)
Theorem installed_handler_has_live_predecessor h st sig :
  NoDup fatal_signals ->
  In sig fatal_signals ->
  disposition (sigs (exec (setFatalSignalHandler h) st)) sig = new_handler_for h ->
  is_SIG_IGN (sa_handler (oldAction (vars (exec (setFatalSignalHandler h) st)) sig)) = false.
Proof.
  intros Hnd Hin. unfold exec. rewrite setFatalSignalHandler_run. cbn [snd].
  destruct (registered_all (new_handler_for h) fatal_signals st sig Hnd Hin) as [Eold Edisp].
  rewrite Eold, Edisp.
  destruct (is_SIG_IGN (sa_handler (disposition (sigs st) sig))) eqn:Hi; [|reflexivity].
  intros E. rewrite E in Hi. discriminate Hi.
Qed.

End MoreRegistrar.

(** ** Debugger Orchestrator *)

Section MoreOrchestrator.
Context {P : Platform}.

(** Every run of the orchestrator takes one of five paths. *)
Lemma gdbExtendedBacktrace_paths o dumpFile st :
  let r := gdbExtendedBacktrace o dumpFile st in
  let g := vars st in
  (r = (Returned false, emits (unavailable_notes dumpFile g) st)
   /\ (programIsAvailable g = false \/ gdbIsAvailable g = false))
  \/ (r = (Returned false,
           emits [EvPipe None; EvWrite dumpFile ("Pipe failed" +++ nl);
                  EvPrintf ("Pipe failed" +++ nl)] st)
      /\ programIsAvailable g = true /\ gdbIsAvailable g = true /\ o_pipe o = None)
  \/ (exists p0 p1,
        r = (Returned false,
             emits [EvPipe (Some (p0, p1)); EvFork (-1);
                    EvWrite dumpFile ("Fork failed" +++ nl); EvPrintf ("Fork failed" +++ nl);
                    EvClose p0; EvClose p1] st)
        /\ programIsAvailable g = true /\ gdbIsAvailable g = true
        /\ o_pipe o = Some (p0, p1) /\ o_fork o = -1)
  \/ (exists p0 p1,
        r = (if o_execve_fails o
             then (Exited 1,
                   emits (child_events g dumpFile p0 p1
                          ++ [EvWrite dumpFile ("execcv(" +++ dq +++ "gdb" +++ dq +++ ") failed" +++ nl);
                              EvExit 1]) st)
             else (Replaced, emits (child_events g dumpFile p0 p1) st))
        /\ programIsAvailable g = true /\ gdbIsAvailable g = true
        /\ o_pipe o = Some (p0, p1) /\ o_fork o = 0)
  \/ (exists p0 p1,
        r = (Returned (verdict (o_waitpid o)),
             emits (parent_events o p0 p1
                    ++ if verdict (o_waitpid o) then []
                       else [EvWrite dumpFile ("GDB failed" +++ nl);
                             EvPrintf ("GDB failed" +++ nl)]) st)
        /\ programIsAvailable g = true /\ gdbIsAvailable g = true
        /\ o_pipe o = Some (p0, p1) /\ o_fork o <> -1 /\ o_fork o <> 0).
Proof.
  cbv zeta.
  destruct (programIsAvailable (vars st)) eqn:Hp; [destruct (gdbIsAvailable (vars st)) eqn:Hg|].
  - destruct (o_pipe o) as [[p0 p1]|] eqn:Ho.
    + destruct (Z.eq_dec (o_fork o) (-1)) as [Hf|Hf].
      * right; right; left. exists p0, p1. repeat split; try assumption.
        apply gdbExtendedBacktrace_no_child. now apply (execGdb_fork_failed o dumpFile _ st p0 p1).
      * destruct (Z.eq_dec (o_fork o) 0) as [Hz|Hz].
        -- right; right; right; left. exists p0, p1. repeat split; try assumption.
           pose proof (execGdb_child o dumpFile (o_gdbPipe o) st p0 p1 Hp Hg Ho Hz) as E.
           cbv zeta in E. unfold gdbExtendedBacktrace, bind. rewrite E.
           destruct (o_execve_fails o); reflexivity.
        -- right; right; right; right. exists p0, p1. repeat split; try assumption.
           exact (gdbExtendedBacktrace_parent o dumpFile st p0 p1 Hp Hg Ho Hf Hz).
    + right; left. repeat split; try assumption.
      apply gdbExtendedBacktrace_no_child. now apply execGdb_pipe_failed.
  - left. split; [|now right].
    apply gdbExtendedBacktrace_no_child. apply execGdb_unavailable. now right.
  - left. split; [|now left].
    apply gdbExtendedBacktrace_no_child. apply execGdb_unavailable. now left.
Qed.

(** X6.  The orchestrator never fails in silence: whenever it returns false,
    one of its four notes ("No extended backtrace dumped:", "Pipe failed",
    "Fork failed", "GDB failed") has been written into the artifact. *)
Theorem gdbExtendedBacktrace_failure_is_noted o dumpFile st :
  run (gdbExtendedBacktrace o dumpFile) st = Returned false ->
  exists evs note,
    exec (gdbExtendedBacktrace o dumpFile) st = emits evs st
    /\ In (EvWrite dumpFile note) evs
    /\ In note failure_notes.
Proof.
  unfold run, exec, failure_notes.
  destruct (gdbExtendedBacktrace_paths o dumpFile st)
    as [[E _]|[[E _]|[[p0 [p1 [E _]]]|[[p0 [p1 [E _]]]|[p0 [p1 [E _]]]]]]];
    cbv zeta in E; rewrite E; cbn [fst snd].
  - intros _. do 2 eexists. split; [reflexivity|]. split; [now left|]. now left.
  - intros _. do 2 eexists. split; [reflexivity|]. split; [right; now left|]. right; now left.
  - intros _. do 2 eexists. split; [reflexivity|].
    split; [right; right; now left|]. right; right; now left.
  - destruct (o_execve_fails o); discriminate.
  - intros Hv. inversion Hv as [Hv']. rewrite Hv'. do 2 eexists. split; [reflexivity|].
    split; [apply in_or_app; right; now left|]. right; right; right; now left.
Qed.

(** X7.  The orchestrator returns true only after a debugger really ran:
    both paths were resolved, a pipe and a child exist, the whole command
    script went into the write end before the wait, the child exited
    normally with status zero, and nothing was added to the artifact by the
    parent. *)
Theorem gdbExtendedBacktrace_success_means_debugger_ran o dumpFile st :
  run (gdbExtendedBacktrace o dumpFile) st = Returned true ->
  programIsAvailable (vars st) = true
  /\ gdbIsAvailable (vars st) = true
  /\ child_succeeded (o_waitpid o)
  /\ exists p0 p1,
       o_pipe o = Some (p0, p1)
       /\ exec (gdbExtendedBacktrace o dumpFile) st
          = emits [EvPipe (Some (p0, p1)); EvFork (o_fork o);
                   EvWrite p1 (gdbCommands +++ nul); EvFsync p1;
                   EvWaitpid (o_fork o) (o_waitpid o); EvClose p1] st.
Proof.
  unfold run, exec.
  destruct (gdbExtendedBacktrace_paths o dumpFile st)
    as [[E _]|[[E _]|[[p0 [p1 [E _]]]|[[p0 [p1 [E _]]]|[p0 [p1 [E [Hp [Hg [Ho _]]]]]]]]]];
    cbv zeta in E; rewrite E; cbn [fst snd]; try discriminate.
  - destruct (o_execve_fails o); discriminate.
  - intros Hv. inversion Hv as [Hv']. rewrite Hv'.
    split; [exact Hp|]. split; [exact Hg|]. split.
    + unfold child_succeeded, verdict in *. destruct (o_waitpid o) as [|status]; [discriminate|].
      apply andb_prop in Hv'. destruct Hv' as [Hx Hz]. exists status.
      split; [reflexivity|]. split; [exact Hx|]. now apply Z.eqb_eq.
    + exists p0, p1. split; [exact Ho|]. unfold parent_events. now rewrite app_nil_r.
Qed.

(** X8.  The parent keeps the read end of the pipe: it closes the write end
    after the wait and never closes the read end, on success as on "GDB
    failed". *)
Theorem gdbExtendedBacktrace_parent_keeps_read_end o dumpFile st p0 p1 :
  programIsAvailable (vars st) = true ->
  gdbIsAvailable (vars st) = true ->
  o_pipe o = Some (p0, p1) ->
  o_fork o <> -1 ->
  o_fork o <> 0 ->
  p0 <> p1 ->
  exists evs,
    exec (gdbExtendedBacktrace o dumpFile) st = emits evs st
    /\ leaked_pipe_fds evs = [p0]
    /\ existsb (closes p0) evs = false
    /\ existsb (closes p1) evs = true.
Proof.
  intros Hp Hg Ho Hf Hz Hne. unfold exec.
  pose proof (gdbExtendedBacktrace_parent o dumpFile st p0 p1 Hp Hg Ho Hf Hz) as E.
  cbv zeta in E. rewrite E. cbn [snd].
  eexists. split; [reflexivity|].
  assert (H10 : (p1 =? p0) = false) by (apply Z.eqb_neq; congruence).
  match goal with |- context [if ?c then _ else _] => destruct c end;
    cbn; rewrite H10, Z.eqb_refl; cbn; repeat split; reflexivity.
Qed.

End MoreOrchestrator.

(** ** Fault Responder *)

Section MoreResponder.
Context {P : Platform}.

Lemma add_pending_In sig p : In sig (add_pending sig p).
Proof.
  unfold add_pending. destruct (existsb (Z.eqb sig) p) eqn:E.
  - apply existsb_exists in E. destruct E as [x [Hx Heq]].
    apply Z.eqb_eq in Heq. now subst x.
  - apply in_or_app. right. now left.
Qed.

Lemma vars_entered signum st : vars (entered signum st) = set_allreadyRunning 1 (vars st).
Proof. reflexivity. Qed.

(** X9.  Once the artifact exists, the faulting process always reaches the
    end of the responder, whatever became of the debugger (paths missing,
    pipe or fork failed, debugger failed or succeeded): it prints where the
    dump was saved, closes the artifact, restores the entry of oldAction and
    raises the signal, in this order, and returns with the signal pending. *)
Theorem posixExceptionHandler_always_finalizes dn o signum siginfo st :
  blocked signum st = true ->
  o_mkstemp o <> -1 ->
  o_fork o <> 0 ->
  exists gdb_events st',
    posixExceptionHandler dn o signum siginfo st = (Returned tt, st')
    /\ trace st'
       = trace st
         ++ guard_events (vars st) signum
         ++ entry_events o
         ++ capture_events o siginfo (o_mkstemp o)
         ++ gdb_events
         ++ [EvPrintf (saved_message o); EvClose (o_mkstemp o);
             EvSigaction signum (Some (oldAction (vars st) signum)); EvRaise signum]
    /\ existsb is_signal_event gdb_events = false
    /\ disposition (sigs st') signum = oldAction (vars st) signum
    /\ In signum (pending (sigs st')).
Proof.
  intros Hb Hm Hf.
  rewrite (posixExceptionHandler_blocked dn o signum siginfo st Hb). cbv zeta.
  destruct (Z.eqb_spec (o_mkstemp o) (-1)) as [|_]; [contradiction|].
  set (stc := emits (capture_events o siginfo (o_mkstemp o))
                (emits (entry_events o) (entered signum st))).
  destruct (gdbExtendedBacktrace_effect o (o_mkstemp o) stc) as [out [evs [E [Hev Hret]]]].
  destruct (Hret Hf) as [b ->]. unfold bind. rewrite E.
  exists evs. eexists. split; [reflexivity|]. split; [|split; [exact Hev|split]].
  - subst stc. unfold finished, closing_events, emits, entered. cbn [trace vars].
    rewrite <- !app_assoc. reflexivity.
  - unfold finished. cbn. now rewrite upd_same.
  - unfold finished. cbn [sigs pending set_pending]. apply add_pending_In.
Qed.

(** X10.  The forked child does nothing of the responder's ending: with
    [fork] returning 0 the responder does not return; the process becomes
    the debugger or, when [execve] fails, writes a note and exits with
    status 1.  It prints no message, restores no handler and raises no
    signal; the one descriptor it closes is the write end of the pipe. *)
Theorem posixExceptionHandler_in_forked_child dn o signum siginfo st p0 p1 :
  blocked signum st = true ->
  o_mkstemp o <> -1 ->
  programIsAvailable (vars st) = true ->
  gdbIsAvailable (vars st) = true ->
  o_pipe o = Some (p0, p1) ->
  o_fork o = 0 ->
  let fd := o_mkstemp o in
  let before :=
    guard_events (vars st) signum ++ entry_events o ++ capture_events o siginfo fd in
  let child := child_events (vars st) fd p0 p1 in
  (o_execve_fails o = false ->
   run (posixExceptionHandler dn o signum siginfo) st = Replaced
   /\ trace (exec (posixExceptionHandler dn o signum siginfo) st)
      = trace st ++ before ++ child)
  /\ (o_execve_fails o = true ->
      run (posixExceptionHandler dn o signum siginfo) st = Exited 1
      /\ trace (exec (posixExceptionHandler dn o signum siginfo) st)
         = trace st ++ before ++ child
           ++ [EvWrite fd ("execcv(" +++ dq +++ "gdb" +++ dq +++ ") failed" +++ nl);
               EvExit 1])
  /\ existsb is_signal_event child = false.
Proof.
  intros Hb Hm Hp Hg Ho Hz fd before child. subst fd before child. unfold run, exec.
  rewrite (posixExceptionHandler_blocked dn o signum siginfo st Hb). cbv zeta.
  destruct (Z.eqb_spec (o_mkstemp o) (-1)) as [|_]; [contradiction|].
  set (stc := emits (capture_events o siginfo (o_mkstemp o))
                (emits (entry_events o) (entered signum st))).
  assert (Hp' : programIsAvailable (vars stc) = true) by exact Hp.
  assert (Hg' : gdbIsAvailable (vars stc) = true) by exact Hg.
  pose proof (execGdb_child o (o_mkstemp o) (o_gdbPipe o) stc p0 p1 Hp' Hg' Ho Hz) as E.
  cbv zeta in E. unfold bind at 1. unfold gdbExtendedBacktrace, bind. rewrite E.
  assert (Htr : forall evs,
            trace (emits evs stc)
            = trace st ++ (guard_events (vars st) signum ++ entry_events o
                           ++ capture_events o siginfo (o_mkstemp o)) ++ evs).
  { intros evs. subst stc. unfold emits, entered. cbn [trace]. now rewrite <- !app_assoc. }
  split; [|split].
  - intros Hx. rewrite Hx. cbn [fst snd]. split; [reflexivity|].
    rewrite Htr. rewrite <- !app_assoc. reflexivity.
  - intros Hx. rewrite Hx. cbn [fst snd]. split; [reflexivity|].
    rewrite Htr. rewrite <- !app_assoc. reflexivity.
  - reflexivity.
Qed.

(** X11.  On every path the responder changes one static variable only: it
    sets allreadyRunning to 1 and never clears it.  The table oldAction, the
    cached paths and the availability flags are as they were. *)
Theorem posixExceptionHandler_sets_only_the_flag dn o signum siginfo st :
  blocked signum st = true ->
  vars (exec (posixExceptionHandler dn o signum siginfo) st)
  = set_allreadyRunning 1 (vars st).
Proof.
  intros Hb. unfold exec.
  rewrite (posixExceptionHandler_blocked dn o signum siginfo st Hb). cbv zeta.
  destruct (o_mkstemp o =? -1); [reflexivity|].
  set (stc := emits (capture_events o siginfo (o_mkstemp o))
                (emits (entry_events o) (entered signum st))).
  destruct (gdbExtendedBacktrace_effect o (o_mkstemp o) stc) as [out [evs [E _]]].
  unfold bind. rewrite E. destruct out; reflexivity.
Qed.

(** Signals of the fatal set end the process by default. *)
Lemma fatal_default_terminates sig : In sig fatal_signals -> default_terminates sig = true.
Proof.
  intros Hin. unfold default_terminates. apply existsb_exists. exists sig.
  split; [|apply Z.eqb_refl].
  unfold fatal_signals, if_xopen in Hin. destruct XOPEN_UNIX; simpl in Hin;
    repeat (destruct Hin as [<-|Hin]; [simpl; tauto|]); contradiction.
Qed.

Lemma deliver_default n world siginfo st :
  sa_handler (disposition (sigs st) (si_signo siginfo)) = SIG_DFL ->
  default_terminates (si_signo siginfo) = true ->
  deliver (S n) world siginfo st
  = (Killed (si_signo siginfo), emits [EvDefaultAction (si_signo siginfo)] st).
Proof. intros Hd Ht. cbn [deliver]. now rewrite Hd, Ht. Qed.

(** Outside the forked child the orchestrator returns, and all it leaves
    is events that are not about signals. *)
Lemma orchestrator_returns_run o dumpFile st :
  orchestrator_returns o (vars st) ->
  exists b evs,
    gdbExtendedBacktrace o dumpFile st = (Returned b, emits evs st)
    /\ existsb is_signal_event evs = false.
Proof.
  unfold orchestrator_returns. intros Hc.
  destruct (gdbExtendedBacktrace_paths o dumpFile st)
    as [[E _]|[[E _]|[[p0 [p1 [E _]]]|[[p0 [p1 [E [Hp [Hg [Ho Hz]]]]]]|[p0 [p1 [E _]]]]]]];
    cbv zeta in E.
  - do 2 eexists. split; [exact E|]. unfold unavailable_notes.
    destruct (programIsAvailable (vars st)), (gdbIsAvailable (vars st)); reflexivity.
  - do 2 eexists. split; [exact E|reflexivity].
  - do 2 eexists. split; [exact E|reflexivity].
  - exfalso. destruct Hc as [Hc|[Hc|[Hc|Hc]]]; congruence.
  - do 2 eexists. split; [exact E|]. unfold parent_events.
    destruct (verdict (o_waitpid o)); reflexivity.
Qed.

(** A first fault, captured in the faulting process: when the responder has
    returned, the kernel delivers the pending signal to whatever oldAction
    held. *)
Lemma first_fault_hands_over n world siginfo st :
  let signum := si_signo siginfo in
  let o := world (entries (sigs st)) in
  Z.land SA_SIGINFO SA_NODEFER = 0 ->
  disposition (sigs st) signum = responder_action ->
  allreadyRunning (vars st) = 0 ->
  blocked signum st = false ->
  pending (sigs st) = [] ->
  o_mkstemp o <> -1 ->
  orchestrator_returns o (vars st) ->
  exists gdb_events st3,
    deliver (S (S n)) world siginfo st = deliver (S n) world (raised signum) st3
    /\ exec (gdbExtendedBacktrace o (o_mkstemp o)) (capture_done o siginfo st)
       = emits gdb_events (capture_done o siginfo st)
    /\ trace st3
       = trace st
         ++ (entry_events o ++ capture_events o siginfo (o_mkstemp o) ++ gdb_events
             ++ [EvPrintf (saved_message o)])
         ++ [EvClose (o_mkstemp o);
             EvSigaction signum (Some (oldAction (vars st) signum)); EvRaise signum]
    /\ existsb is_signal_event
         (entry_events o ++ capture_events o siginfo (o_mkstemp o) ++ gdb_events
          ++ [EvPrintf (saved_message o)]) = false
    /\ disposition (sigs st3) signum = oldAction (vars st) signum
    /\ pending (sigs st3) = []
    /\ sigmask (sigs st3) = sigmask (sigs st)
    /\ vars st3 = set_allreadyRunning 1 (vars st).
Proof.
  intros signum o Hflags Hd Hr Hnb Hp Hm Hf. subst signum.
  rewrite (deliver_to_responder (S n) world siginfo st Hflags Hd). cbv zeta.
  rewrite (posixExceptionHandler_blocked _ _ _ _ _ (blocked_handler_entry _ st)). cbv zeta.
  fold o. destruct (Z.eqb_spec (o_mkstemp o) (-1)) as [|_]; [contradiction|].
  set (sig := si_signo siginfo) in *.
  set (stc := emits (capture_events o siginfo (o_mkstemp o))
                (emits (entry_events o) (entered sig (handler_entry sig st)))).
  destruct (orchestrator_returns_run o (o_mkstemp o) stc Hf) as [b [evs [E Hev]]].
  unfold bind. rewrite E.
  set (st2 := finished o sig (o_mkstemp o) (emits evs stc)).
  assert (Hpend2 : pending (sigs st2) = [sig]).
  { subst st2 stc. unfold finished, entered, handler_entry. cbn. rewrite Hr. cbn.
    rewrite Hp. reflexivity. }
  rewrite Hpend2. cbn [filter]. unfold blocked in Hnb. rewrite Hnb. cbn [negb].
  rewrite deliver_each_one.
  exists evs, (handler_exit (sigmask (sigs st)) st2).
  split; [reflexivity|]. split; [|split; [|split; [|split; [|split; [|split]]]]].
  - unfold exec, capture_done. fold sig. fold o. fold stc. now rewrite E.
  - subst st2 stc. unfold handler_exit, finished, entered, handler_entry, guard_events,
      closing_events, emits, with_sigs.
    cbn [trace vars sigs]. rewrite Hr. cbn [Z.eqb].
    rewrite <- !app_assoc. cbn [app]. reflexivity.
  - rewrite !existsb_app. rewrite Hev. unfold entry_events, capture_events.
    destruct GLIBC; reflexivity.
  - subst st2. unfold handler_exit, finished. cbn. now rewrite upd_same.
  - unfold handler_exit. cbn [sigs with_sigs pending set_pending]. rewrite Hpend2.
    cbn [filter]. now rewrite Hnb.
  - reflexivity.
  - reflexivity.
Qed.

(** X12.  A first fault on a signal of the fatal set whose disposition had
    been the default one ends the process by that same signal, and only
    after the artifact was written and closed and the default disposition
    put back: the responder itself never terminates the process. *)
Theorem fault_with_default_disposition_kills n world siginfo st :
  let signum := si_signo siginfo in
  let o := world (entries (sigs st)) in
  let fd := o_mkstemp o in
  let old := oldAction (vars st) signum in
  Z.land SA_SIGINFO SA_NODEFER = 0 ->
  In signum fatal_signals ->
  disposition (sigs st) signum = responder_action ->
  sa_handler old = SIG_DFL ->
  allreadyRunning (vars st) = 0 ->
  blocked signum st = false ->
  pending (sigs st) = [] ->
  fd <> -1 ->
  o_fork o <> 0 ->
  exists st' gdb_events,
    deliver (S (S n)) world siginfo st = (Killed signum, st')
    /\ trace st'
       = trace st
         ++ (entry_events o ++ capture_events o siginfo fd ++ gdb_events
             ++ [EvPrintf (saved_message o)])
         ++ [EvClose fd; EvSigaction signum (Some old); EvRaise signum;
             EvDefaultAction signum]
    /\ existsb is_signal_event
         (entry_events o ++ capture_events o siginfo fd ++ gdb_events
          ++ [EvPrintf (saved_message o)]) = false.
Proof.
  intros signum o fd old Hflags Hin Hd Hold Hr Hnb Hp Hm Hf. subst signum fd old.
  destruct (first_fault_hands_over n world siginfo st Hflags Hd Hr Hnb Hp Hm (or_introl Hf))
    as [evs [st3 [E [_ [Ht [Hev [Hd3 _]]]]]]].
  rewrite E.
  rewrite (deliver_default n world (raised (si_signo siginfo)) st3);
    [|cbn [si_signo raised]; now rewrite Hd3|now apply fatal_default_terminates].
  eexists. exists evs. split; [reflexivity|]. split; [|exact Hev].
  cbn [trace emits si_signo raised]. rewrite Ht. rewrite <- !app_assoc. reflexivity.
Qed.

End MoreResponder.

(** ** External Tool Locator and initialization *)

Section MoreLocator.
Context {P : Platform}.
Import Stdlib.Init.Byte.
Local Open Scope nat_scope.

(** The locator on an output that leaves room in the buffer. *)
Lemma fetchProgramPath_short popen bufSize programCommand :
  let out := popen (which_command programCommand) in
  List.length out < bufSize ->
  fetchProgramPath popen bufSize programCommand
  = (negb (List.length (first_line (c_string out)) =? 0),
     cut_linefeed (out ++ NUL :: repeat NUL (bufSize - List.length out - 1))).
Proof.
  intros out Hshort. unfold fetchProgramPath. fold out.
  rewrite (fread_short out bufSize Hshort).
  destruct (Nat.eqb_spec (List.length out) bufSize) as [Heq|_]; [lia|].
  set (zs := repeat NUL (bufSize - List.length out - 1)).
  fold (cut_linefeed (out ++ NUL :: zs)).
  rewrite (strlen_c_string (cut_linefeed (out ++ NUL :: zs))), c_string_cut_linefeed.
  now destruct (List.length (first_line (c_string out)) =? 0).
Qed.

Lemma fetchProgramPath_full popen bufSize programCommand :
  bufSize <= List.length (popen (which_command programCommand)) ->
  fst (fetchProgramPath popen bufSize programCommand) = false.
Proof.
  intros Hfull. unfold fetchProgramPath.
  rewrite (fread_full _ bufSize Hfull). now rewrite Nat.eqb_refl.
Qed.

Lemma first_line_of_line path rest :
  ~ In LF path -> first_line (path ++ LF :: rest) = path.
Proof.
  induction path as [|b path IH]; intros Hn; cbn [app first_line].
  - now rewrite byte_eqb_refl.
  - destruct (Byte.eqb b LF) eqn:Hb.
    + apply byte_eqb_eq in Hb. subst b. exfalso. apply Hn. now left.
    + rewrite IH; [reflexivity|]. intros Hin. apply Hn. now right.
Qed.

Lemma c_string_line path rest :
  ~ In NUL path -> c_string (path ++ LF :: rest) = path ++ c_string (LF :: rest).
Proof.
  induction path as [|b path IH]; intros Hn; cbn [app]; [reflexivity|].
  rewrite c_string_cons. destruct (Byte.eqb b NUL) eqn:Hb.
  - apply byte_eqb_eq in Hb. subst b. exfalso. apply Hn. now left.
  - rewrite IH; [reflexivity|]. intros Hin. apply Hn. now right.
Qed.

(** X13.  Round trip of the locator: when the command prints a path (not
    empty, without NUL or linefeed) followed by a linefeed and anything
    else, and all of it is shorter than the buffer, the locator succeeds and
    the buffer holds exactly that path as its string. *)
Theorem fetchProgramPath_returns_printed_path popen bufSize programCommand path rest :
  popen (which_command programCommand) = path ++ LF :: rest ->
  path <> [] ->
  ~ In NUL path ->
  ~ In LF path ->
  List.length (path ++ LF :: rest) < bufSize ->
  fst (fetchProgramPath popen bufSize programCommand) = true
  /\ c_string (snd (fetchProgramPath popen bufSize programCommand)) = path
  /\ List.length (snd (fetchProgramPath popen bufSize programCommand)) = bufSize.
Proof.
  intros Hout Hne Hnul Hlf Hlen.
  pose proof (fetchProgramPath_short popen bufSize programCommand) as E.
  cbv zeta in E. rewrite Hout in E. rewrite (E Hlen). cbn [fst snd].
  assert (Hline : first_line (c_string (path ++ LF :: rest)) = path).
  { rewrite (c_string_line path rest Hnul), c_string_cons. cbn [Byte.eqb].
    change (Byte.eqb LF NUL) with false. cbn iota.
    now apply first_line_of_line. }
  rewrite c_string_cut_linefeed, Hline. split; [|split; [reflexivity|]].
  - destruct path; [contradiction|reflexivity].
  - rewrite cut_linefeed_length, length_app. cbn [List.length].
    rewrite repeat_length. lia.
Qed.

End MoreLocator.

Section MoreStartup.
Context {P : Platform}.
Import Stdlib.Init.Byte.

(** The locator succeeds exactly on an output that leaves room in the buffer
    and starts with a line that is not empty; the array then holds that
    line. *)
Lemma fetchProgramPath_found popen bufSize programCommand :
  let out := popen (which_command programCommand) in
  let r := fetchProgramPath popen bufSize programCommand in
  (fst r = true <-> (List.length out < bufSize)%nat /\ first_line (c_string out) <> [])
  /\ (fst r = true -> array_string (snd r) = string_of_list_byte (first_line (c_string out))).
Proof.
  intros out r. subst r.
  destruct (Nat.le_gt_cases bufSize (List.length out)) as [Hfull|Hshort].
  - rewrite (fetchProgramPath_full popen bufSize programCommand Hfull).
    split; [split; [discriminate|intros [Hlt _]; fold out in Hfull; lia]|discriminate].
  - pose proof (fetchProgramPath_short popen bufSize programCommand Hshort) as E.
    fold out in E. rewrite E. cbn [fst snd].
    unfold array_string. fold (c_string (cut_linefeed
      (out ++ NUL :: repeat NUL (bufSize - List.length out - 1)))).
    rewrite c_string_cut_linefeed.
    destruct (first_line (c_string out)) as [|c l]; cbn.
    + split; [split; [discriminate|intros [_ Hne]; now elim Hne]|discriminate].
    + split; [split; [intros _; split; [exact Hshort|discriminate]|reflexivity]|reflexivity].
Qed.

(** Registration leaves the variables of the locator, the flag and the
    kernel's mask, pending set and entry count alone. *)
Lemma registered_fold_frame nh l : forall st,
  let st' := fold_left (registered nh) l st in
  gdbIsAvailable (vars st') = gdbIsAvailable (vars st)
  /\ programIsAvailable (vars st') = programIsAvailable (vars st)
  /\ gdbPath (vars st') = gdbPath (vars st)
  /\ programPath (vars st') = programPath (vars st)
  /\ programPID (vars st') = programPID (vars st)
  /\ allreadyRunning (vars st') = allreadyRunning (vars st)
  /\ sigmask (sigs st') = sigmask (sigs st)
  /\ pending (sigs st') = pending (sigs st)
  /\ entries (sigs st') = entries (sigs st).
Proof.
  induction l as [|s l IH]; intros st; cbn [fold_left]; [repeat split|].
  specialize (IH (registered nh st s)). cbv zeta in IH.
  destruct IH as (H1 & H2 & H3 & H4 & H5 & H6 & H7 & H8 & H9).
  rewrite H1, H2, H3, H4, H5, H6, H7, H8, H9. unfold registered. cbn.
  destruct (is_SIG_IGN (sa_handler (disposition (sigs st) s))); repeat split.
Qed.

Lemma setupExceptionHandler_run env argv0 st :
  setupExceptionHandler env argv0 st
  = (Returned {| sysInfoValid := env_uname env =? 0;
                 executionDate := sstrcpy MAX_DATE_STRING (env_ctime env) |},
     fold_left (registered responder_action) fatal_signals (located env argv0 st)).
Proof.
  unfold setupExceptionHandler, bind, modify, ret. cbv zeta.
  rewrite setFatalSignalHandler_run. reflexivity.
Qed.

Lemma emits_inj evs1 evs2 st : emits evs1 st = emits evs2 st -> evs1 = evs2.
Proof.
  intros E. apply (f_equal trace) in E. cbn in E. now apply app_inv_head in E.
Qed.

(** X14.  Initialization never fails and does not depend on what the locator
    found: it returns, keeps the flag of the responder as it was, and for
    every signal of the fatal set that was not ignored it has installed the
    responder and kept the former disposition in oldAction. *)
Theorem setupExceptionHandler_installs_responder env argv0 st sig :
  NoDup fatal_signals ->
  In sig fatal_signals ->
  sa_handler (disposition (sigs st) sig) <> SIG_IGN ->
  let st' := exec (setupExceptionHandler env argv0) st in
  (exists statics, run (setupExceptionHandler env argv0) st = Returned statics)
  /\ disposition (sigs st') sig = responder_action
  /\ oldAction (vars st') sig = disposition (sigs st) sig
  /\ allreadyRunning (vars st') = allreadyRunning (vars st).
Proof.
  intros Hnd Hin Hign st'. subst st'. unfold run, exec.
  rewrite setupExceptionHandler_run. cbn [fst snd].
  split; [eexists; reflexivity|].
  destruct (registered_all responder_action fatal_signals (located env argv0 st) sig Hnd Hin)
    as [Eold Edisp].
  destruct (registered_fold_frame responder_action fatal_signals (located env argv0 st))
    as (_ & _ & _ & _ & _ & Hflag & _).
  change (disposition (sigs (located env argv0 st)) sig)
    with (disposition (sigs st) sig) in Eold, Edisp.
  assert (Hi : is_SIG_IGN (sa_handler (disposition (sigs st) sig)) = false).
  { destruct (sa_handler (disposition (sigs st) sig)); try reflexivity. now elim Hign. }
  rewrite Hi in Edisp. repeat split; assumption.
Qed.

(** X15.  After initialization the debugger counts as available exactly
    when [which gdb] printed less than PATH_MAX bytes that start with a line
    that is not empty, and gdbPath is then that line; the same holds for the
    program itself with the command [argv[0]]. *)
Theorem setupExceptionHandler_caches_locations env argv0 st :
  let g := vars (exec (setupExceptionHandler env argv0) st) in
  let gdb_out := env_popen env (which_command "gdb") in
  let program_out := env_popen env (which_command argv0) in
  (gdbIsAvailable g = true
   <-> (List.length gdb_out < PATH_MAX)%nat /\ first_line (c_string gdb_out) <> [])
  /\ (gdbIsAvailable g = true
      -> gdbPath g = string_of_list_byte (first_line (c_string gdb_out)))
  /\ (programIsAvailable g = true
      <-> (List.length program_out < PATH_MAX)%nat /\ first_line (c_string program_out) <> [])
  /\ (programIsAvailable g = true
      -> programPath g = string_of_list_byte (first_line (c_string program_out))).
Proof.
  intros g gdb_out program_out. subst g. unfold exec.
  rewrite setupExceptionHandler_run. cbn [snd].
  destruct (registered_fold_frame responder_action fatal_signals (located env argv0 st))
    as (H1 & H2 & H3 & H4 & _).
  rewrite H1, H2, H3, H4.
  change (gdbIsAvailable (vars (located env argv0 st)))
    with (fst (fetchProgramPath (env_popen env) PATH_MAX "gdb")).
  change (gdbPath (vars (located env argv0 st)))
    with (array_string (snd (fetchProgramPath (env_popen env) PATH_MAX "gdb"))).
  change (programIsAvailable (vars (located env argv0 st)))
    with (fst (fetchProgramPath (env_popen env) PATH_MAX argv0)).
  change (programPath (vars (located env argv0 st)))
    with (array_string (snd (fetchProgramPath (env_popen env) PATH_MAX argv0))).
  destruct (fetchProgramPath_found (env_popen env) PATH_MAX "gdb") as [Gi Gp].
  destruct (fetchProgramPath_found (env_popen env) PATH_MAX argv0) as [Pi Pp].
  repeat split; try apply Gi; try apply Pi; try apply Gp; try apply Pp; auto.
Qed.

(** X16.  From startup to the crash, without a debugger: when [which gdb]
    printed nothing at initialization, a first fault on a signal of the fatal
    set with the default disposition still creates the artifact and writes
    its sections, then the notes "No extended backtrace dumped:" and "- GDB
    not available" instead of a debugger transcript; no pipe is created and
    no process is forked, and the process dies of the original signal. *)
Theorem fault_without_debugger n world env argv0 siginfo st0 :
  let signum := si_signo siginfo in
  let st := exec (setupExceptionHandler env argv0) st0 in
  let o := world (entries (sigs st0)) in
  let fd := o_mkstemp o in
  Z.land SA_SIGINFO SA_NODEFER = 0 ->
  NoDup fatal_signals ->
  In signum fatal_signals ->
  env_popen env (which_command "gdb") = [] ->
  sa_handler (disposition (sigs st0) signum) = SIG_DFL ->
  allreadyRunning (vars st0) = 0 ->
  blocked signum st0 = false ->
  pending (sigs st0) = [] ->
  fd <> -1 ->
  exists st',
    deliver (S (S n)) world siginfo st = (Killed signum, st')
    /\ trace st'
       = trace st
         ++ entry_events o
         ++ capture_events o siginfo fd
         ++ [EvWrite fd ("No extended backtrace dumped:" +++ nl)]
         ++ (if programIsAvailable (vars st) then []
             else [EvWrite fd ("- Program path not available" +++ nl)])
         ++ [EvWrite fd ("- GDB not available" +++ nl);
             EvPrintf (saved_message o);
             EvClose fd;
             EvSigaction signum (Some (disposition (sigs st0) signum));
             EvRaise signum;
             EvDefaultAction signum].
Proof.
  intros signum st o fd Hflags Hnd Hin Hgdb Hdfl Hr Hnb Hp Hm. subst signum fd.
  assert (Est : st = fold_left (registered responder_action) fatal_signals
                       (located env argv0 st0)).
  { subst st. unfold exec. now rewrite setupExceptionHandler_run. }
  destruct (registered_all responder_action fatal_signals (located env argv0 st0)
              (si_signo siginfo) Hnd Hin) as [Eold Edisp].
  destruct (registered_fold_frame responder_action fatal_signals (located env argv0 st0))
    as (Hg & Hpr & _ & _ & _ & Hflag & Hmask & Hpend & Hent).
  rewrite <- Est in Eold, Edisp, Hg, Hpr, Hflag, Hmask, Hpend, Hent.
  change (disposition (sigs (located env argv0 st0)) (si_signo siginfo))
    with (disposition (sigs st0) (si_signo siginfo)) in Eold, Edisp.
  rewrite Hdfl in Edisp. cbn [is_SIG_IGN] in Edisp.
  assert (Hgdb' : gdbIsAvailable (vars st) = false).
  { rewrite Hg.
    change (gdbIsAvailable (vars (located env argv0 st0)))
      with (fst (fetchProgramPath (env_popen env) PATH_MAX "gdb")).
    destruct (fetchProgramPath_found (env_popen env) PATH_MAX "gdb") as [Gi _].
    destruct (fst (fetchProgramPath (env_popen env) PATH_MAX "gdb")); [|reflexivity].
    destruct (proj1 Gi eq_refl) as [_ Hne]. rewrite Hgdb in Hne. now elim Hne. }
  assert (Ho : world (entries (sigs st)) = o) by (subst o; now rewrite Hent).
  assert (Hr' : allreadyRunning (vars st) = 0) by (now rewrite Hflag).
  assert (Hnb' : blocked (si_signo siginfo) st = false)
    by (unfold blocked in *; now rewrite Hmask).
  assert (Hp' : pending (sigs st) = []) by (now rewrite Hpend).
  destruct (first_fault_hands_over n world siginfo st Hflags Edisp Hr' Hnb' Hp'
              ltac:(rewrite Ho; exact Hm)
              ltac:(right; right; left; exact Hgdb'))
    as [evs [st3 [E [Egdb [Ht [_ [Hd3 _]]]]]]].
  rewrite Ho in Egdb, Ht.
  assert (Hevs : evs = unavailable_notes (o_mkstemp o) (vars st)).
  { apply (emits_inj _ _ (capture_done o siginfo st)). rewrite <- Egdb. unfold exec.
    rewrite (gdbExtendedBacktrace_no_child o (o_mkstemp o) (capture_done o siginfo st)
               (emits (unavailable_notes (o_mkstemp o) (vars st)) (capture_done o siginfo st))).
    - reflexivity.
    - rewrite (execGdb_unavailable o (o_mkstemp o) (o_gdbPipe o) (capture_done o siginfo st));
        [reflexivity|right; exact Hgdb']. }
  rewrite E.
  rewrite (deliver_default n world (raised (si_signo siginfo)) st3);
    [|cbn [si_signo raised]; rewrite Hd3, Eold; exact Hdfl
     |now apply fatal_default_terminates].
  eexists. split; [reflexivity|].
  cbn [trace emits si_signo raised]. rewrite Ht, Hevs, Eold.
  unfold unavailable_notes. rewrite Hgdb'. rewrite <- !app_assoc. reflexivity.
Qed.

End MoreStartup.

(** ** The Windows handler *)

Section MoreWindows.
Context {W : Win32}.

(** The calls of the handler before it hands over to the previous filter. *)
Lemma windowsExceptionHandler_chain prev o pExceptionInfo :
  exists body,
    existsb (fun e => match e with WPrevExceptionHandler _ _ _ => true | _ => false end) body
    = false
    /\ windowsExceptionHandler prev o pExceptionInfo
       = match prev with
         | Some filter =>
             (body ++ [WPrevExceptionHandler filter pExceptionInfo (w_prev_result o)],
              w_prev_result o)
         | None => (body, EXCEPTION_CONTINUE_SEARCH)
         end.
Proof.
  unfold windowsExceptionHandler. cbv zeta.
  set (path := sstrcat WIN_PATH_MAX _ _).
  destruct (w_answer o =? IDYES);
    [destruct (negb (w_CreateFileA o =? INVALID_HANDLE_VALUE));
     [destruct (w_MiniDumpWriteDump o)|]|];
    (eexists; split; [|destruct prev; [rewrite app_assoc|]; reflexivity]; reflexivity).
Qed.

(** X17.  The Windows handler always chains: whatever the user answered and
    whatever became of the dump, it ends by calling the filter that was
    installed before it, once and as its last act, and returns that
    filter's verdict; without such a filter it returns
    EXCEPTION_CONTINUE_SEARCH. *)
Theorem windowsExceptionHandler_always_chains prev o pExceptionInfo :
  let r := windowsExceptionHandler prev o pExceptionInfo in
  match prev with
  | Some filter =>
      snd r = w_prev_result o
      /\ previous_filter_calls (fst r)
         = [WPrevExceptionHandler filter pExceptionInfo (w_prev_result o)]
      /\ last (fst r) (WCloseHandle 0)
         = WPrevExceptionHandler filter pExceptionInfo (w_prev_result o)
  | None =>
      snd r = EXCEPTION_CONTINUE_SEARCH /\ previous_filter_calls (fst r) = []
  end.
Proof.
  cbv zeta.
  destruct (windowsExceptionHandler_chain prev o pExceptionInfo) as [body [Hb E]].
  rewrite E. unfold previous_filter_calls.
  assert (Hf : filter (fun e => match e with WPrevExceptionHandler _ _ _ => true | _ => false end)
                 body = []).
  { clear E. induction body as [|e body IH]; [reflexivity|].
    cbn in Hb. apply orb_false_iff in Hb. destruct Hb as [He Hb].
    cbn. rewrite He. now apply IH. }
  destruct prev as [f|]; cbn [fst snd].
  - split; [reflexivity|]. split.
    + rewrite filter_app, Hf. reflexivity.
    + apply last_last.
  - split; [reflexivity|exact Hf].
Qed.

(** X18.  No dump without consent: unless the first message box is answered
    with IDYES, the handler creates no file, writes no dump, closes no handle
    and shows no second message box. *)
Theorem windowsExceptionHandler_needs_consent prev o pExceptionInfo :
  w_answer o <> IDYES ->
  let evs := fst (windowsExceptionHandler prev o pExceptionInfo) in
  existsb is_dump_call evs = false
  /\ closed_handles evs = []
  /\ filter is_message_box evs = [WMessageBoxA crash_question applicationName MB_YESNO].
Proof.
  intros Hno evs. subst evs. unfold windowsExceptionHandler. cbv zeta.
  destruct (Z.eqb_spec (w_answer o) IDYES) as [|_]; [contradiction|].
  destruct prev; cbn; repeat split; reflexivity.
Qed.

(** X19.  With consent, the handler creates the dump file once, closes the
    handle it got exactly when that handle is valid, never closes
    INVALID_HANDLE_VALUE, writes the dump only into a valid handle, and
    reports the outcome in exactly one further message box. *)
Theorem windowsExceptionHandler_handle_discipline prev o pExceptionInfo :
  w_answer o = IDYES ->
  let evs := fst (windowsExceptionHandler prev o pExceptionInfo) in
  let valid := negb (w_CreateFileA o =? INVALID_HANDLE_VALUE) in
  closed_handles evs = (if valid then [w_CreateFileA o] else [])
  /\ List.length (filter is_dump_call evs) = (if valid then 2%nat else 1%nat)
  /\ List.length (filter is_message_box evs) = 2%nat
  /\ exists report, last (filter is_message_box evs) (WCloseHandle 0)
                    = WMessageBoxA report applicationName MB_OK.
Proof.
  intros Hyes evs valid. subst evs valid. unfold windowsExceptionHandler. cbv zeta.
  rewrite Hyes, Z.eqb_refl.
  set (path := sstrcat WIN_PATH_MAX _ _).
  destruct (negb (w_CreateFileA o =? INVALID_HANDLE_VALUE));
    [destruct (w_MiniDumpWriteDump o)|];
    destruct prev; cbn; repeat split; eexists; reflexivity.
Qed.

End MoreWindows.

(** ** The further properties on concrete inputs *)

(** Membership and non-membership in a concrete list of integers. *)
Ltac not_in_Z :=
  cbv; let H := fresh in
  intros H; repeat (destruct H as [H|H]; [discriminate H|]); exact H.

Lemma linux_fatal_signals_distinct : NoDup (@fatal_signals linux).
Proof. nodup_Z. Qed.

(** X2: a segmentation fault with a code that the classifier does not know. *)
Lemma wz_strsignal_names_fatal_signal_linux :
  exists d, In (11, d) (@fatal_descriptions linux)
            /\ prefix d (@wz_strsignal linux 11 77) = true.
Proof.
  apply (@wz_strsignal_names_fatal_signal linux 11 77 linux_signal_labels_distinct).
  cbv. tauto.
Defined.

(** X20: code 4 on the platform where POLL_ERR = POLL_HUP = 4. *)
Lemma wz_strsignal_SIGPOLL_same_codes_example :
  @wz_strsignal same_poll_codes 29 4
  = "SIGPOLL: Pollable event: " +++ dq +++ "I/O error" +++ dq
    +++ " or " +++ dq +++ "Device disconnected" +++ dq +++ "."
  /\ count_occ Z.eq_dec (labels (@poll_cases same_poll_codes)) 4 = 1%nat.
Proof.
  apply (@wz_strsignal_SIGPOLL_same_codes same_poll_codes 4);
    [nodup_Z | reflexivity | reflexivity | reflexivity | not_in_Z].
Defined.

(** X3: SIGTERM (15) is no fatal signal. *)
Lemma setFatalSignalHandler_leaves_SIGTERM_linux :
  disposition (sigs registered_state) 15 = default_action
  /\ oldAction (vars registered_state) 15 = default_action.
Proof.
  apply (@setFatalSignalHandler_leaves_other_signals linux ptr_posixExceptionHandler
           startup_state 15).
  not_in_Z.
Defined.

(** X4: after a second registration the handler of the application for
    SIGSEGV is gone from oldAction. *)
Lemma setFatalSignalHandler_twice_linux :
  oldAction (vars registered_state) 11 = foreign_action 7
  /\ oldAction (vars (exec (setFatalSignalHandler ptr_posixExceptionHandler) registered_state)) 11
     = responder_action
  /\ disposition (sigs (exec (setFatalSignalHandler ptr_posixExceptionHandler) registered_state)) 11
     = responder_action.
Proof.
  apply (@setFatalSignalHandler_twice linux ptr_posixExceptionHandler ptr_posixExceptionHandler
           startup_state 11 linux_fatal_signals_distinct).
  - cbv. tauto.
  - discriminate.
Defined.

(** X5: the entry kept for SIGSEGV. *)
Lemma installed_handler_has_live_predecessor_linux :
  is_SIG_IGN (sa_handler (oldAction (vars registered_state) 11)) = false.
Proof.
  apply (@installed_handler_has_live_predecessor linux ptr_posixExceptionHandler
           startup_state 11 linux_fatal_signals_distinct).
  - cbv. tauto.
  - reflexivity.
Defined.

(** X6: the debugger was killed. *)
Lemma gdbExtendedBacktrace_failure_is_noted_linux :
  exists evs note,
    exec (gdbExtendedBacktrace debugger_killed 3) startup_state = emits evs startup_state
    /\ In (EvWrite 3 note) evs
    /\ In note failure_notes.
Proof.
  apply (@gdbExtendedBacktrace_failure_is_noted linux debugger_killed 3 startup_state).
  reflexivity.
Defined.

(** X7: the debugger exited with status 0. *)
Lemma gdbExtendedBacktrace_success_linux :
  child_succeeded (o_waitpid good_run)
  /\ exec (gdbExtendedBacktrace good_run 3) startup_state
     = emits [EvPipe (Some (4, 5)); EvFork 4321;
              EvWrite 5 (gdbCommands +++ nul); EvFsync 5;
              EvWaitpid 4321 (waitpid_child 0); EvClose 5] startup_state.
Proof.
  destruct (@gdbExtendedBacktrace_success_means_debugger_ran linux good_run 3 startup_state
              eq_refl) as [_ [_ [Hc [p0 [p1 [Ho E]]]]]].
  split; [exact Hc|]. inversion Ho; subst p0 p1. exact E.
Defined.

(** X8: descriptor 4 stays open in the parent. *)
Lemma gdbExtendedBacktrace_parent_keeps_read_end_linux :
  exists evs,
    exec (gdbExtendedBacktrace good_run 3) startup_state = emits evs startup_state
    /\ leaked_pipe_fds evs = [4]
    /\ existsb (closes 4) evs = false
    /\ existsb (closes 5) evs = true.
Proof.
  apply (@gdbExtendedBacktrace_parent_keeps_read_end linux good_run 3 startup_state 4 5);
    first [reflexivity | discriminate].
Defined.

(** X9: the debugger was killed, the responder finishes all the same. *)
Lemma posixExceptionHandler_always_finalizes_linux :
  exists gdb_events st',
    posixExceptionHandler no_delivery debugger_killed 11 segv_maperr
      (handler_entry 11 registered_state) = (Returned tt, st')
    /\ trace st'
       = trace registered_state
         ++ entry_events debugger_killed
         ++ capture_events debugger_killed segv_maperr 3
         ++ gdb_events
         ++ [EvPrintf (saved_message debugger_killed); EvClose 3;
             EvSigaction 11 (Some (foreign_action 7)); EvRaise 11]
    /\ disposition (sigs st') 11 = foreign_action 7.
Proof.
  destruct (@posixExceptionHandler_always_finalizes linux no_delivery debugger_killed 11
              segv_maperr (handler_entry 11 registered_state)
              eq_refl ltac:(discriminate) ltac:(discriminate))
    as [evs [st' [E [Ht [_ [Hd _]]]]]].
  exists evs, st'. split; [exact E|]. split; [exact Ht|exact Hd].
Defined.

(** X10: the child that becomes the debugger. *)
Lemma posixExceptionHandler_in_forked_child_linux :
  run (posixExceptionHandler no_delivery in_child 11 segv_maperr)
    (handler_entry 11 registered_state) = Replaced
  /\ trace (exec (posixExceptionHandler no_delivery in_child 11 segv_maperr)
              (handler_entry 11 registered_state))
     = trace registered_state
       ++ (entry_events in_child ++ capture_events in_child segv_maperr 3)
       ++ [EvPipe (Some (4, 5)); EvFork 0; EvClose 5; EvDup2 4 0; EvDup2 3 1;
           EvWrite 3 ("GDB extended backtrace:" +++ nl);
           EvExecve "/usr/bin/gdb" ["/usr/bin/gdb"; "/usr/games/warzone2100"; "1234"] []].
Proof.
  destruct (@posixExceptionHandler_in_forked_child linux no_delivery in_child 11 segv_maperr
              (handler_entry 11 registered_state) 4 5
              eq_refl ltac:(discriminate) eq_refl eq_refl eq_refl eq_refl)
    as [Hok _].
  destruct (Hok eq_refl) as [Hr Ht]. split; [exact Hr|]. rewrite Ht. vm_compute. reflexivity.
Defined.

(** X11: the flag after a capture. *)
Lemma posixExceptionHandler_sets_only_the_flag_linux :
  vars (exec (posixExceptionHandler no_delivery good_run 11 segv_maperr)
          (handler_entry 11 registered_state))
  = set_allreadyRunning 1 (vars (handler_entry 11 registered_state)).
Proof.
  exact (@posixExceptionHandler_sets_only_the_flag linux no_delivery good_run 11 segv_maperr
           (handler_entry 11 registered_state) eq_refl).
Defined.

(** X12: an abort in a process that had the default disposition. *)
Lemma fault_with_default_disposition_kills_linux :
  exists st' gdb_events,
    deliver 2 (fun _ => good_run) abort_raised registered_state = (Killed 6, st')
    /\ trace st'
       = trace registered_state
         ++ (entry_events good_run ++ capture_events good_run abort_raised 3 ++ gdb_events
             ++ [EvPrintf (saved_message good_run)])
         ++ [EvClose 3; EvSigaction 6 (Some default_action); EvRaise 6; EvDefaultAction 6].
Proof.
  destruct (@fault_with_default_disposition_kills linux 0 (fun _ => good_run) abort_raised
              registered_state eq_refl ltac:(cbv; tauto) eq_refl eq_refl eq_refl eq_refl
              eq_refl ltac:(discriminate) ltac:(discriminate))
    as [st' [evs [E [Ht _]]]].
  exists st', evs. split; [exact E|exact Ht].
Defined.

(** X13: [which gdb] printed "/usr/bin/gdb" and a linefeed. *)
Lemma fetchProgramPath_returns_printed_path_linux :
  fst (@fetchProgramPath linux (fun _ => which_gdb_output) 4096 "gdb") = true
  /\ c_string (snd (@fetchProgramPath linux (fun _ => which_gdb_output) 4096 "gdb"))
     = firstn 12 which_gdb_output
  /\ List.length (snd (@fetchProgramPath linux (fun _ => which_gdb_output) 4096 "gdb"))
     = 4096%nat.
Proof.
  apply (@fetchProgramPath_returns_printed_path linux (fun _ => which_gdb_output) 4096 "gdb"
           (firstn 12 which_gdb_output) []).
  - reflexivity.
  - discriminate.
  - cbv. intros H. repeat (destruct H as [H|H]; [discriminate H|]). exact H.
  - cbv. intros H. repeat (destruct H as [H|H]; [discriminate H|]). exact H.
  - cbn. lia.
Defined.

(** X14: initialization where [which] finds nothing. *)
Lemma setupExceptionHandler_installs_responder_linux :
  (exists statics,
     run (setupExceptionHandler env_without_gdb "warzone2100") startup_state = Returned statics)
  /\ disposition (sigs (exec (setupExceptionHandler env_without_gdb "warzone2100") startup_state)) 6
     = responder_action
  /\ oldAction (vars (exec (setupExceptionHandler env_without_gdb "warzone2100") startup_state)) 6
     = default_action.
Proof.
  destruct (@setupExceptionHandler_installs_responder linux env_without_gdb "warzone2100"
              startup_state 6 linux_fatal_signals_distinct ltac:(cbv; tauto)
              ltac:(discriminate))
    as [Hr [Hd [Ho _]]].
  split; [exact Hr|]. split; [exact Hd|exact Ho].
Defined.

(** X16: an abort after an initialization that found no debugger. *)
Lemma fault_without_debugger_linux :
  exists st',
    deliver 2 (fun _ => good_run) abort_raised
      (exec (setupExceptionHandler env_without_gdb "warzone2100") startup_state)
    = (Killed 6, st')
    /\ skipn (List.length (trace registered_state)) (trace st')
       = entry_events good_run
         ++ capture_events good_run abort_raised 3
         ++ [EvWrite 3 ("No extended backtrace dumped:" +++ nl);
             EvWrite 3 ("- Program path not available" +++ nl);
             EvWrite 3 ("- GDB not available" +++ nl);
             EvPrintf (saved_message good_run);
             EvClose 3;
             EvSigaction 6 (Some default_action);
             EvRaise 6;
             EvDefaultAction 6].
Proof.
  destruct (@fault_without_debugger linux 0 (fun _ => good_run) env_without_gdb "warzone2100"
              abort_raised startup_state eq_refl linux_fatal_signals_distinct
              ltac:(cbv; tauto) eq_refl eq_refl eq_refl eq_refl eq_refl ltac:(discriminate))
    as [st' [E Ht]].
  exists st'. split; [exact E|]. rewrite Ht. vm_compute. reflexivity.
Defined.

(** X18: the user declines. *)
Lemma windowsExceptionHandler_needs_consent_example :
  existsb is_dump_call (fst (windowsExceptionHandler (Some 0%nat) user_declines (Some 4096)))
  = false
  /\ closed_handles (fst (windowsExceptionHandler (Some 0%nat) user_declines (Some 4096))) = []
  /\ filter is_message_box (fst (windowsExceptionHandler (Some 0%nat) user_declines (Some 4096)))
     = [WMessageBoxA crash_question applicationName 4].
Proof.
  apply (@windowsExceptionHandler_needs_consent windows_sdk (Some 0%nat) user_declines
           (Some 4096)).
  discriminate.
Defined.

(** X19: the user accepts and the file cannot be created. *)
Lemma windowsExceptionHandler_handle_discipline_example :
  closed_handles (fst (windowsExceptionHandler None dump_not_created None)) = []
  /\ closed_handles (fst (windowsExceptionHandler None dump_written None)) = [100].
Proof.
  destruct (@windowsExceptionHandler_handle_discipline windows_sdk None dump_not_created None
              eq_refl) as [H1 _].
  destruct (@windowsExceptionHandler_handle_discipline windows_sdk None dump_written None
              eq_refl) as [H2 _].
  split; [exact H1|exact H2].
Defined.

(** The Windows handler in full when the temporary directory is unknown and
    the file cannot be created. *)
Example windowsExceptionHandler_example :
  windowsExceptionHandler None dump_not_created None
  = ([WGetTempPathA 260 0;
      WMessageBoxA crash_question applicationName 4;
      WCreateFileA "c:\temp\warzone2100.mdmp" 1073741824 2 2 128 (-1);
      WGetLastError 5;
      WMessageBoxA "Failed to create dump file 'c:\temp\warzone2100.mdmp' (error 5)"
        applicationName 0],
     0).
Proof. vm_compute. reflexivity. Qed.
